(** * Usage accounting of the PDF assistant backend

    A shallow embedding of [backend/llm_integration/token_manager.py],
    [backend/utils/cost_logger.py] and of the part of the route handlers
    that calls them, together with the properties of the cost arithmetic,
    of the date-partitioned usage log and of the daily aggregation.

    Python [int] is [Z]; Python [float] is IEEE 754 binary64, taken from
    the executable specification in [SpecFloat] (53 bits of precision,
    round to nearest even); dictionaries used as maps are [gmap]s;
    dictionaries used as structures are records; [try]/[except] is an
    error monad. *)

From Stdlib Require Import ZArith Lia List Permutation.
From Stdlib Require Import Floats.SpecFloat.
From stdpp Require Import gmap strings list fin_maps pretty.

Local Open Scope string_scope.
Local Open Scope list_scope.
Local Open Scope Z_scope.

(** ** Exceptions and the error monad *)

Inductive exn :=
| OverflowError
| OSError
| KeyError
| JSONDecodeError.

Inductive result (A : Type) :=
| Ok (a : A)
| Raise (e : exn).
Arguments Ok {A} a.
Arguments Raise {A} e.

Definition rbind {A B} (r : result A) (k : A -> result B) : result B :=
  match r with
  | Ok a => k a
  | Raise e => Raise e
  end.

Notation "x <-! r ; k" := (rbind r (fun x => k))
  (at level 100, r at next level, right associativity).

(** [try: body except e => handler] *)
Definition try_except {A} (body : result A) (handler : exn -> A) : A :=
  match body with
  | Ok a => a
  | Raise e => handler e
  end.

(** ** Python floats *)

Module PyFloat.

Definition prec : Z := 53.
Definition emax : Z := 1024.

Definition float := spec_float.

Definition fadd : float -> float -> float := SFadd prec emax.
Definition fmul : float -> float -> float := SFmul prec emax.
Definition fdiv : float -> float -> float := SFdiv prec emax.

Definition pzero : float := S754_zero false.

Definition is_finite (f : float) : bool :=
  match f with
  | S754_zero _ | S754_finite _ _ _ => true
  | _ => false
  end.

(** [x >= 0] on floats: false on NaN, true on both zeros. *)
Definition nonneg (f : float) : bool := SFleb pzero f.

(** [a / b] for ints [a] and [b > 0]: the correctly rounded quotient,
    or [OverflowError] when it is too large for a float. *)
Definition int_truediv (a : Z) (b : positive) : result float :=
  match a with
  | Z0 => Ok pzero
  | Zpos p =>
      let q := fdiv (S754_finite false p 0) (S754_finite false b 0) in
      if is_finite q then Ok q else Raise OverflowError
  | Zneg p =>
      let q := fdiv (S754_finite true p 0) (S754_finite false b 0) in
      if is_finite q then Ok q else Raise OverflowError
  end.

(** [float(a)] for an int [a], as done by mixed int/float arithmetic. *)
Definition of_int (a : Z) : result float :=
  let f := binary_normalize prec emax a 0 false in
  if is_finite f then Ok f else Raise OverflowError.

(** The decimal literal [n / d] with [d] a power of ten (for instance
    [0.0035] is [lit 35 10000]): the float nearest to it. *)
Definition lit (n d : positive) : float :=
  fdiv (S754_finite false n 0) (S754_finite false d 0).

End PyFloat.
Import PyFloat.

(** ** Numbers: what a JSON number or an accumulator can be *)

Inductive num :=
| Int (z : Z)
| Flt (f : float).

(** [a + b] on numbers. *)
Definition num_add (a b : num) : result num :=
  match a, b with
  | Int x, Int y => Ok (Int (x + y))
  | Int x, Flt g => f <-! of_int x; Ok (Flt (fadd f g))
  | Flt f, Int y => g <-! of_int y; Ok (Flt (fadd f g))
  | Flt f, Flt g => Ok (Flt (fadd f g))
  end.

(** [a >= 0] on numbers. *)
Definition num_nonneg (a : num) : bool :=
  match a with
  | Int z => 0 <=? z
  | Flt f => nonneg f
  end.

(** ** The pricing table *)

Record pricing := { input : float; output : float }.

(** Default pricing per 1K tokens. *)
Definition default_model_pricing : gmap string pricing :=
  <["GPT-4o" := {| input := lit 1 100; output := lit 3 100 |}]>
  (<["Gemini-Flash" := {| input := lit 35 10000; output := lit 35 10000 |}]>
  (<["DeepSeek" := {| input := lit 9 10000; output := lit 9 10000 |}]>
  (<["Claude" := {| input := lit 8 1000; output := lit 24 1000 |}]>
  (<["Grok" := {| input := lit 5 1000; output := lit 15 1000 |}]> ∅)))).

Definition fallback_pricing : pricing :=
  {| input := lit 1 100; output := lit 3 100 |}.

(** [model_pricing.get(model, {"input": 0.01, "output": 0.03})] *)
Definition rate_for (model_pricing : gmap string pricing) (model : string) : pricing :=
  default fallback_pricing (model_pricing !! model).

(** ** JSON values and log entries *)

(** What [json.loads] can produce and [json.dumps] can write. *)
#[local] Unset Elimination Schemes.
Inductive json :=
| JNull
| JBool (b : bool)
| JNum (n : num)
| JStr (s : string)
| JArr (l : list json)
| JObj (o : gmap string json).
#[local] Set Elimination Schemes.

(** One line of a usage log, parsed: a JSON object in which each field the
    accounting code reads or writes is either absent or has the type the
    writers give it (numbers for counts and costs, strings for names). *)
Module Entry.
Record t := {
  timestamp : option string;
  model : option string;
  operation : option string;
  input_tokens : option num;
  output_tokens : option num;
  total_tokens : option num;
  input_cost : option num;
  output_cost : option num;
  cost : option num;
  total_cost : option num;
  error : option exn;
  metadata : option (gmap string json)
}.
End Entry.

(** The two functions of Python's [json] module the code calls. *)
Class JsonLib := {
  json_dumps : Entry.t -> string;
  json_loads : string -> result Entry.t
}.

(** ** Text files *)

Definition LF : Ascii.ascii := Ascii.ascii_of_nat 10.
Definition CR : Ascii.ascii := Ascii.ascii_of_nat 13.

(** [str.isspace] on the ASCII range. *)
Definition is_space (c : Ascii.ascii) : bool :=
  let n := Ascii.nat_of_ascii c in
  ((9 <=? n) && (n <=? 13) || (28 <=? n) && (n <=? 32))%nat.

(** [not line.strip()] *)
Fixpoint is_blank (line : string) : bool :=
  match line with
  | EmptyString => true
  | String c rest => is_space c && is_blank rest
  end.

(** The lines [for line in f] yields for a file opened in text mode:
    each line keeps its terminator, and a lone carriage return or a
    carriage return followed by a line feed is read as one line feed. *)
Fixpoint readlines_from (cur : string) (s : string) : list string :=
  match s with
  | EmptyString =>
      match cur with
      | EmptyString => []
      | _ => [cur]
      end
  | String c rest =>
      if Ascii.eqb c LF then (cur +:+ String LF EmptyString) :: readlines_from EmptyString rest
      else if Ascii.eqb c CR then
        match rest with
        | String c' rest' =>
            if Ascii.eqb c' LF then (cur +:+ String LF EmptyString) :: readlines_from EmptyString rest'
            else (cur +:+ String LF EmptyString) :: readlines_from EmptyString rest
        | EmptyString => [cur +:+ String LF EmptyString]
        end
      else readlines_from (cur +:+ String c EmptyString) rest
  end.

Definition readlines (content : string) : list string :=
  readlines_from EmptyString content.

(** The files of the log directory, and the paths that cannot be opened
    for appending. Reading an existing file always succeeds here. *)
Record filesystem := {
  files : gmap string string;
  denied : gset string
}.

(** [os.path.join(a, b)] on POSIX. *)
Definition path_join (a b : string) : string :=
  if String.prefix "/" b then b
  else if String.eqb a "" then b
  else if String.eqb (String.substring (String.length a - 1)%nat 1%nat a) "/" then a +:+ b
  else a +:+ "/" +:+ b.

(** [with open(path, "a") as f: f.write(text)] *)
Definition append_text (path text : string) (fs : filesystem) : result filesystem :=
  if decide (path ∈ denied fs) then Raise OSError
  else Ok {| files := <[path := default "" (files fs !! path) +:+ text]> (files fs);
             denied := denied fs |}.

Definition NL : string := String LF EmptyString.

(** ** What the accounting functions return *)

(** The cost breakdown of one call. [log_usage] leaves the two partial
    costs out of the dictionary it returns from its handler. *)
Module CostInfo.
Record t := {
  input_tokens : Z;
  output_tokens : Z;
  total_tokens : Z;
  input_cost : option num;
  output_cost : option num;
  cost : num;
  error : option exn
}.
End CostInfo.

Module OpSummary.
Record t := {
  count : Z;
  cost : num;
  tokens : num
}.
End OpSummary.

Module ModelSummary.
Record t := {
  cost : num;
  input_tokens : num;
  output_tokens : num;
  operations : gmap string OpSummary.t
}.
End ModelSummary.

Module Summary.
Record t := {
  date : string;
  total_cost : num;
  total_tokens : num;
  models : gmap string ModelSummary.t
}.
End Summary.

(** The summary of a date, or the dictionary [{"date", "error"}] of the
    handler. *)
Inductive daily_summary :=
| Totals (s : Summary.t)
| Degraded (date : string) (e : exn).

(** [date or datetime.now().strftime("%Y-%m-%d")] *)
Definition date_or_today (date : option string) (today : string) : string :=
  match date with
  | Some d => if String.eqb d "" then today else d
  | None => today
  end.

(** ** token_manager.py *)

Module TokenManager.

Record t := {
  model_pricing : gmap string pricing;
  log_dir : string
}.

(** [__init__]: [log_dir] is what the environment gives for
    [TOKEN_LOG_DIR]. *)
Definition init (pricing_arg : option (gmap string pricing)) (dir : string) : t :=
  {| model_pricing :=
       match pricing_arg with
       | Some mp => if decide (dom mp = ∅) then default_model_pricing else mp
       | None => default_model_pricing
       end;
     log_dir := dir |}.

Definition calculate_cost (self : t) (model : string) (input_tokens output_tokens : Z)
  : CostInfo.t :=
  try_except
    (let pricing := rate_for (model_pricing self) model in
     qi <-! int_truediv input_tokens 1000;
     let input_cost := fmul qi (input pricing) in
     qo <-! int_truediv output_tokens 1000;
     let output_cost := fmul qo (output pricing) in
     let total_cost := fadd input_cost output_cost in
     Ok {| CostInfo.input_tokens := input_tokens;
           CostInfo.output_tokens := output_tokens;
           CostInfo.total_tokens := input_tokens + output_tokens;
           CostInfo.input_cost := Some (Flt input_cost);
           CostInfo.output_cost := Some (Flt output_cost);
           CostInfo.cost := Flt total_cost;
           CostInfo.error := None |})
    (fun e =>
       {| CostInfo.input_tokens := input_tokens;
          CostInfo.output_tokens := output_tokens;
          CostInfo.total_tokens := input_tokens + output_tokens;
          CostInfo.input_cost := Some (Int 0);
          CostInfo.output_cost := Some (Int 0);
          CostInfo.cost := Int 0;
          CostInfo.error := Some e |}).

(** [f"token_log_{date}.jsonl"] inside the log directory. *)
Definition log_file (self : t) (date : string) : string :=
  path_join (log_dir self) ("token_log_" +:+ date +:+ ".jsonl").

(** [if metadata:] *)
Definition truthy (metadata : option (gmap string json)) : bool :=
  match metadata with
  | Some m => negb (bool_decide (dom m = ∅))
  | None => false
  end.

(** The dictionary [log_usage] builds and writes. *)
Definition log_entry (timestamp model operation : string) (cost_info : CostInfo.t)
    (metadata : option (gmap string json)) : Entry.t :=
  {| Entry.timestamp := Some timestamp;
     Entry.model := Some model;
     Entry.operation := Some operation;
     Entry.input_tokens := Some (Int (CostInfo.input_tokens cost_info));
     Entry.output_tokens := Some (Int (CostInfo.output_tokens cost_info));
     Entry.total_tokens := Some (Int (CostInfo.total_tokens cost_info));
     Entry.input_cost := CostInfo.input_cost cost_info;
     Entry.output_cost := CostInfo.output_cost cost_info;
     Entry.cost := Some (CostInfo.cost cost_info);
     Entry.total_cost := None;
     Entry.error := CostInfo.error cost_info;
     Entry.metadata := if truthy metadata then metadata else None |}.

(** [timestamp] and [today] are the two readings of the clock. *)
Definition log_usage `{JsonLib} (self : t) (timestamp today : string)
    (model operation : string) (input_tokens output_tokens : Z)
    (metadata : option (gmap string json)) (fs : filesystem)
  : CostInfo.t * filesystem :=
  try_except
    (let cost_info := calculate_cost self model input_tokens output_tokens in
     let entry := log_entry timestamp model operation cost_info metadata in
     fs' <-! append_text (log_file self today) (json_dumps entry +:+ NL) fs;
     Ok (cost_info, fs'))
    (fun e =>
       ({| CostInfo.input_tokens := input_tokens;
           CostInfo.output_tokens := output_tokens;
           CostInfo.total_tokens := input_tokens + output_tokens;
           CostInfo.input_cost := None;
           CostInfo.output_cost := None;
           CostInfo.cost := Int 0;
           CostInfo.error := Some e |}, fs)).

Definition new_model_summary : ModelSummary.t :=
  {| ModelSummary.cost := Int 0;
     ModelSummary.input_tokens := Int 0;
     ModelSummary.output_tokens := Int 0;
     ModelSummary.operations := ∅ |}.

Definition new_op_summary : OpSummary.t :=
  {| OpSummary.count := 0; OpSummary.cost := Int 0; OpSummary.tokens := Int 0 |}.

(** [d[k]] *)
Definition getitem {A} (d : gmap string A) (k : string) : result A :=
  match d !! k with
  | Some a => Ok a
  | None => Raise KeyError
  end.

(** [if k not in d: d[k] = a] *)
Definition setdefault {A} (k : string) (a : A) (d : gmap string A) : gmap string A :=
  match d !! k with
  | Some _ => d
  | None => <[k := a]> d
  end.

(** [entry.get(k, 0)] for a numeric field. *)
Definition get0 (field : option num) : num := default (Int 0) field.

(** The body of the loop over the lines, after parsing. *)
Definition update (summary : Summary.t) (entry : Entry.t) : result Summary.t :=
  total_cost <-! num_add (Summary.total_cost summary) (get0 (Entry.cost entry));
  total_tokens <-! num_add (Summary.total_tokens summary) (get0 (Entry.total_tokens entry));
  let model := default "unknown" (Entry.model entry) in
  let models := setdefault model new_model_summary (Summary.models summary) in
  model_summary <-! getitem models model;
  m_cost <-! num_add (ModelSummary.cost model_summary) (get0 (Entry.cost entry));
  m_in <-! num_add (ModelSummary.input_tokens model_summary) (get0 (Entry.input_tokens entry));
  m_out <-! num_add (ModelSummary.output_tokens model_summary) (get0 (Entry.output_tokens entry));
  let operation := default "unknown" (Entry.operation entry) in
  let operations := setdefault operation new_op_summary (ModelSummary.operations model_summary) in
  op_summary <-! getitem operations operation;
  o_cost <-! num_add (OpSummary.cost op_summary) (get0 (Entry.cost entry));
  o_tokens <-! num_add (OpSummary.tokens op_summary) (get0 (Entry.total_tokens entry));
  let op_summary' :=
    {| OpSummary.count := OpSummary.count op_summary + 1;
       OpSummary.cost := o_cost;
       OpSummary.tokens := o_tokens |} in
  let model_summary' :=
    {| ModelSummary.cost := m_cost;
       ModelSummary.input_tokens := m_in;
       ModelSummary.output_tokens := m_out;
       ModelSummary.operations := <[operation := op_summary']> operations |} in
  Ok {| Summary.date := Summary.date summary;
        Summary.total_cost := total_cost;
        Summary.total_tokens := total_tokens;
        Summary.models := <[model := model_summary']> models |}.

(** [for line in f: ...] *)
Fixpoint read_log `{JsonLib} (lines : list string) (summary : Summary.t)
  : result Summary.t :=
  match lines with
  | [] => Ok summary
  | line :: rest =>
      if is_blank line then read_log rest summary
      else
        entry <-! json_loads line;
        summary' <-! update summary entry;
        read_log rest summary'
  end.

Definition empty_summary (target_date : string) : Summary.t :=
  {| Summary.date := target_date;
     Summary.total_cost := Int 0;
     Summary.total_tokens := Int 0;
     Summary.models := ∅ |}.

Definition get_usage_summary `{JsonLib} (self : t) (today : string)
    (date : option string) (fs : filesystem) : daily_summary :=
  let target_date := date_or_today date today in
  try_except
    (match files fs !! log_file self target_date with
     | None => Ok (Totals (empty_summary target_date))
     | Some content =>
         summary <-! read_log (readlines content) (empty_summary target_date);
         Ok (Totals summary)
     end)
    (fun e => Degraded target_date e).

End TokenManager.

(** ** cost_logger.py *)

(** Dictionaries that are shared between a caller and a callee live in a
    heap and are passed by reference. *)
Abbreviation loc := positive.
Abbreviation heap := (gmap loc (gmap string num)).

Definition deref (h : heap) (l : loc) : gmap string num := default ∅ (h !! l).

Module CostModelSummary.
Record t := {
  cost : num;
  input_tokens : num;
  output_tokens : num;
  call_count : Z
}.
End CostModelSummary.

Module CostSummary.
Record t := {
  date : string;
  total_cost : num;
  total_input_tokens : num;
  total_output_tokens : num;
  models : gmap string CostModelSummary.t
}.
End CostSummary.

Inductive cost_daily_summary :=
| CostTotals (s : CostSummary.t)
| CostDegraded (date : string) (e : exn).

Module CostLogger.

Record t := {
  log_dir : string;
  model_pricing : gmap string pricing
}.

(** [__init__]: [dir] is what the environment gives for [COST_LOG_DIR]. *)
Definition init (dir : string) : t :=
  {| log_dir := dir; model_pricing := default_model_pricing |}.

(** [n / 1000] for a number [n]. *)
Definition div_1000 (n : num) : result float :=
  match n with
  | Int z => int_truediv z 1000
  | Flt f => Ok (fdiv f (S754_finite false 1000 0))
  end.

Definition log_file (self : t) (date : string) : string :=
  path_join (log_dir self) ("cost_log_" +:+ date +:+ ".jsonl").

Definition _write_to_log `{JsonLib} (self : t) (timestamp today : string)
    (model : string) (input_tokens output_tokens : num)
    (input_cost output_cost total_cost : float) (fs : filesystem) : filesystem :=
  try_except
    (let log_entry :=
       {| Entry.timestamp := Some timestamp;
          Entry.model := Some model;
          Entry.operation := None;
          Entry.input_tokens := Some input_tokens;
          Entry.output_tokens := Some output_tokens;
          Entry.total_tokens := None;
          Entry.input_cost := Some (Flt input_cost);
          Entry.output_cost := Some (Flt output_cost);
          Entry.cost := None;
          Entry.total_cost := Some (Flt total_cost);
          Entry.error := None;
          Entry.metadata := None |} in
     append_text (log_file self today) (json_dumps log_entry +:+ NL) fs)
    (fun e => fs).

(** [token_usage] is the caller's dictionary: the three assignments are
    made in it. *)
Definition log_cost `{JsonLib} (self : t) (timestamp today : string)
    (model : string) (token_usage : loc) (h : heap) (fs : filesystem)
  : heap * filesystem :=
  try_except
    (let d := deref h token_usage in
     let input_tokens := default (Int 0) (d !! "input_tokens") in
     let output_tokens := default (Int 0) (d !! "output_tokens") in
     let pricing := rate_for (model_pricing self) model in
     qi <-! div_1000 input_tokens;
     let input_cost := fmul qi (input pricing) in
     qo <-! div_1000 output_tokens;
     let output_cost := fmul qo (output pricing) in
     let total_cost := fadd input_cost output_cost in
     let d1 := <["input_cost" := Flt input_cost]> d in
     let d2 := <["output_cost" := Flt output_cost]> d1 in
     let d3 := <["cost" := Flt total_cost]> d2 in
     let fs' := _write_to_log self timestamp today model input_tokens output_tokens
                  input_cost output_cost total_cost fs in
     Ok (<[token_usage := d3]> h, fs'))
    (fun e => (h, fs)).

Definition new_model_summary : CostModelSummary.t :=
  {| CostModelSummary.cost := Int 0;
     CostModelSummary.input_tokens := Int 0;
     CostModelSummary.output_tokens := Int 0;
     CostModelSummary.call_count := 0 |}.

(** [entry[k]] *)
Definition field {A} (f : option A) : result A :=
  match f with
  | Some a => Ok a
  | None => Raise KeyError
  end.

Definition update (summary : CostSummary.t) (entry : Entry.t) : result CostSummary.t :=
  c <-! field (Entry.total_cost entry);
  total_cost <-! num_add (CostSummary.total_cost summary) c;
  i <-! field (Entry.input_tokens entry);
  total_in <-! num_add (CostSummary.total_input_tokens summary) i;
  o <-! field (Entry.output_tokens entry);
  total_out <-! num_add (CostSummary.total_output_tokens summary) o;
  model <-! field (Entry.model entry);
  let models := TokenManager.setdefault model new_model_summary (CostSummary.models summary) in
  ms <-! TokenManager.getitem models model;
  m_cost <-! num_add (CostModelSummary.cost ms) c;
  m_in <-! num_add (CostModelSummary.input_tokens ms) i;
  m_out <-! num_add (CostModelSummary.output_tokens ms) o;
  let ms' :=
    {| CostModelSummary.cost := m_cost;
       CostModelSummary.input_tokens := m_in;
       CostModelSummary.output_tokens := m_out;
       CostModelSummary.call_count := CostModelSummary.call_count ms + 1 |} in
  Ok {| CostSummary.date := CostSummary.date summary;
        CostSummary.total_cost := total_cost;
        CostSummary.total_input_tokens := total_in;
        CostSummary.total_output_tokens := total_out;
        CostSummary.models := <[model := ms']> models |}.

Fixpoint read_log `{JsonLib} (lines : list string) (summary : CostSummary.t)
  : result CostSummary.t :=
  match lines with
  | [] => Ok summary
  | line :: rest =>
      if is_blank line then read_log rest summary
      else
        entry <-! json_loads line;
        summary' <-! update summary entry;
        read_log rest summary'
  end.

Definition empty_summary (target_date : string) : CostSummary.t :=
  {| CostSummary.date := target_date;
     CostSummary.total_cost := Int 0;
     CostSummary.total_input_tokens := Int 0;
     CostSummary.total_output_tokens := Int 0;
     CostSummary.models := ∅ |}.

Definition get_daily_summary `{JsonLib} (self : t) (today : string)
    (date : option string) (fs : filesystem) : cost_daily_summary :=
  let target_date := date_or_today date today in
  try_except
    (match files fs !! log_file self target_date with
     | None => Ok (CostTotals (empty_summary target_date))
     | Some content =>
         summary <-! read_log (readlines content) (empty_summary target_date);
         Ok (CostTotals summary)
     end)
    (fun e => CostDegraded target_date e).

End CostLogger.

(** ** endpoints/summarize.py and endpoints/ask_question.py

    The handlers from the point where the language model has answered:
    [response] is what [generate_response] returned, its [token_usage]
    a reference to the dictionary the client built. *)

Module Routes.

Record response := {
  content : option string;
  token_usage : option loc
}.

(** The body of the HTTP reply: the text and the contents of the
    [token_usage] dictionary when the handler returns. *)
Record reply := {
  text : string;
  usage : gmap string num
}.

(** [response.get("token_usage", {})] *)
Definition get_token_usage (r : response) (h : heap) : loc * heap :=
  match token_usage r with
  | Some l => (l, h)
  | None => let l := fresh (dom h) in (l, <[l := ∅]> h)
  end.

Definition summarize `{JsonLib} (cost_logger : CostLogger.t) (timestamp today : string)
    (model : option string) (r : response) (h : heap) (fs : filesystem)
  : reply * heap * filesystem :=
  let model := default "GPT-4o" model in
  let summary := default "Failed to generate summary." (content r) in
  let '(token_usage, h) := get_token_usage r h in
  let '(h, fs) := CostLogger.log_cost cost_logger timestamp today model token_usage h fs in
  ({| text := summary; usage := deref h token_usage |}, h, fs).

Definition ask_question `{JsonLib} (cost_logger : CostLogger.t) (timestamp today : string)
    (model : option string) (r : response) (h : heap) (fs : filesystem)
  : reply * heap * filesystem :=
  let model := default "GPT-4o" model in
  let answer := default "Failed to generate an answer." (content r) in
  let '(token_usage, h) := get_token_usage r h in
  let '(h, fs) := CostLogger.log_cost cost_logger timestamp today model token_usage h fs in
  ({| text := answer; usage := deref h token_usage |}, h, fs).

End Routes.

(** ** Vocabulary of the properties *)

(** The entries the loop of [get_usage_summary] visits, in the order of
    the file: blank lines are skipped, every other line is parsed. *)
Fixpoint read_entries `{JsonLib} (lines : list string) : result (list Entry.t) :=
  match lines with
  | [] => Ok []
  | line :: rest =>
      if is_blank line then read_entries rest
      else
        entry <-! json_loads line;
        entries <-! read_entries rest;
        Ok (entry :: entries)
  end.

(** The loop body of [get_usage_summary] run over parsed entries. *)
Fixpoint aggregate (entries : list Entry.t) (summary : Summary.t) : result Summary.t :=
  match entries with
  | [] => Ok summary
  | entry :: rest =>
      summary' <-! TokenManager.update summary entry;
      aggregate rest summary'
  end.

(** Python's [sum(xs)]: from [0], left to right. *)
Fixpoint sum_from (acc : num) (xs : list num) : result num :=
  match xs with
  | [] => Ok acc
  | x :: rest => acc' <-! num_add acc x; sum_from acc' rest
  end.

Definition py_sum (xs : list num) : result num := sum_from (Int 0) xs.

Definition cost_of (e : Entry.t) : num := TokenManager.get0 (Entry.cost e).
Definition total_tokens_of (e : Entry.t) : num := TokenManager.get0 (Entry.total_tokens e).
Definition input_tokens_of (e : Entry.t) : num := TokenManager.get0 (Entry.input_tokens e).
Definition output_tokens_of (e : Entry.t) : num := TokenManager.get0 (Entry.output_tokens e).
Definition model_of (e : Entry.t) : string := default "unknown" (Entry.model e).
Definition operation_of (e : Entry.t) : string := default "unknown" (Entry.operation e).

(** The records of one model, and of one operation of one model, in
    arrival order. *)
Definition for_model (m : string) (es : list Entry.t) : list Entry.t :=
  filter (fun e => model_of e = m) es.

Definition for_operation (m op : string) (es : list Entry.t) : list Entry.t :=
  filter (fun e => operation_of e = op) (for_model m es).

(** A number written by [log_usage] as a cost: a float, or the [0] of
    the handler of [calculate_cost]. *)
Definition is_cost (n : num) : bool :=
  match n with
  | Flt _ => true
  | Int z => z =? 0
  end.

Definition is_int (n : num) : bool :=
  match n with
  | Int _ => true
  | Flt _ => false
  end.

(** A well-formed record: integer token counts and a cost. *)
Definition well_formed (e : Entry.t) : bool :=
  is_cost (cost_of e) && is_int (total_tokens_of e)
  && is_int (input_tokens_of e) && is_int (output_tokens_of e).

(** A summary with its cost fields blanked. *)
Definition erase_op (o : OpSummary.t) : OpSummary.t :=
  {| OpSummary.count := OpSummary.count o;
     OpSummary.cost := Int 0;
     OpSummary.tokens := OpSummary.tokens o |}.

Definition erase_model (ms : ModelSummary.t) : ModelSummary.t :=
  {| ModelSummary.cost := Int 0;
     ModelSummary.input_tokens := ModelSummary.input_tokens ms;
     ModelSummary.output_tokens := ModelSummary.output_tokens ms;
     ModelSummary.operations := erase_op <$> ModelSummary.operations ms |}.

Definition erase_costs (s : Summary.t) : Summary.t :=
  {| Summary.date := Summary.date s;
     Summary.total_cost := Int 0;
     Summary.total_tokens := Summary.total_tokens s;
     Summary.models := erase_model <$> Summary.models s |}.

(** One call of [log_usage]. *)
Record usage_call := {
  call_timestamp : string;
  call_model : string;
  call_operation : string;
  call_input_tokens : Z;
  call_output_tokens : Z;
  call_metadata : option (gmap string json)
}.

(** The record [log_usage] builds for a call. *)
Definition record_of (self : TokenManager.t) (c : usage_call) : Entry.t :=
  TokenManager.log_entry (call_timestamp c) (call_model c) (call_operation c)
    (TokenManager.calculate_cost self (call_model c) (call_input_tokens c)
       (call_output_tokens c))
    (call_metadata c).

(** A run of calls of [log_usage] on one day. *)
Fixpoint log_usages `{JsonLib} (self : TokenManager.t) (today : string)
    (calls : list usage_call) (fs : filesystem) : filesystem :=
  match calls with
  | [] => fs
  | c :: rest =>
      log_usages self today rest
        (snd (TokenManager.log_usage self (call_timestamp c) today (call_model c)
                (call_operation c) (call_input_tokens c) (call_output_tokens c)
                (call_metadata c) fs))
  end.

(** A line without a line terminator inside. *)
Fixpoint no_newline (s : string) : bool :=
  match s with
  | EmptyString => true
  | String c rest => negb (Ascii.eqb c LF) && negb (Ascii.eqb c CR) && no_newline rest
  end.

(** ** A JSON library for the examples

    Python's [json] on the lines and records of the examples below, and
    on nothing else: every other text is rejected, every other record is
    written as an empty object. *)

Definition DQ : string := String (Ascii.ascii_of_nat 34) EmptyString.
Definition jstr (s : string) : string := DQ +:+ s +:+ DQ.
Definition jfield (k v : string) : string := jstr k +:+ ": " +:+ v.
Definition jobject (fields : list string) : string :=
  "{" +:+ String.concat ", " fields +:+ "}".

Definition tm0 : TokenManager.t := TokenManager.init None "./token_logs".
Definition cl0 : CostLogger.t := CostLogger.init "./cost_logs".

Definition call1 : usage_call :=
  {| call_timestamp := "2024-05-01T09:00:00.000100";
     call_model := "GPT-4o"; call_operation := "summarize";
     call_input_tokens := 100; call_output_tokens := 100;
     call_metadata := None |}.

Definition call2 : usage_call :=
  {| call_timestamp := "2024-05-01T09:05:00.000200";
     call_model := "Claude"; call_operation := "summarize";
     call_input_tokens := 100; call_output_tokens := 100;
     call_metadata := None |}.

Definition call3 : usage_call :=
  {| call_timestamp := "2024-05-01T09:10:00.000300";
     call_model := "GPT-4o"; call_operation := "ask_question";
     call_input_tokens := 100; call_output_tokens := 200;
     call_metadata := Some {["pdf_name" := JStr "a.pdf"]} |}.

Definition call4 : usage_call :=
  {| call_timestamp := "2024-05-01T09:15:00.000400";
     call_model := "GPT-4o"; call_operation := "summarize";
     call_input_tokens := 1000; call_output_tokens := 500;
     call_metadata := None |}.

Definition text1 : string :=
  jobject [jfield "timestamp" (jstr "2024-05-01T09:00:00.000100");
           jfield "model" (jstr "GPT-4o"); jfield "operation" (jstr "summarize");
           jfield "input_tokens" "100"; jfield "output_tokens" "100";
           jfield "total_tokens" "200"; jfield "input_cost" "0.001";
           jfield "output_cost" "0.003"; jfield "cost" "0.004"].

Definition text2 : string :=
  jobject [jfield "timestamp" (jstr "2024-05-01T09:05:00.000200");
           jfield "model" (jstr "Claude"); jfield "operation" (jstr "summarize");
           jfield "input_tokens" "100"; jfield "output_tokens" "100";
           jfield "total_tokens" "200"; jfield "input_cost" "0.0008";
           jfield "output_cost" "0.0024000000000000002"; jfield "cost" "0.0032"].

Definition text3 : string :=
  jobject [jfield "timestamp" (jstr "2024-05-01T09:10:00.000300");
           jfield "model" (jstr "GPT-4o"); jfield "operation" (jstr "ask_question");
           jfield "input_tokens" "100"; jfield "output_tokens" "200";
           jfield "total_tokens" "300"; jfield "input_cost" "0.001";
           jfield "output_cost" "0.006"; jfield "cost" "0.007";
           jfield "metadata" (jobject [jfield "pdf_name" (jstr "a.pdf")])].

Definition text4 : string :=
  jobject [jfield "timestamp" (jstr "2024-05-01T09:15:00.000400");
           jfield "model" (jstr "GPT-4o"); jfield "operation" (jstr "summarize");
           jfield "input_tokens" "1000"; jfield "output_tokens" "500";
           jfield "total_tokens" "1500"; jfield "input_cost" "0.01";
           jfield "output_cost" "0.015"; jfield "cost" "0.025"].

(** A line of the cost log, as [_write_to_log] writes it. *)
Definition cost_entry5 : Entry.t :=
  {| Entry.timestamp := Some "2024-05-01T09:20:00.000500";
     Entry.model := Some "GPT-4o";
     Entry.operation := None;
     Entry.input_tokens := Some (Int 100);
     Entry.output_tokens := Some (Int 100);
     Entry.total_tokens := None;
     Entry.input_cost := Some (Flt (lit 1 1000));
     Entry.output_cost := Some (Flt (lit 3 1000));
     Entry.cost := None;
     Entry.total_cost := Some (Flt (lit 4 1000));
     Entry.error := None;
     Entry.metadata := None |}.

Definition text5 : string :=
  jobject [jfield "timestamp" (jstr "2024-05-01T09:20:00.000500");
           jfield "model" (jstr "GPT-4o");
           jfield "input_tokens" "100"; jfield "output_tokens" "100";
           jfield "input_cost" "0.001"; jfield "output_cost" "0.003";
           jfield "total_cost" "0.004"].

Definition sample_table : list (string * Entry.t) :=
  [(text1, record_of tm0 call1); (text2, record_of tm0 call2);
   (text3, record_of tm0 call3); (text4, record_of tm0 call4);
   (text5, cost_entry5)].

(** The text without the line feed that ends it. *)
Fixpoint chomp (s : string) : string :=
  match s with
  | EmptyString => EmptyString
  | String c rest =>
      if Ascii.eqb c LF && String.eqb rest "" then EmptyString
      else String c (chomp rest)
  end.

Definition sample_loads (s : string) : result Entry.t :=
  match list_find (fun p => chomp s = fst p) sample_table with
  | Some (_, (_, e)) => Ok e
  | None => Raise JSONDecodeError
  end.

Definition sample_dumps (e : Entry.t) : string :=
  match list_find (fun p => Entry.timestamp e = Entry.timestamp (snd p)) sample_table with
  | Some (_, (text, _)) => text
  | None => "{}"
  end.

Definition sample_json : JsonLib :=
  {| json_dumps := sample_dumps; json_loads := sample_loads |}.

(** The partition of the first of May in the examples. *)
Definition path0 : string := TokenManager.log_file tm0 "2024-05-01".

Definition fs_of (content : string) : filesystem :=
  {| files := {[path0 := content]}; denied := ∅ |}.

(** ** Further vocabulary and examples *)

(** A rate: a finite float that is not negative. *)
Definition rate_ok (r : float) : bool := is_finite r && nonneg r.

Definition pricing_ok (p : pricing) : bool := rate_ok (input p) && rate_ok (output p).

(** A manager built with a table in which one rate is infinite. *)
Definition tm_inf : TokenManager.t :=
  TokenManager.init
    (Some {["Premium" := {| input := S754_infinity false; output := lit 1 100 |}]})
    "./token_logs".


(** The text of a sequence of complete lines. *)
Fixpoint unlines (ls : list string) : string :=
  match ls with
  | [] => ""
  | l :: rest => (l +:+ NL) +:+ unlines rest
  end.

(** A partition with one record and one line that is not JSON. *)
Definition corrupt_content : string := text1 +:+ NL +:+ "{corrupt" +:+ NL.

(** The text [log_usage] appends for a call. *)
Definition line_of `{JsonLib} (self : TokenManager.t) (c : usage_call) : string :=
  json_dumps (record_of self c).

(** What a summary of operation, model and day is, in terms of the
    records it was built from: every total is the sum, in arrival order,
    of the corresponding field of the records it covers. *)
Definition op_summarises (es : list Entry.t) (os : OpSummary.t) : Prop :=
  OpSummary.count os = Z.of_nat (length es) /\
  py_sum (cost_of <$> es) = Ok (OpSummary.cost os) /\
  py_sum (total_tokens_of <$> es) = Ok (OpSummary.tokens os).

Definition model_summarises (es : list Entry.t) (ms : ModelSummary.t) : Prop :=
  py_sum (cost_of <$> es) = Ok (ModelSummary.cost ms) /\
  py_sum (input_tokens_of <$> es) = Ok (ModelSummary.input_tokens ms) /\
  py_sum (output_tokens_of <$> es) = Ok (ModelSummary.output_tokens ms) /\
  forall op,
    match ModelSummary.operations ms !! op with
    | Some os =>
        filter (fun e => operation_of e = op) es <> [] /\
        op_summarises (filter (fun e => operation_of e = op) es) os
    | None => filter (fun e => operation_of e = op) es = []
    end.

Definition summarises (d : string) (es : list Entry.t) (s : Summary.t) : Prop :=
  Summary.date s = d /\
  py_sum (cost_of <$> es) = Ok (Summary.total_cost s) /\
  py_sum (total_tokens_of <$> es) = Ok (Summary.total_tokens s) /\
  forall m,
    match Summary.models s !! m with
    | Some ms => for_model m es <> [] /\ model_summarises (for_model m es) ms
    | None => for_model m es = []
    end.

(** The integer a number stands for. *)
Definition int_of (n : num) : Z :=
  match n with
  | Int z => z
  | Flt _ => 0
  end.

Definition int_total (xs : list num) : Z := foldr (fun x acc => int_of x + acc) 0 xs.

Definition wf (e : Entry.t) : Prop := well_formed e = true.

(** The partition after three calls on the first of May. *)
Definition fs123 : filesystem :=
  log_usages (H := sample_json) tm0 "2024-05-01" [call1; call2; call3] (fs_of "").

(** The same three records, the last two in the other order. *)
Definition fs132 : filesystem :=
  log_usages (H := sample_json) tm0 "2024-05-01" [call1; call3; call2] (fs_of "").


(** The dictionary the client builds for 120 tokens in and 80 out. *)
Definition usage0 : gmap string num :=
  <["input_tokens" := Int 120]>
  (<["output_tokens" := Int 80]> (<["total_tokens" := Int 200]> ∅)).

Definition heap0 : heap := {[1%positive := usage0]}.

(** ** Inputs that Python reads as the definitions above do *)

(** A printable ASCII character: Python takes it for white space in no
    text. *)
Definition is_printable (c : Ascii.ascii) : bool :=
  let n := Ascii.nat_of_ascii c in
  ((33 <=? n) && (n <=? 126))%nat.

Fixpoint has_printable (s : string) : bool :=
  match s with
  | EmptyString => false
  | String c rest => is_printable c || has_printable rest
  end.

(** A text of ASCII characters: in it the white space of [str.strip],
    [str.split] and [str.isspace] is the white space of [is_space]. *)
Fixpoint ascii_text (s : string) : bool :=
  match s with
  | EmptyString => true
  | String c rest => (Ascii.nat_of_ascii c <? 128)%nat && ascii_text rest
  end.

Definition ascii_opt (s : option string) : bool :=
  match s with
  | Some s => ascii_text s
  | None => true
  end.


(** A JSON value that [json.dumps] writes: its ints are as above and
    its nesting, bounded by [depth], is within the recursion limit. *)
#[local] Unset Elimination Schemes.
#[local] Set Elimination Schemes.


(** ** Vocabulary of the further properties *)

(** The sum of a weight over a list, and of a value over a dictionary. *)
Definition sum_with {A} (w : A -> Z) (l : list A) : Z :=
  foldr (fun x acc => w x + acc) 0 l.

Definition map_sum {A} (val : A -> Z) (m : gmap string A) : Z :=
  map_fold (fun _ a acc => val a + acc) 0 m.

(** A record whose [total_tokens] is the sum of its two counts, as
    [calculate_cost] computes it. *)
Definition tokens_consistent (e : Entry.t) : Prop :=
  int_of (total_tokens_of e) = int_of (input_tokens_of e) + int_of (output_tokens_of e).


(** The tokens a model summary accounts for. *)
Definition model_tokens (ms : ModelSummary.t) : Z :=
  int_of (ModelSummary.input_tokens ms) + int_of (ModelSummary.output_tokens ms).

Definition op_tokens (os : OpSummary.t) : Z := int_of (OpSummary.tokens os).

(** The number of records a model summary counts over its operations. *)
Definition model_calls (ms : ModelSummary.t) : Z :=
  map_sum OpSummary.count (ModelSummary.operations ms).

(** The calls made for one model, in the order they were made. *)
Definition calls_of (m : string) (calls : list usage_call) : list usage_call :=
  filter (fun c => call_model c = m) calls.

(** What [os.path.join] puts before a relative file name. *)
Definition dir_prefix (a : string) : string :=
  if String.eqb a "" then ""
  else if String.eqb (String.substring (String.length a - 1)%nat 1%nat a) "/" then a
  else a +:+ "/".

(** ** Vocabulary of the cost log *)

Definition total_cost_of (e : Entry.t) : num := TokenManager.get0 (Entry.total_cost e).

(** A record that has the four keys [get_daily_summary] indexes. *)
Definition complete (e : Entry.t) : bool :=
  match Entry.total_cost e, Entry.input_tokens e, Entry.output_tokens e, Entry.model e with
  | Some _, Some _, Some _, Some _ => true
  | _, _, _, _ => false
  end.

(** A record as [log_cost] writes it for integer token counts. *)
Definition cost_well_formed (e : Entry.t) : bool :=
  complete e && is_cost (total_cost_of e)
  && is_int (input_tokens_of e) && is_int (output_tokens_of e).

Definition cwf (e : Entry.t) : Prop := cost_well_formed e = true.

(** The loop body of [get_daily_summary] run over parsed entries. *)
Fixpoint cost_aggregate (entries : list Entry.t) (summary : CostSummary.t)
  : result CostSummary.t :=
  match entries with
  | [] => Ok summary
  | entry :: rest =>
      summary' <-! CostLogger.update summary entry;
      cost_aggregate rest summary'
  end.

Definition cost_model_summarises (es : list Entry.t) (ms : CostModelSummary.t) : Prop :=
  CostModelSummary.call_count ms = Z.of_nat (length es) /\
  py_sum (total_cost_of <$> es) = Ok (CostModelSummary.cost ms) /\
  py_sum (input_tokens_of <$> es) = Ok (CostModelSummary.input_tokens ms) /\
  py_sum (output_tokens_of <$> es) = Ok (CostModelSummary.output_tokens ms).

Definition cost_summarises (d : string) (es : list Entry.t) (s : CostSummary.t) : Prop :=
  CostSummary.date s = d /\
  py_sum (total_cost_of <$> es) = Ok (CostSummary.total_cost s) /\
  py_sum (input_tokens_of <$> es) = Ok (CostSummary.total_input_tokens s) /\
  py_sum (output_tokens_of <$> es) = Ok (CostSummary.total_output_tokens s) /\
  forall m,
    match CostSummary.models s !! m with
    | Some ms => for_model m es <> [] /\ cost_model_summarises (for_model m es) ms
    | None => for_model m es = []
    end.

Definition tokens_in (e : Entry.t) : Z := int_of (input_tokens_of e).
Definition tokens_out (e : Entry.t) : Z := int_of (output_tokens_of e).

(** A cost log of the first of May with one record. *)
Definition cost_path0 : string := CostLogger.log_file cl0 "2024-05-01".

Definition cost_fs5 : filesystem :=
  {| files := {[cost_path0 := text5 +:+ NL]}; denied := ∅ |}.

(** A cost log that holds a record of the token log, which has no
    [total_cost]. *)
Definition cost_fs1 : filesystem :=
  {| files := {[cost_path0 := text5 +:+ NL +:+ text1 +:+ NL]}; denied := ∅ |}.

(** The record [log_cost] hands to [_write_to_log] for the dictionary
    [d], when the two divisions succeed. *)
Definition cost_record (self : CostLogger.t) (timestamp model : string)
    (d : gmap string num) : result Entry.t :=
  let input_tokens := default (Int 0) (d !! "input_tokens") in
  let output_tokens := default (Int 0) (d !! "output_tokens") in
  let pricing := rate_for (CostLogger.model_pricing self) model in
  qi <-! CostLogger.div_1000 input_tokens;
  let input_cost := fmul qi (input pricing) in
  qo <-! CostLogger.div_1000 output_tokens;
  let output_cost := fmul qo (output pricing) in
  Ok {| Entry.timestamp := Some timestamp;
        Entry.model := Some model;
        Entry.operation := None;
        Entry.input_tokens := Some input_tokens;
        Entry.output_tokens := Some output_tokens;
        Entry.total_tokens := None;
        Entry.input_cost := Some (Flt input_cost);
        Entry.output_cost := Some (Flt output_cost);
        Entry.cost := None;
        Entry.total_cost := Some (Flt (fadd input_cost output_cost));
        Entry.error := None;
        Entry.metadata := None |}.

(** The dictionary the client builds for 100 tokens in and 100 out. *)
Definition usage5 : gmap string num :=
  <["input_tokens" := Int 100]>
  (<["output_tokens" := Int 100]> (<["total_tokens" := Int 200]> ∅)).

Definition heap5 : heap := {[1%positive := usage5]}.

(** ** llm_integration/lite_llm_client.py *)

(** What a call into the network or into a library gives the client: a
    value, or an exception, of which the client uses [str(e)] only. *)
Inductive outcome (A : Type) :=
| Returned (a : A)
| Raised (msg : string).
Arguments Returned {A} a.
Arguments Raised {A} msg.

Definition obind {A B} (r : outcome A) (k : A -> outcome B) : outcome B :=
  match r with
  | Returned a => k a
  | Raised msg => Raised msg
  end.

Notation "x <-? r ; k" := (obind r (fun x => k))
  (at level 100, r at next level, right associativity).

(** The body of a chat completion, with the keys the client reads; a
    key that is absent is [None]. *)
Module ApiBody.
Record message := { content : option string }.
Record choice := { message_of : option message }.
Record t := {
  choices : option (list choice);
  usage : option (gmap string num)
}.
End ApiBody.

Record http_response := {
  status : Z;
  text : outcome string;
  json_body : outcome ApiBody.t
}.

Record chat_message := { role : string; msg_content : string }.

Record request := {
  url : string;
  authorization : string;
  req_model : string;
  messages : list chat_message;
  req_max_tokens : Z;
  temperature : float
}.

(** [text.split()] on the ASCII range: the maximal runs of characters
    that are not white space. *)
Fixpoint split_from (cur : string) (s : string) : list string :=
  match s with
  | EmptyString =>
      match cur with
      | EmptyString => []
      | _ => [cur]
      end
  | String c rest =>
      if is_space c then
        match cur with
        | EmptyString => split_from EmptyString rest
        | _ => cur :: split_from EmptyString rest
        end
      else split_from (cur +:+ String c EmptyString) rest
  end.

Definition split (s : string) : list string := split_from EmptyString s.

Record model_info := { provider : string; provider_model : string }.

Module LiteLLMClient.

(** [tokenizer] is [self.tokenizers.get("gpt")]: the [encode] of the
    encoding that [tiktoken] loaded, if it could load one. *)
Record t := {
  api_base_url : string;
  api_keys : gmap string string;
  tokenizer : option (string -> outcome (list Z))
}.

(** [__init__], with the environment and the outcome of
    [tiktoken.get_encoding]. *)
Definition init (getenv : string -> option string)
    (encoding : outcome (string -> outcome (list Z))) : t :=
  {| api_base_url := default "http://localhost:4000/v1" (getenv "LITELLM_API_URL");
     api_keys :=
       <["openai" := default "" (getenv "OPENAI_API_KEY")]>
       (<["google" := default "" (getenv "GOOGLE_API_KEY")]>
       (<["anthropic" := default "" (getenv "ANTHROPIC_API_KEY")]>
       (<["deepseek" := default "" (getenv "DEEPSEEK_API_KEY")]>
       (<["xai" := default "" (getenv "XAI_API_KEY")]> ∅))));
     tokenizer :=
       match encoding with
       | Returned encode => Some encode
       | Raised _ => None
       end |}.

Definition model_mapping : gmap string model_info :=
  <["GPT-4o" := {| provider := "openai"; provider_model := "gpt-4o" |}]>
  (<["Gemini-Flash" := {| provider := "google"; provider_model := "gemini-1.5-flash" |}]>
  (<["DeepSeek" := {| provider := "deepseek"; provider_model := "deepseek-coder" |}]>
  (<["Claude" := {| provider := "anthropic"; provider_model := "claude-3-sonnet-20240229" |}]>
  (<["Grok" := {| provider := "xai"; provider_model := "grok-1" |}]> ∅)))).

Definition word_count (text : string) : Z := Z.of_nat (length (split text)).

Definition _count_tokens (self : t) (text : string) : Z :=
  match tokenizer self with
  | Some encode =>
      match encode text with
      | Returned tokens => Z.of_nat (length tokens)
      | Raised _ => word_count text
      end
  | None => word_count text
  end.

(** The request [generate_response] posts. *)
Definition build_request (self : t) (model prompt : string) (max_tokens : Z)
    (system_message : option string) : outcome request :=
  info <-? match model_mapping !! model with
           | Some info => Returned info
           | None =>
               match model_mapping !! "GPT-4o" with
               | Some info => Returned info
               | None => Raised "'GPT-4o'"
               end
           end;
  let api_key := api_keys self !! provider info in
  let system :=
    match system_message with
    | Some s => if String.eqb s "" then [] else [{| role := "system"; msg_content := s |}]
    | None => []
    end in
  Returned
    {| url := api_base_url self +:+ "/chat/completions";
       authorization := "Bearer " +:+ default "None" api_key;
       req_model := provider_model info;
       messages := system ++ [{| role := "user"; msg_content := prompt |}];
       req_max_tokens := max_tokens;
       temperature := lit 7 10 |}.

(** [result.get("choices", [{}])[0].get("message", {}).get("content", "")] *)
Definition content_of (body : ApiBody.t) : outcome string :=
  match ApiBody.choices body with
  | None => Returned ""
  | Some [] => Raised "list index out of range"
  | Some (choice :: _) =>
      match ApiBody.message_of choice with
      | None => Returned ""
      | Some message => Returned (default "" (ApiBody.content message))
      end
  end.

Definition apology : string :=
  "I apologize, but I encountered an error while processing your request: ".

(** The body of the [try] of [generate_response]: the content and the
    [token_usage] dictionary. *)
Definition exchange (self : t) (post : request -> outcome http_response)
    (model prompt : string) (max_tokens : Z) (system_message : option string)
  : outcome (string * gmap string num) :=
  req <-? build_request self model prompt max_tokens system_message;
  let input_tokens := _count_tokens self prompt in
  response <-? post req;
  body <-? (if negb (status response =? 200) then
              error_text <-? text response;
              Raised ("API error: " +:+ pretty (status response) +:+ ", " +:+ error_text)
            else json_body response);
  content <-? content_of body;
  let usage := default ∅ (ApiBody.usage body) in
  let token_usage : gmap string num :=
    <["input_tokens" := default (Int input_tokens) (usage !! "prompt_tokens")]>
    (<["output_tokens" :=
         default (Int (_count_tokens self content)) (usage !! "completion_tokens")]>
    (<["total_tokens" :=
         default (Int (input_tokens + _count_tokens self content))
           (usage !! "total_tokens")]> ∅)) in
  Returned (content, token_usage).

(** [generate_response]: the dictionary of the token usage is a new
    object, to which the response refers. *)
Definition generate_response (self : t) (post : request -> outcome http_response)
    (model prompt : string) (max_tokens : Z) (system_message : option string)
    (h : heap) : Routes.response * heap :=
  let '(content, token_usage) :=
    match exchange self post model prompt max_tokens system_message with
    | Returned r => r
    | Raised msg =>
        (apology +:+ msg,
         <["input_tokens" := Int (_count_tokens self prompt)]>
         (<["output_tokens" := Int 0]>
         (<["total_tokens" := Int (_count_tokens self prompt)]> ∅)))
    end in
  let l := fresh (dom h) in
  ({| Routes.content := Some content; Routes.token_usage := Some l |},
   <[l := token_usage]> h).

End LiteLLMClient.

(** ** The request handlers, from the payload to the reply *)

(** [if s:] for a value that is a string or [None]. *)
Definition truthy_str (s : option string) : bool :=
  match s with
  | Some s => negb (String.eqb s "")
  | None => false
  end.

(** [f"{s}"] for a value that is a string or [None]. *)
Definition format_str (s : option string) : string := default "None" s.

(** [s.strip()] on the ASCII range. *)
Fixpoint lstrip (s : string) : string :=
  match s with
  | EmptyString => EmptyString
  | String c rest => if is_space c then lstrip rest else s
  end.

Fixpoint rstrip (s : string) : string :=
  match s with
  | EmptyString => EmptyString
  | String c rest => if is_space c && is_blank rest then EmptyString else String c (rstrip rest)
  end.

Definition strip (s : string) : string := rstrip (lstrip s).

Definition doc_context (document_name : option string) : string :=
  if truthy_str document_name
  then "document '" +:+ format_str document_name +:+ "'"
  else "the provided document".

Definition create_summary_prompt (content document_name : option string) : string :=
  strip
    (NL +:+
     "    Please provide a comprehensive summary of " +:+ doc_context document_name
       +:+ ". Focus on the key points, main ideas, " +:+ NL +:+
     "    and important details. The summary should be well-structured and capture the essence of the content."
       +:+ NL +:+
     "    " +:+ NL +:+
     "    Here is the content to summarize:" +:+ NL +:+
     "    " +:+ NL +:+
     "    " +:+ format_str content +:+ NL +:+
     "    ").

Definition create_qa_prompt (question context document_name : option string) : string :=
  strip
    (NL +:+
     "    Please answer the following question about " +:+ doc_context document_name
       +:+ ". Base your answer only on the " +:+ NL +:+
     "    information provided in the context. If the answer cannot be found in the context, please "
       +:+ NL +:+
     "    state that clearly." +:+ NL +:+
     "    " +:+ NL +:+
     "    Context:" +:+ NL +:+
     "    " +:+ format_str context +:+ NL +:+
     "    " +:+ NL +:+
     "    Question:" +:+ NL +:+
     "    " +:+ format_str question +:+ NL +:+
     "    ").

(** ** utils/redis_stream.py *)

Module RedisStreamClient.

(** [self.redis]: the entries added to the streams so far, the newest
    last, or [None] in fallback mode. *)
Record t := {
  redis : option (list (string * gmap string string))
}.

(** A value of the dictionary that is published: a string or [None], or
    a dictionary of numbers. *)
Inductive value :=
| VStr (s : option string)
| VDict (d : gmap string num).

(** [json.dumps(v) if isinstance(v, (dict, list)) else str(v)] *)
Definition render (dumps : gmap string num -> outcome string) (v : value) : outcome string :=
  match v with
  | VDict d => dumps d
  | VStr s => Returned (format_str s)
  end.

(** [publish]: [dumps] is [json.dumps] on dictionaries of numbers, and
    [xadd_ok] tells whether the server takes the entry. The comprehension
    raises when [dumps] raises for a value; that exception and the
    exceptions of [xadd] are logged and nothing is added. *)
Definition publish (dumps : gmap string num -> outcome string) (xadd_ok : bool) (self : t)
    (stream : string) (data : gmap string value) : t :=
  match redis self with
  | None => self
  | Some entries =>
      let string_data :=
        omap (fun v => match render dumps v with
                       | Returned text => Some text
                       | Raised _ => None
                       end) data in
      if bool_decide (dom string_data = dom data) && xadd_ok
      then {| redis := Some (entries ++ [(stream, string_data)]) |}
      else self
  end.

End RedisStreamClient.

Module Endpoints.

(** The JSON body of a request. [model] is [None] when the key is
    absent, and a string otherwise; the other keys are read with
    [payload.get(k)], which gives [None] for a key that is absent and
    for a null alike. *)
Record payload := {
  model : option string;
  question : option string;
  pdf_content : option string;
  pdf_name : option string;
  selected_text : option string
}.

Inductive http_result :=
| Reply (r : Routes.reply)
| HTTPException (status_code : Z) (detail : string).

(** The clients of the module and what is outside of it: the provider
    behind [post], and the Redis server. *)
Record services := {
  redis_client : RedisStreamClient.t;
  cost_logger : CostLogger.t;
  llm_client : LiteLLMClient.t;
  post : request -> outcome http_response;
  dumps : gmap string num -> outcome string;
  xadd_ok : bool
}.

(** What a request leaves behind: the result, the stream, the
    dictionaries and the log directory. *)
Record served := {
  result : http_result;
  stream : RedisStreamClient.t;
  dictionaries : heap;
  logs : filesystem
}.

Definition rejected (sv : services) (detail : string) (h : heap) (fs : filesystem) : served :=
  {| result := HTTPException 400 detail;
     stream := redis_client sv;
     dictionaries := h;
     logs := fs |}.

(** [summarize]. Nothing after the validation raises: [generate_response],
    [publish] and [log_cost] catch their exceptions. *)
Definition summarize `{JsonLib} (sv : services) (timestamp today : string) (p : payload)
    (h : heap) (fs : filesystem) : served :=
  if negb (truthy_str (pdf_content p)) && negb (truthy_str (pdf_name p))
  then rejected sv "Missing PDF content or name" h fs
  else
    let content_to_summarize :=
      if truthy_str (selected_text p) then selected_text p else pdf_content p in
    let prompt := create_summary_prompt content_to_summarize (pdf_name p) in
    let '(response, h) :=
      LiteLLMClient.generate_response (llm_client sv) (post sv) (default "GPT-4o" (model p))
        prompt 1000 None h in
    let redis :=
      RedisStreamClient.publish (dumps sv) (xadd_ok sv) (redis_client sv) "llm_usage"
        (<["action" := RedisStreamClient.VStr (Some "summarize")]>
         (<["model" := RedisStreamClient.VStr (Some (default "GPT-4o" (model p)))]>
         (<["pdf_name" := RedisStreamClient.VStr (pdf_name p)]>
         (<["token_usage" :=
              RedisStreamClient.VDict (deref (snd (Routes.get_token_usage response h))
                                         (fst (Routes.get_token_usage response h)))]> ∅)))) in
    let '(reply, h, fs) :=
      Routes.summarize (cost_logger sv) timestamp today (model p) response h fs in
    {| result := Reply reply; stream := redis; dictionaries := h; logs := fs |}.

Definition ask_question `{JsonLib} (sv : services) (timestamp today : string) (p : payload)
    (h : heap) (fs : filesystem) : served :=
  if negb (truthy_str (question p))
  then rejected sv "Missing question" h fs
  else if negb (truthy_str (pdf_content p)) && negb (truthy_str (pdf_name p))
  then rejected sv "Missing PDF content or name" h fs
  else
    let context :=
      if truthy_str (selected_text p) then selected_text p else pdf_content p in
    let prompt := create_qa_prompt (question p) context (pdf_name p) in
    let '(response, h) :=
      LiteLLMClient.generate_response (llm_client sv) (post sv) (default "GPT-4o" (model p))
        prompt 1000 None h in
    let redis :=
      RedisStreamClient.publish (dumps sv) (xadd_ok sv) (redis_client sv) "llm_usage"
        (<["action" := RedisStreamClient.VStr (Some "ask_question")]>
         (<["model" := RedisStreamClient.VStr (Some (default "GPT-4o" (model p)))]>
         (<["pdf_name" := RedisStreamClient.VStr (pdf_name p)]>
         (<["question" := RedisStreamClient.VStr (question p)]>
         (<["token_usage" :=
              RedisStreamClient.VDict (deref (snd (Routes.get_token_usage response h))
                                         (fst (Routes.get_token_usage response h)))]> ∅))))) in
    let '(reply, h, fs) :=
      Routes.ask_question (cost_logger sv) timestamp today (model p) response h fs in
    {| result := Reply reply; stream := redis; dictionaries := h; logs := fs |}.

End Endpoints.

(** ** Vocabulary of the exchange with the provider *)

(** The ways the exchange for a request can fail, with the text of the
    exception: the post itself raises; the status is not 200; the body
    cannot be read; the list of choices is empty. *)
Definition fails_with (post : request -> outcome http_response) (req : request)
    (msg : string) : Prop :=
  post req = Raised msg \/
  exists resp,
    post req = Returned resp /\
    ((status resp <> 200 /\
      (text resp = Raised msg \/
       exists t, text resp = Returned t /\
                 msg = "API error: " +:+ pretty (status resp) +:+ ", " +:+ t)) \/
     (status resp = 200 /\
      (json_body resp = Raised msg \/
       exists body, json_body resp = Returned body /\
                    ApiBody.choices body = Some [] /\
                    msg = "list index out of range"))).

(** The dictionary of a call that failed after counting [n] tokens in
    the prompt. *)
Definition failed_usage (n : Z) : gmap string num :=
  <["input_tokens" := Int n]>
  (<["output_tokens" := Int 0]> (<["total_tokens" := Int n]> ∅)).

(** A client without tokenizer and a provider that cannot be reached. *)
Definition llm0 : LiteLLMClient.t :=
  LiteLLMClient.init (fun _ => None) (Raised "no encoding").

Definition post_down (req : request) : outcome http_response :=
  Raised "Cannot connect to host localhost:4000".

(** A provider that answers every request with one choice and no usage. *)
Definition post_ok (req : request) : outcome http_response :=
  Returned
    {| status := 200;
       text := Returned "";
       json_body :=
         Returned
           {| ApiBody.choices :=
                Some [{| ApiBody.message_of :=
                           Some {| ApiBody.content := Some "A short summary." |} |}];
              ApiBody.usage := None |} |}.

(** A rate that is a positive finite float. *)
Definition positive_rate (r : float) : bool :=
  match r with
  | S754_finite false _ _ => true
  | _ => false
  end.

Definition positive_pricing (p : pricing) : bool :=
  positive_rate (input p) && positive_rate (output p).

(** A float that is zero, positive or plus infinity, and not minus zero. *)
Definition plus_signed (x : float) : bool :=
  match x with
  | S754_zero false | S754_infinity false | S754_finite false _ _ => true
  | _ => false
  end.

(** A request that names a document and holds no text. *)
Definition payload_name_only : Endpoints.payload :=
  {| Endpoints.model := Some "GPT-4o";
     Endpoints.question := None;
     Endpoints.pdf_content := None;
     Endpoints.pdf_name := Some "a.pdf";
     Endpoints.selected_text := None |}.

Definition payload_text : Endpoints.payload :=
  {| Endpoints.model := Some "Llama";
     Endpoints.question := Some "What is it about?";
     Endpoints.pdf_content := Some "A text of five words.";
     Endpoints.pdf_name := None;
     Endpoints.selected_text := None |}.

(** What the handlers reply when the call to the provider failed with
    [msg] after counting [n] tokens in the prompt, for the input cost
    [ic]. *)
Definition failed_reply (msg : string) (n : Z) (ic : float) : Routes.reply :=
  {| Routes.text := LiteLLMClient.apology +:+ msg;
     Routes.usage :=
       <["cost" := Flt ic]>
       (<["output_cost" := Flt pzero]>
       (<["input_cost" := Flt ic]> (failed_usage n))) |}.

(** A payload whose texts are ASCII. *)
Definition ascii_payload (p : Endpoints.payload) : bool :=
  ascii_opt (Endpoints.question p) && ascii_opt (Endpoints.pdf_content p)
  && ascii_opt (Endpoints.pdf_name p) && ascii_opt (Endpoints.selected_text p).

(** The prompts of the two handlers for a payload. *)
Definition summary_prompt_of (p : Endpoints.payload) : string :=
  create_summary_prompt
    (if truthy_str (Endpoints.selected_text p) then Endpoints.selected_text p
     else Endpoints.pdf_content p)
    (Endpoints.pdf_name p).

Definition qa_prompt_of (p : Endpoints.payload) : string :=
  create_qa_prompt (Endpoints.question p)
    (if truthy_str (Endpoints.selected_text p) then Endpoints.selected_text p
     else Endpoints.pdf_content p)
    (Endpoints.pdf_name p).

(** The text of the template of [create_summary_prompt] between its
    leading white space and the content. *)
Definition summary_instruction (doc : string) : string :=
  "Please provide a comprehensive summary of " +:+ doc
    +:+ ". Focus on the key points, main ideas, " +:+ NL +:+
  "    and important details. The summary should be well-structured and capture the essence of the content."
    +:+ NL +:+
  "    " +:+ NL +:+
  "    Here is the content to summarize:" +:+ NL +:+
  "    " +:+ NL +:+
  "    ".

(** A provider that answers every request with the content [c] and
    reports no usage. *)
Definition answers_with (post : request -> outcome http_response) (c : string) : Prop :=
  forall req, exists resp body,
    post req = Returned resp /\
    status resp = 200 /\
    json_body resp = Returned body /\
    LiteLLMClient.content_of body = Returned c /\
    ApiBody.usage body = None.

(** The dictionary of a call for which the client counted [n] tokens
    in and [m] tokens out. *)
Definition counted_usage (n m : Z) : gmap string num :=
  <["input_tokens" := Int n]>
  (<["output_tokens" := Int m]> (<["total_tokens" := Int (n + m)]> ∅)).

(** A reply with the text [c] whose usage is the counted one with the
    costs of the breakdown [ci]. *)
Definition billed_reply (c : string) (ci : CostInfo.t) : Routes.reply :=
  {| Routes.text := c;
     Routes.usage :=
       <["cost" := CostInfo.cost ci]>
       (<["output_cost" := default (Int 0) (CostInfo.output_cost ci)]>
       (<["input_cost" := default (Int 0) (CostInfo.input_cost ci)]>
          (counted_usage (CostInfo.input_tokens ci) (CostInfo.output_tokens ci)))) |}.

(** The services of the examples: a connected stream without entries,
    and a provider that is down or that answers. [sample_dumps_usage] is
    [json.dumps] on the dictionaries the client builds, three integer
    counts in the order of insertion, and on nothing else. *)
Definition sample_dumps_usage (d : gmap string num) : string :=
  jobject
    (omap (fun k => match d !! k with
                    | Some (Int z) => Some (jfield k (pretty z))
                    | _ => None
                    end)
       ["input_tokens"; "output_tokens"; "total_tokens"]).

Definition services_down : Endpoints.services :=
  {| Endpoints.redis_client := {| RedisStreamClient.redis := Some [] |};
     Endpoints.cost_logger := cl0;
     Endpoints.llm_client := llm0;
     Endpoints.post := post_down;
     Endpoints.dumps := fun d => Returned (sample_dumps_usage d);
     Endpoints.xadd_ok := true |}.

Definition services_ok : Endpoints.services :=
  {| Endpoints.redis_client := {| RedisStreamClient.redis := Some [] |};
     Endpoints.cost_logger := cl0;
     Endpoints.llm_client := llm0;
     Endpoints.post := post_ok;
     Endpoints.dumps := fun d => Returned (sample_dumps_usage d);
     Endpoints.xadd_ok := true |}.

(** ** frontend/app.py *)

Module Frontend.

(** [st.session_state.token_usage] *)
Record totals := {
  total_input_tokens : num;
  total_output_tokens : num;
  total_cost : num
}.

Record session := {
  chat_history : list chat_message;
  selected_model : string;
  pdf_content : option string;
  pdf_name : option string;
  selected_text : option string;
  token_usage : totals
}.

(** What [initialize_session_state] puts into an empty session. *)
Definition initial_totals : totals :=
  {| total_input_tokens := Int 0; total_output_tokens := Int 0; total_cost := Int 0 |}.

Definition initial_session : session :=
  {| chat_history := [];
     selected_model := "GPT-4o";
     pdf_content := None;
     pdf_name := None;
     selected_text := None;
     token_usage := initial_totals |}.

(** [response.json()] with the keys the page reads. *)
Record api_result := {
  answer : option string;
  summary : option string;
  result_usage : option (gmap string num)
}.

(** The three [+=] under [if "token_usage" in result:]. They run inside
    the [try] of the caller, whose handler shows the error and keeps
    what was already added. *)
Definition add_usage (t : totals) (u : gmap string num) : totals :=
  match (i <-! TokenManager.getitem u "input_tokens"; num_add (total_input_tokens t) i) with
  | Raise _ => t
  | Ok ti =>
      let t1 := {| total_input_tokens := ti;
                   total_output_tokens := total_output_tokens t;
                   total_cost := total_cost t |} in
      match (o <-! TokenManager.getitem u "output_tokens";
             num_add (total_output_tokens t1) o) with
      | Raise _ => t1
      | Ok to =>
          let t2 := {| total_input_tokens := ti;
                       total_output_tokens := to;
                       total_cost := total_cost t1 |} in
          match (c <-! TokenManager.getitem u "cost"; num_add (total_cost t2) c) with
          | Raise _ => t2
          | Ok tc =>
              {| total_input_tokens := ti; total_output_tokens := to; total_cost := tc |}
          end
      end
  end.

Definition with_history (st : session) (history : list chat_message) : session :=
  {| chat_history := history;
     selected_model := selected_model st;
     pdf_content := pdf_content st;
     pdf_name := pdf_name st;
     selected_text := selected_text st;
     token_usage := token_usage st |}.

Definition with_usage (st : session) (t : totals) : session :=
  {| chat_history := chat_history st;
     selected_model := selected_model st;
     pdf_content := pdf_content st;
     pdf_name := pdf_name st;
     selected_text := selected_text st;
     token_usage := t |}.

(** The part of [process_query] and [generate_summary] after the
    request: [text] is the answer or the summary of the result. *)
Definition receive (text : string) (result : api_result) (st : session) : session :=
  let st := with_history st
              (chat_history st ++ [{| role := "assistant"; msg_content := text |}]) in
  match result_usage result with
  | Some u => with_usage st (add_usage (token_usage st) u)
  | None => st
  end.

(** [post_json path payload] is [requests.post], [raise_for_status] and
    [response.json()]. *)
Definition process_query (post_json : string -> Endpoints.payload -> outcome api_result)
    (query : string) (st : session) : session :=
  if negb (truthy_str (pdf_content st)) && negb (truthy_str (pdf_name st)) then st
  else
    let st := with_history st
                (chat_history st ++ [{| role := "user"; msg_content := query |}]) in
    let payload :=
      {| Endpoints.model := Some (selected_model st);
         Endpoints.question := Some query;
         Endpoints.pdf_content := pdf_content st;
         Endpoints.pdf_name := pdf_name st;
         Endpoints.selected_text := selected_text st |} in
    match post_json "/ask_question" payload with
    | Returned result =>
        receive (default "Sorry, I couldn't process your question." (answer result))
          result st
    | Raised _ => st
    end.

Definition generate_summary (post_json : string -> Endpoints.payload -> outcome api_result)
    (st : session) : session :=
  if negb (truthy_str (pdf_content st)) && negb (truthy_str (pdf_name st)) then st
  else
    let st := with_history st
                (chat_history st
                 ++ [{| role := "user";
                        msg_content := "Can you summarize this document for me?" |}]) in
    let payload :=
      {| Endpoints.model := Some (selected_model st);
         Endpoints.question := None;
         Endpoints.pdf_content := pdf_content st;
         Endpoints.pdf_name := pdf_name st;
         Endpoints.selected_text := selected_text st |} in
    match post_json "/summarize" payload with
    | Returned result =>
        receive (default "Sorry, I couldn't generate a summary." (summary result))
          result st
    | Raised _ => st
    end.

End Frontend.

(** ** Vocabulary of the session totals *)

(** A [token_usage] as the handlers reply it after [log_cost]: integer
    counts and a float cost. *)
Definition billed (u : gmap string num) : Prop :=
  exists i o c,
    u !! "input_tokens" = Some (Int i) /\
    u !! "output_tokens" = Some (Int o) /\
    u !! "cost" = Some (Flt c).

Definition usage_field (k : string) (u : gmap string num) : num :=
  default (Int 0) (u !! k).

(** The totals of a session that has received the usages [us], in this
    order. *)
Definition totals_of (us : list (gmap string num)) (t : Frontend.totals) : Prop :=
  Frontend.total_input_tokens t
  = Int (sum_with (fun u => int_of (usage_field "input_tokens" u)) us) /\
  Frontend.total_output_tokens t
  = Int (sum_with (fun u => int_of (usage_field "output_tokens" u)) us) /\
  py_sum (usage_field "cost" <$> us) = Ok (Frontend.total_cost t).

(** A session with a document, and the usage of one reply. *)
Definition session1 : Frontend.session :=
  {| Frontend.chat_history := [];
     Frontend.selected_model := "GPT-4o";
     Frontend.pdf_content := Some "A text of five words.";
     Frontend.pdf_name := Some "a.pdf";
     Frontend.selected_text := None;
     Frontend.token_usage := Frontend.initial_totals |}.

Definition billed5 : gmap string num :=
  <["cost" := Flt (lit 4 1000)]>
  (<["output_cost" := Flt (lit 3 1000)]> (<["input_cost" := Flt (lit 1 1000)]> usage5)).

Definition post5 (path : string) (p : Endpoints.payload) : outcome Frontend.api_result :=
  Returned {| Frontend.answer := Some "It is about five words.";
              Frontend.summary := None;
              Frontend.result_usage := Some billed5 |}.

(** A reply whose usage has no cost, as when [log_cost] gave up. *)
Definition post_unbilled (path : string) (p : Endpoints.payload)
  : outcome Frontend.api_result :=
  Returned {| Frontend.answer := Some "It is about five words.";
              Frontend.summary := None;
              Frontend.result_usage := Some usage5 |}.

(** * Properties *)

(** ** The literals of the source

    The floats of the pricing table and of the scenarios, against the
    bits Python prints for them with [float.hex]. *)

Example lit_0_01 : lit 1 100 = S754_finite false 0x147ae147ae147b (-59).
Proof. vm_compute. reflexivity. Qed.

Example lit_0_03 : lit 3 100 = S754_finite false 0x1eb851eb851eb8 (-58).
Proof. vm_compute. reflexivity. Qed.

Example lit_0_015 : lit 15 1000 = S754_finite false 0x1eb851eb851eb8 (-59).
Proof. vm_compute. reflexivity. Qed.

Example lit_0_025 : lit 25 1000 = S754_finite false 0x1999999999999a (-58).
Proof. vm_compute. reflexivity. Qed.

Example lit_0_04 : lit 4 100 = S754_finite false 0x147ae147ae147b (-57).
Proof. vm_compute. reflexivity. Qed.

(** Quotients of ints by 1000 and conversions of ints to floats, against
    the mantissa and exponent CPython computes for them: a count below
    and above [2 ** 53], a quotient next to the largest float, one that
    overflows, and the two ints around the point where [float(n)] starts
    to overflow. *)
Example int_truediv_against_cpython :
  int_truediv 7 1000 = Ok (S754_finite false 8070450532247929 (-60)) /\
  int_truediv (2 ^ 53 + 1) 1000 = Ok (S754_finite false 4611686018427388 (-9)) /\
  int_truediv (10 ^ 300 + 12345) 1000 = Ok (S754_finite false 6886270049533194 934) /\
  int_truediv (2 ^ 1024 * 1000 - 2 ^ 980) 1000
    = Ok (S754_finite false 9007199254740991 971) /\
  int_truediv (3 * 10 ^ 310) 1000 = Ok (S754_finite false 6012505080026918 969) /\
  int_truediv (2 * 10 ^ 311) 1000 = Raise OverflowError /\
  int_truediv (-5) 1000 = Ok (S754_finite true 5764607523034235 (-60)).
Proof. repeat split; vm_compute; reflexivity. Qed.

Example of_int_against_cpython :
  of_int (2 ^ 53 + 1) = Ok (S754_finite false 4503599627370496 1) /\
  of_int (2 ^ 53 + 3) = Ok (S754_finite false 4503599627370498 1) /\
  of_int (2 ^ 1024 - 2 ^ 970 - 1) = Ok (S754_finite false 9007199254740991 971) /\
  of_int (2 ^ 1024 - 2 ^ 970) = Raise OverflowError.
Proof. repeat split; vm_compute; reflexivity. Qed.

Example arithmetic_against_cpython :
  fadd (lit 1 10) (lit 2 10) = S754_finite false 5404319552844596 (-54) /\
  fmul (lit 1 10) (lit 24 1000) = S754_finite false 5534023222112866 (-61) /\
  fmul (lit 123 1000) (lit 35 10000) = S754_finite false 7941323323731962 (-64).
Proof. repeat split; vm_compute; reflexivity. Qed.

(** The numbers in the texts of the sample lines are the floats of the
    records they stand for. *)
Example sample_texts_denote_records :
  Entry.input_cost (record_of tm0 call1) = Some (Flt (lit 1 1000)) /\
  Entry.output_cost (record_of tm0 call1) = Some (Flt (lit 3 1000)) /\
  Entry.cost (record_of tm0 call1) = Some (Flt (lit 4 1000)) /\
  Entry.input_cost (record_of tm0 call2) = Some (Flt (lit 8 10000)) /\
  Entry.output_cost (record_of tm0 call2)
    = Some (Flt (lit 24000000000000002 10000000000000000000)) /\
  Entry.cost (record_of tm0 call2) = Some (Flt (lit 32 10000)) /\
  Entry.input_cost (record_of tm0 call3) = Some (Flt (lit 1 1000)) /\
  Entry.output_cost (record_of tm0 call3) = Some (Flt (lit 6 1000)) /\
  Entry.cost (record_of tm0 call3) = Some (Flt (lit 7 1000)) /\
  Entry.input_cost (record_of tm0 call4) = Some (Flt (lit 1 100)) /\
  Entry.output_cost (record_of tm0 call4) = Some (Flt (lit 15 1000)) /\
  Entry.cost (record_of tm0 call4) = Some (Flt (lit 25 1000)).
Proof. repeat split; vm_compute; reflexivity. Qed.

(** The sample library reads back what it writes for the sample calls. *)
Example sample_json_round_trip :
  Forall (fun c =>
            json_loads (JsonLib := sample_json)
              (json_dumps (JsonLib := sample_json) (record_of tm0 c) +:+ NL)
            = Ok (record_of tm0 c))
         [call1; call2; call3; call4].
Proof. repeat constructor. Qed.

(** ** Rounding keeps the sign and the range *)

Section Rounding.

Lemma iter_pos_invariant {A} (P : A -> Prop) (f : A -> A) :
  (forall x, P x -> P (f x)) -> forall p x, P x -> P (SpecFloat.iter_pos f p x).
Proof.
  intros Hf p. induction p as [p IH | p IH |]; simpl; intros x Hx; auto.
Qed.

Lemma shr_1_bounds (r : shr_record) (M : Z) :
  0 <= shr_m r <= M -> 0 <= shr_m (shr_1 r) <= M.
Proof.
  destruct r as [m b s]. simpl.
  destruct m as [| [p | p |] | p]; simpl; lia.
Qed.

Lemma shr_bounds (r : shr_record) (e n M : Z) :
  0 <= shr_m r <= M ->
  0 <= shr_m (fst (shr r e n)) <= M /\ snd (shr r e n) = e + Z.max n 0.
Proof.
  intros Hr. destruct n as [| p | p]; simpl.
  - split; [assumption | lia].
  - split; [| lia].
    apply (iter_pos_invariant (fun r => 0 <= shr_m r <= M)); [| assumption].
    intros x Hx. now apply shr_1_bounds.
  - split; [assumption | lia].
Qed.

Lemma shr_record_of_loc_m (m : Z) (l : location) :
  shr_m (shr_record_of_loc m l) = m.
Proof. destruct l as [| []]; reflexivity. Qed.

Lemma shr_fexp_bounds (m e : Z) (l : location) :
  0 <= m ->
  0 <= shr_m (fst (shr_fexp prec emax m e l)) <= m /\
  snd (shr_fexp prec emax m e l) = Z.max e (fexp prec emax (Zdigits2 m + e)).
Proof.
  intros Hm. unfold shr_fexp.
  destruct (shr_bounds (shr_record_of_loc m l) e
              (fexp prec emax (Zdigits2 m + e) - e) m) as [H1 H2].
  - rewrite shr_record_of_loc_m. lia.
  - split; [exact H1 | rewrite H2; lia].
Qed.

Lemma round_nearest_even_bounds (m : Z) (l : location) :
  m <= round_nearest_even m l <= m + 1.
Proof.
  destruct l as [| []]; simpl; try lia.
  destruct (Z.even m); lia.
Qed.

Lemma digits2_pos_size (p : positive) : digits2_pos p = Pos.size p.
Proof. induction p; simpl; congruence. Qed.

Lemma Zdigits2_le (m n : Z) : 0 <= n -> 0 <= m < 2 ^ n -> Zdigits2 m <= n.
Proof.
  intros Hn [Hm Hlt]. destruct m as [| p | p]; simpl; [lia | | lia].
  rewrite digits2_pos_size.
  assert (H : Z.log2 (Z.pos p) < n) by (apply Z.log2_lt_pow2; lia).
  destruct p; simpl in H |- *; lia.
Qed.

(** The three shapes a rounded non-negative mantissa can take. *)
Lemma binary_round_aux_shape (s : bool) (m e : Z) (l : location) :
  0 <= m ->
  binary_round_aux prec emax s m e l = S754_zero s \/
  binary_round_aux prec emax s m e l = S754_infinity s \/
  exists m' e', binary_round_aux prec emax s m e l = S754_finite s m' e'.
Proof.
  intros Hm. unfold binary_round_aux.
  destruct (shr_fexp_bounds m e l Hm) as [H1 _].
  destruct (shr_fexp prec emax m e l) as [mrs' e1]. simpl in H1.
  pose proof (round_nearest_even_bounds (shr_m mrs') (loc_of_shr_record mrs')) as Hr.
  set (m2 := round_nearest_even (shr_m mrs') (loc_of_shr_record mrs')) in *.
  assert (Hm2 : 0 <= m2) by lia.
  destruct (shr_fexp_bounds m2 e1 loc_Exact Hm2) as [H2 _].
  destruct (shr_fexp prec emax m2 e1 loc_Exact) as [mrs'' e2]. simpl in H2.
  destruct (shr_m mrs'') as [| p | p]; [now left | | lia].
  destruct (e2 <=? emax - prec); [right; right; eauto | right; now left].
Qed.

(** No overflow for a mantissa of at most 500 bits and an exponent that
    is not positive. *)
Lemma binary_round_aux_finite (s : bool) (m e : Z) (l : location) :
  0 <= m < 2 ^ 500 -> e <= 0 ->
  is_finite (binary_round_aux prec emax s m e l) = true.
Proof.
  intros [Hm Hlt] He. unfold binary_round_aux.
  destruct (shr_fexp_bounds m e l Hm) as [H1 E1].
  destruct (shr_fexp prec emax m e l) as [mrs' e1]. simpl in H1, E1.
  pose proof (round_nearest_even_bounds (shr_m mrs') (loc_of_shr_record mrs')) as Hr.
  set (m2 := round_nearest_even (shr_m mrs') (loc_of_shr_record mrs')) in *.
  assert (Hm2 : 0 <= m2) by lia.
  destruct (shr_fexp_bounds m2 e1 loc_Exact Hm2) as [H2 E2].
  destruct (shr_fexp prec emax m2 e1 loc_Exact) as [mrs'' e2]. simpl in H2, E2.
  destruct (shr_m mrs'') as [| p | p]; [reflexivity | | lia].
  assert (Hd : Zdigits2 m <= 500) by (apply Zdigits2_le; lia).
  assert (Hd2 : Zdigits2 m2 <= 501).
  { apply Zdigits2_le; [lia |]. split; [lia |].
    replace (2 ^ 501) with (2 * 2 ^ 500) by (change 501 with (Z.succ 500); rewrite Z.pow_succ_r; lia).
    lia. }
  unfold fexp, emin, prec, emax in *.
  destruct (Z.leb_spec e2 (1024 - 53)); [reflexivity | lia].
Qed.

End Rounding.

(** ** Token counts divided by 1000 *)

Section Division.

Lemma SFdiv_core_binary_1000 (p : positive) :
  Z.pos p < 2 ^ 64 ->
  0 <= fst (fst (SFdiv_core_binary prec emax (Z.pos p) 0 1000 0)) < 2 ^ 500 /\
  snd (fst (SFdiv_core_binary prec emax (Z.pos p) 0 1000 0)) <= 0.
Proof.
  intros Hp. unfold SFdiv_core_binary.
  change (Zdigits2 1000) with 10.
  assert (Hd : 1 <= Zdigits2 (Z.pos p)) by (simpl; lia).
  set (d1 := Zdigits2 (Z.pos p)) in *.
  set (e' := Z.min (fexp prec emax (d1 + 0 - (10 + 0))) (0 - 0)).
  assert (He : -62 <= e' <= 0) by (unfold e', fexp, emin, prec, emax; lia).
  set (m' := match 0 - 0 - e' with
             | 0 => Z.pos p
             | Z.pos _ => Z.shiftl (Z.pos p) (0 - 0 - e')
             | Z.neg _ => 0
             end).
  assert (Hm' : 0 <= m' < 2 ^ 126).
  { unfold m'. destruct (0 - 0 - e') as [| s | s] eqn:Es.
    - split; [lia |]. apply Z.lt_trans with (2 ^ 64); [lia | now apply Z.pow_lt_mono_r].
    - rewrite Z.shiftl_mul_pow2 by lia.
      assert (Hs : 2 ^ Z.pos s <= 2 ^ 62) by (apply Z.pow_le_mono_r; lia).
      assert (Hs0 : 0 < 2 ^ Z.pos s) by (apply Z.pow_pos_nonneg; lia).
      replace (2 ^ 126) with (2 ^ 64 * 2 ^ 62) by (rewrite <- Z.pow_add_r; [reflexivity | lia | lia]).
      split; [apply Z.mul_nonneg_nonneg; lia |].
      apply Z.le_lt_trans with (Z.pos p * 2 ^ 62);
        [apply Z.mul_le_mono_nonneg_l; lia | apply Z.mul_lt_mono_pos_r; lia].
    - split; [lia |]. apply Z.pow_pos_nonneg; lia. }
  clearbody m'.
  pose proof (Z.div_pos m' 1000 ltac:(lia) ltac:(lia)) as Hq.
  pose proof (Z.div_le_upper_bound m' 1000 m' ltac:(lia) ltac:(lia)) as Hq'.
  unfold Z.div in Hq, Hq'.
  destruct (Z.div_eucl m' 1000) as [q r]. simpl.
  split; [| lia]. split; [lia |].
  apply Z.le_lt_trans with m'; [lia |].
  apply Z.lt_trans with (2 ^ 126); [lia | now apply Z.pow_lt_mono_r].
Qed.

(** Every count a machine integer can hold has a quotient. *)
Lemma int_truediv_1000_ok (i : Z) :
  0 <= i < 2 ^ 64 ->
  exists q, int_truediv i 1000 = Ok q /\
            (q = pzero \/ exists m e, q = S754_finite false m e).
Proof.
  intros [Hi Hlt]. destruct i as [| p | p]; [| | lia].
  - exists pzero. split; [reflexivity | now left].
  - unfold int_truediv, fdiv, SFdiv.
    destruct (SFdiv_core_binary_1000 p Hlt) as [Hm He].
    destruct (SFdiv_core_binary prec emax (Z.pos p) 0 1000 0) as [[mz ez] lz].
    simpl in Hm, He. simpl xorb.
    pose proof (binary_round_aux_finite false mz ez lz Hm He) as Hfin.
    destruct (binary_round_aux_shape false mz ez lz (proj1 Hm)) as [E | [E | (m' & e' & E)]];
      rewrite E in Hfin |- *; simpl in Hfin |- *; try discriminate.
    + eexists. split; [reflexivity | now left].
    + eexists. split; [reflexivity | right; eauto].
Qed.

(** A non-negative count has a non-negative quotient. *)
Lemma SFdiv_core_binary_nonneg (p b : positive) :
  0 <= fst (fst (SFdiv_core_binary prec emax (Z.pos p) 0 (Z.pos b) 0)).
Proof.
  unfold SFdiv_core_binary.
  set (e' := Z.min _ _). set (m' := match 0 - 0 - e' with 0 => _ | _ => _ end).
  assert (Hm' : 0 <= m').
  { unfold m'. destruct (0 - 0 - e') as [| s | s]; try lia.
    rewrite Z.shiftl_mul_pow2 by lia.
    apply Z.mul_nonneg_nonneg; [lia | apply Z.pow_nonneg; lia]. }
  clearbody m'.
  pose proof (Z.div_pos m' (Z.pos b) Hm' ltac:(lia)) as Hq.
  unfold Z.div in Hq. destruct (Z.div_eucl m' (Z.pos b)) as [q r]. exact Hq.
Qed.

Lemma int_truediv_nonneg (i : Z) (b : positive) (q : float) :
  0 <= i -> int_truediv i b = Ok q ->
  q = pzero \/ exists m e, q = S754_finite false m e.
Proof.
  intros Hi. destruct i as [| p | p]; [| | lia]; unfold int_truediv.
  - intros [= <-]. now left.
  - unfold fdiv, SFdiv.
    pose proof (SFdiv_core_binary_nonneg p b) as Hm.
    destruct (SFdiv_core_binary prec emax (Z.pos p) 0 (Z.pos b) 0) as [[mz ez] lz].
    simpl in Hm. simpl xorb.
    destruct (binary_round_aux_shape false mz ez lz Hm) as [E | [E | (m' & e' & E)]];
      rewrite E; simpl; intros [= <-]; [now left | right; eauto].
Qed.

End Division.

(** ** Non-negative floats *)

Section NonNegative.

Lemma nonneg_shape (f : float) :
  nonneg f = true <->
  (exists s, f = S754_zero s) \/ f = S754_infinity false \/
  exists m e, f = S754_finite false m e.
Proof.
  split.
  - destruct f as [s | [] | | [] m e]; simpl; try discriminate; eauto 6.
  - intros [[s ->] | [-> | (m & e & ->)]]; reflexivity.
Qed.

Lemma fmul_nonneg (x y : float) :
  nonneg x = true -> is_finite x = true ->
  nonneg y = true -> is_finite y = true ->
  nonneg (fmul x y) = true.
Proof.
  intros Hx Fx Hy Fy.
  destruct x as [sx | sx | | [] mx ex]; try discriminate;
    destruct y as [sy | sy | | [] my ey]; try discriminate; try reflexivity.
  unfold fmul, SFmul. simpl xorb.
  destruct (binary_round_aux_shape false (Z.pos (mx * my)) (ex + ey) loc_Exact ltac:(lia))
    as [E | [E | (m' & e' & E)]]; rewrite E; reflexivity.
Qed.

Lemma fadd_nonneg (x y : float) :
  nonneg x = true -> nonneg y = true -> nonneg (fadd x y) = true.
Proof.
  intros Hx Hy.
  destruct x as [sx | [] | | [] mx ex]; try discriminate;
    destruct y as [sy | [] | | [] my ey]; try discriminate; try reflexivity.
  - destruct sx, sy; reflexivity.
  - unfold fadd, SFadd. simpl cond_Zopp.
    unfold binary_normalize. rewrite <- Pos2Z.inj_add. unfold binary_round.
    destruct (shl_align _ _ _) as [mz ez].
    destruct (binary_round_aux_shape false (Z.pos mz) ez loc_Exact ltac:(lia))
      as [E | [E | (m' & e' & E)]]; rewrite E; reflexivity.
Qed.

End NonNegative.

(** ** The cost calculator *)

Section Calculator.

Variable self : TokenManager.t.

Lemma calculate_cost_ok (m : string) (i o : Z) (qi qo : float) :
  int_truediv i 1000 = Ok qi -> int_truediv o 1000 = Ok qo ->
  let p := rate_for (TokenManager.model_pricing self) m in
  TokenManager.calculate_cost self m i o =
  {| CostInfo.input_tokens := i;
     CostInfo.output_tokens := o;
     CostInfo.total_tokens := i + o;
     CostInfo.input_cost := Some (Flt (fmul qi (input p)));
     CostInfo.output_cost := Some (Flt (fmul qo (output p)));
     CostInfo.cost := Flt (fadd (fmul qi (input p)) (fmul qo (output p)));
     CostInfo.error := None |}.
Proof.
  intros Ei Eo. unfold TokenManager.calculate_cost. rewrite Ei, Eo. reflexivity.
Qed.

Lemma calculate_cost_raise (m : string) (i o : Z) :
  (exists e, int_truediv i 1000 = Raise e) \/ (exists e, int_truediv o 1000 = Raise e) ->
  exists e,
    TokenManager.calculate_cost self m i o =
    {| CostInfo.input_tokens := i;
       CostInfo.output_tokens := o;
       CostInfo.total_tokens := i + o;
       CostInfo.input_cost := Some (Int 0);
       CostInfo.output_cost := Some (Int 0);
       CostInfo.cost := Int 0;
       CostInfo.error := Some e |}.
Proof.
  unfold TokenManager.calculate_cost.
  intros [[e E] | [e E]]; rewrite E; simpl.
  - eauto.
  - destruct (int_truediv i 1000); simpl; eauto.
Qed.

Lemma calculate_cost_cases (i o : Z) :
  (exists qi qo, int_truediv i 1000 = Ok qi /\ int_truediv o 1000 = Ok qo) \/
  ((exists e, int_truediv i 1000 = Raise e) \/ (exists e, int_truediv o 1000 = Raise e)).
Proof.
  destruct (int_truediv i 1000) as [qi | e]; [| right; left; eauto].
  destruct (int_truediv o 1000) as [qo | e]; [left; eauto | right; right; eauto].
Qed.

End Calculator.

(** C1, as stated, fails on a count too large for a float: with
    [input_tokens = 10 ** 400] the quotient raises [OverflowError], the
    handler answers, and the output cost is [0] rather than
    [(500 / 1000) * 0.03]. *)
Lemma calculate_cost_huge_count_counterexample :
  0 <= 10 ^ 400 /\ 0 <= 500 /\
  int_truediv (10 ^ 400) 1000 = Raise OverflowError /\
  int_truediv 500 1000 = Ok (lit 1 2) /\
  CostInfo.output_cost (TokenManager.calculate_cost tm0 "GPT-4o" (10 ^ 400) 500)
    = Some (Int 0) /\
  CostInfo.output_cost (TokenManager.calculate_cost tm0 "GPT-4o" (10 ^ 400) 500)
    <> Some (Flt (fmul (lit 1 2)
                    (output (rate_for (TokenManager.model_pricing tm0) "GPT-4o")))).
Proof.
  repeat split; try (vm_compute; congruence || reflexivity).
Qed.

(** C1, amended. For every model and all non-negative token counts,
    [total_tokens] is their sum and [cost] is the sum of the two partial
    costs; whenever the two quotients by 1000 are floats, which they are
    for all counts below [2 ** 64], the partial costs are the quotients
    times the rates of the model and no error is reported; when a
    quotient overflows, the three costs are [0] and the error is
    reported. In particular [calculate_cost("GPT-4o", 1000, 500)] is
    0.01, 0.015, 0.025 and 1500 tokens. *)
Theorem calculate_cost_formula (self : TokenManager.t) (m : string) (i o : Z)
    (Hi : 0 <= i) (Ho : 0 <= o) :
  let r := TokenManager.calculate_cost self m i o in
  let p := rate_for (TokenManager.model_pricing self) m in
  CostInfo.total_tokens r = i + o /\
  (exists ic oc, CostInfo.input_cost r = Some ic /\ CostInfo.output_cost r = Some oc /\
                 num_add ic oc = Ok (CostInfo.cost r)) /\
  (forall qi qo, int_truediv i 1000 = Ok qi -> int_truediv o 1000 = Ok qo ->
     CostInfo.input_cost r = Some (Flt (fmul qi (input p))) /\
     CostInfo.output_cost r = Some (Flt (fmul qo (output p))) /\
     CostInfo.error r = None) /\
  (i < 2 ^ 64 -> o < 2 ^ 64 ->
     exists qi qo, int_truediv i 1000 = Ok qi /\ int_truediv o 1000 = Ok qo) /\
  ((exists e, int_truediv i 1000 = Raise e) \/ (exists e, int_truediv o 1000 = Raise e) ->
     CostInfo.input_cost r = Some (Int 0) /\
     CostInfo.output_cost r = Some (Int 0) /\
     CostInfo.cost r = Int 0 /\
     exists e, CostInfo.error r = Some e) /\
  TokenManager.calculate_cost tm0 "GPT-4o" 1000 500 =
    {| CostInfo.input_tokens := 1000;
       CostInfo.output_tokens := 500;
       CostInfo.total_tokens := 1500;
       CostInfo.input_cost := Some (Flt (lit 1 100));
       CostInfo.output_cost := Some (Flt (lit 15 1000));
       CostInfo.cost := Flt (lit 25 1000);
       CostInfo.error := None |}.
Proof.
  intros r p. subst r p.
  split; [| split; [| split; [| split; [| split]]]].
  - destruct (calculate_cost_cases i o) as [(qi & qo & Ei & Eo) | Hr].
    + now rewrite (calculate_cost_ok self m i o qi qo Ei Eo).
    + destruct (calculate_cost_raise self m i o Hr) as [e ->]. reflexivity.
  - destruct (calculate_cost_cases i o) as [(qi & qo & Ei & Eo) | Hr].
    + rewrite (calculate_cost_ok self m i o qi qo Ei Eo). simpl. eauto.
    + destruct (calculate_cost_raise self m i o Hr) as [e ->]. simpl. eauto.
  - intros qi qo Ei Eo.
    now rewrite (calculate_cost_ok self m i o qi qo Ei Eo).
  - intros Hi' Ho'.
    destruct (int_truediv_1000_ok i (conj Hi Hi')) as (qi & Ei & _).
    destruct (int_truediv_1000_ok o (conj Ho Ho')) as (qo & Eo & _).
    eauto.
  - intros Hr. destruct (calculate_cost_raise self m i o Hr) as [e ->]. simpl. eauto.
  - vm_compute. reflexivity.
Qed.

Lemma calculate_cost_formula_witness :
  0 <= 100 /\ 0 <= 200 /\
  CostInfo.total_tokens (TokenManager.calculate_cost tm0 "Claude" 100 200) = 100 + 200.
Proof.
  split; [lia | split; [lia |]].
  apply (calculate_cost_formula tm0 "Claude" 100 200); lia.
Defined.

(** ** What [log_usage] returns and writes *)

Lemma log_usage_appended `{JsonLib} (self : TokenManager.t) (timestamp today : string)
    (model operation : string) (i o : Z) (metadata : option (gmap string json))
    (fs : filesystem) :
  TokenManager.log_file self today ∉ denied fs ->
  TokenManager.log_usage self timestamp today model operation i o metadata fs =
  (TokenManager.calculate_cost self model i o,
   {| files :=
        <[TokenManager.log_file self today :=
            default "" (files fs !! TokenManager.log_file self today)
            +:+ (json_dumps (TokenManager.log_entry timestamp model operation
                               (TokenManager.calculate_cost self model i o) metadata)
                 +:+ NL)]> (files fs);
      denied := denied fs |}).
Proof.
  intros Hw. unfold TokenManager.log_usage, append_text.
  destruct (decide (TokenManager.log_file self today ∈ denied fs)); [contradiction |].
  reflexivity.
Qed.

Lemma log_usage_denied `{JsonLib} (self : TokenManager.t) (timestamp today : string)
    (model operation : string) (i o : Z) (metadata : option (gmap string json))
    (fs : filesystem) :
  TokenManager.log_file self today ∈ denied fs ->
  TokenManager.log_usage self timestamp today model operation i o metadata fs =
  ({| CostInfo.input_tokens := i;
      CostInfo.output_tokens := o;
      CostInfo.total_tokens := i + o;
      CostInfo.input_cost := None;
      CostInfo.output_cost := None;
      CostInfo.cost := Int 0;
      CostInfo.error := Some OSError |}, fs).
Proof.
  intros Hd. unfold TokenManager.log_usage, append_text.
  destruct (decide (TokenManager.log_file self today ∈ denied fs)); [| contradiction].
  reflexivity.
Qed.

(** ** The pricing table *)

(** C5. The pricing lookup is a total function: it returns the entry of
    the table when the model has one and the fixed pair 0.01 / 0.03
    otherwise. With the unknown model ["UnknownModel"] and 1000 tokens
    each way the cost is 0.04, which is what [log_usage] returns and
    records for the call without metadata when it can append to the
    log. *)
Theorem rate_for_total (table : gmap string pricing) (m : string) :
  (exists p, rate_for table m = p) /\
  (forall p, table !! m = Some p -> rate_for table m = p) /\
  (table !! m = None ->
     rate_for table m = {| input := lit 1 100; output := lit 3 100 |}) /\
  CostInfo.cost (TokenManager.calculate_cost tm0 "UnknownModel" 1000 1000)
    = Flt (lit 4 100) /\
  (forall (J : JsonLib) timestamp today fs,
     TokenManager.log_file tm0 today ∉ denied fs ->
     CostInfo.cost
       (fst (TokenManager.log_usage tm0 timestamp today "UnknownModel" "x" 1000 1000
               None fs)) = Flt (lit 4 100)).
Proof.
  split; [eauto |]. split; [| split; [| split]].
  - intros p E. unfold rate_for. now rewrite E.
  - intros E. unfold rate_for. now rewrite E.
  - vm_compute. reflexivity.
  - intros J timestamp today fs Hw.
    rewrite log_usage_appended by exact Hw. simpl fst. vm_compute. reflexivity.
Qed.

Lemma rate_for_total_witness :
  default_model_pricing !! "UnknownModel" = None /\
  rate_for default_model_pricing "UnknownModel"
    = {| input := lit 1 100; output := lit 3 100 |}.
Proof.
  split; [vm_compute; reflexivity |].
  apply (rate_for_total default_model_pricing "UnknownModel").
  vm_compute. reflexivity.
Defined.

(** C9, as stated, fails for a rate that is non-negative but not finite:
    with an input rate of [float("inf")] and no input token the input
    cost is [0.0 * inf], which is NaN, and so is the total; NaN is not
    [>= 0]. *)
Lemma infinite_rate_counterexample :
  let p := rate_for (TokenManager.model_pricing tm_inf) "Premium" in
  let r := TokenManager.calculate_cost tm_inf "Premium" 0 500 in
  nonneg (input p) = true /\ nonneg (output p) = true /\
  0 <= 0 /\ 0 <= 500 /\
  CostInfo.input_cost r = Some (Flt S754_nan) /\
  CostInfo.cost r = Flt S754_nan /\
  CostInfo.error r = None /\
  num_nonneg (Flt S754_nan) = false.
Proof. repeat split; vm_compute; congruence. Qed.

(** C9, amended. For a model whose two rates are finite and
    non-negative, and non-negative token counts, the three costs of the
    breakdown are non-negative. The rates of the default table and the
    fallback rates are such rates. *)
Theorem calculate_cost_nonneg (self : TokenManager.t) (m : string) (i o : Z)
    (Hi : 0 <= i) (Ho : 0 <= o)
    (Hp : pricing_ok (rate_for (TokenManager.model_pricing self) m) = true) :
  let r := TokenManager.calculate_cost self m i o in
  (exists ic oc, CostInfo.input_cost r = Some ic /\ CostInfo.output_cost r = Some oc /\
                 num_nonneg ic = true /\ num_nonneg oc = true) /\
  num_nonneg (CostInfo.cost r) = true /\
  pricing_ok fallback_pricing = true /\
  map_Forall (fun _ p => pricing_ok p = true) default_model_pricing.
Proof.
  intros r. subst r.
  split; [| split; [| split]].
  3: { vm_compute. reflexivity. }
  3: { apply map_Forall_to_list. vm_compute. repeat constructor. }
  all: unfold pricing_ok, rate_ok in Hp;
    apply andb_prop in Hp as [Hin Hout];
    apply andb_prop in Hin as [Fin Nin];
    apply andb_prop in Hout as [Fout Nout].
  all: destruct (calculate_cost_cases i o) as [(qi & qo & Ei & Eo) | Hr];
    [ rewrite (calculate_cost_ok self m i o qi qo Ei Eo)
    | destruct (calculate_cost_raise self m i o Hr) as [e ->] ]; simpl.
  2, 4: eauto 10.
  all: assert (Hqi : nonneg qi = true /\ is_finite qi = true)
    by (destruct (int_truediv_nonneg i 1000 qi Hi Ei) as [-> | (mi & ei & ->)]; now split).
  all: assert (Hqo : nonneg qo = true /\ is_finite qo = true)
    by (destruct (int_truediv_nonneg o 1000 qo Ho Eo) as [-> | (mo & eo & ->)]; now split).
  all: destruct Hqi as [Nqi Fqi]; destruct Hqo as [Nqo Fqo].
  - do 2 eexists. repeat split; simpl; now apply fmul_nonneg.
  - apply fadd_nonneg; now apply fmul_nonneg.
Qed.

Lemma calculate_cost_nonneg_witness :
  0 <= 1000 /\ 0 <= 500 /\
  pricing_ok (rate_for (TokenManager.model_pricing tm0) "Grok") = true /\
  num_nonneg (CostInfo.cost (TokenManager.calculate_cost tm0 "Grok" 1000 500)) = true.
Proof.
  split; [lia | split; [lia | split; [vm_compute; reflexivity |]]].
  apply (calculate_cost_nonneg tm0 "Grok" 1000 500); [lia | lia |].
  vm_compute. reflexivity.
Defined.

(** ** Recording a call *)




(** ** Lines of a text file *)

Section Lines.

Lemma append_cons (c : Ascii.ascii) (s t : string) :
  String c s +:+ t = String c (s +:+ t).
Proof. reflexivity. Qed.

Lemma append_empty_r (s : string) : s +:+ "" = s.
Proof.
  induction s as [| c s IH]; [reflexivity |].
  rewrite append_cons. now rewrite IH.
Qed.

Lemma append_assoc (s t u : string) : (s +:+ t) +:+ u = s +:+ (t +:+ u).
Proof.
  induction s as [| c s IH]; [reflexivity |].
  rewrite !append_cons. now rewrite IH.
Qed.

Lemma readlines_empty : readlines "" = [].
Proof. reflexivity. Qed.

(** Universal newlines, as Python reads the bytes [a CR LF b CR c LF LF d]
    and [CR CR LF LF]; and the blank test on tabs, on the separators
    28 to 31, and on the escape character, which is not a space. *)
Example readlines_against_cpython :
  let s c := String c EmptyString in
  readlines ("a" +:+ s CR +:+ s LF +:+ "b" +:+ s CR +:+ "c" +:+ s LF +:+ s LF +:+ "d")
    = ["a" +:+ NL; "b" +:+ NL; "c" +:+ NL; NL; "d"] /\
  readlines (s CR +:+ s CR +:+ s LF +:+ s LF) = [NL; NL; NL] /\
  is_blank (" " +:+ s (Ascii.ascii_of_nat 9) +:+ NL) = true /\
  is_blank (s (Ascii.ascii_of_nat 28) +:+ s (Ascii.ascii_of_nat 31)) = true /\
  is_blank (s (Ascii.ascii_of_nat 27)) = false /\
  is_blank " x " = false.
Proof. repeat split; vm_compute; reflexivity. Qed.

(** A text that starts with a complete line is read as that line
    followed by the lines of the rest. *)
Lemma readlines_from_line (s cur rest : string) :
  no_newline s = true ->
  readlines_from cur (s +:+ NL +:+ rest) = (cur +:+ s +:+ NL) :: readlines rest.
Proof.
  revert cur. induction s as [| c s IH]; intros cur Hs.
  - change ("" +:+ NL +:+ rest) with (String LF rest).
    cbn [readlines_from]. rewrite Ascii.eqb_refl. reflexivity.
  - cbn [no_newline] in Hs.
    apply andb_prop in Hs as [Hc Hs]. apply andb_prop in Hc as [Hlf Hcr].
    apply negb_true_iff in Hlf, Hcr.
    rewrite append_cons. cbn [readlines_from]. rewrite Hlf, Hcr.
    rewrite (IH _ Hs). f_equal.
    rewrite append_assoc. reflexivity.
Qed.

Lemma readlines_line (s rest : string) :
  no_newline s = true ->
  readlines ((s +:+ NL) +:+ rest) = (s +:+ NL) :: readlines rest.
Proof.
  intros Hs. unfold readlines at 1. rewrite append_assoc.
  now rewrite readlines_from_line.
Qed.

Lemma readlines_unlines (ls : list string) :
  Forall (fun l => no_newline l = true) ls ->
  readlines (unlines ls) = (fun l => l +:+ NL) <$> ls.
Proof.
  induction 1 as [| l ls Hl _ IH]; [reflexivity |].
  cbn [unlines]. rewrite readlines_line by exact Hl. now rewrite IH.
Qed.

Lemma unlines_snoc (ls : list string) (l : string) :
  unlines (ls ++ [l]) = unlines ls +:+ (l +:+ NL).
Proof.
  induction ls as [| x ls IH]; cbn [unlines app].
  - now rewrite append_empty_r.
  - rewrite IH. now rewrite !append_assoc.
Qed.

End Lines.

(** ** Reading a partition *)

Section Reading.

Context `{J : JsonLib}.

Lemma read_log_blank (lines : list string) (s : Summary.t) :
  Forall (fun l => is_blank l = true) lines ->
  TokenManager.read_log lines s = Ok s.
Proof.
  induction 1 as [| l lines Hl _ IH]; [reflexivity |].
  cbn [TokenManager.read_log]. now rewrite Hl.
Qed.

Lemma read_log_raise (lines : list string) (line : string) (e : exn) :
  line ∈ lines -> is_blank line = false -> json_loads line = Raise e ->
  forall s, exists e', TokenManager.read_log lines s = Raise e'.
Proof.
  intros Hin Hb He.
  induction lines as [| l lines IH]; [inversion Hin |].
  intros s. cbn [TokenManager.read_log].
  apply elem_of_cons in Hin as [<- | Hin].
  - rewrite Hb, He. simpl. eauto.
  - destruct (is_blank l); [now apply IH |].
    destruct (json_loads l) as [entry | e1]; simpl; [| eauto].
    destruct (TokenManager.update s entry) as [s' | e2]; simpl; [| eauto].
    now apply IH.
Qed.

Lemma cost_read_log_raise (lines : list string) (line : string) (e : exn) :
  line ∈ lines -> is_blank line = false -> json_loads line = Raise e ->
  forall s, exists e', CostLogger.read_log lines s = Raise e'.
Proof.
  intros Hin Hb He.
  induction lines as [| l lines IH]; [inversion Hin |].
  intros s. cbn [CostLogger.read_log].
  apply elem_of_cons in Hin as [<- | Hin].
  - rewrite Hb, He. simpl. eauto.
  - destruct (is_blank l); [now apply IH |].
    destruct (json_loads l) as [entry | e1]; simpl; [| eauto].
    destruct (CostLogger.update s entry) as [s' | e2]; simpl; [| eauto].
    now apply IH.
Qed.

(** The loop reads, then aggregates. *)
Lemma read_log_aggregate (lines : list string) (es : list Entry.t) (s : Summary.t) :
  read_entries lines = Ok es ->
  TokenManager.read_log lines s = aggregate es s.
Proof.
  revert es s. induction lines as [| l lines IH]; intros es s.
  - intros [= <-]. reflexivity.
  - cbn [read_entries TokenManager.read_log].
    destruct (is_blank l); [now apply IH |].
    destruct (json_loads l) as [entry | e1]; simpl; [| discriminate].
    destruct (read_entries lines) as [es' | e2] eqn:E; simpl; [| discriminate].
    intros [= <-]. cbn [aggregate].
    destruct (TokenManager.update s entry) as [s' | e3]; simpl; [| reflexivity].
    now apply IH.
Qed.

End Reading.

(** C6. For a date whose partition is missing, or holds no line other
    than blank ones (the empty file among them), [get_usage_summary]
    returns the summary with both totals [0] and no model, and no
    error. *)
Theorem get_usage_summary_no_records `{JsonLib} (self : TokenManager.t)
    (today : string) (date : option string) (fs : filesystem) :
  let target_date := date_or_today date today in
  let partition := files fs !! TokenManager.log_file self target_date in
  (partition = None \/ partition = Some "" \/
   exists content, partition = Some content /\
                   Forall (fun l => is_blank l = true) (readlines content)) ->
  TokenManager.get_usage_summary self today date fs =
  Totals {| Summary.date := target_date;
            Summary.total_cost := Int 0;
            Summary.total_tokens := Int 0;
            Summary.models := ∅ |}.
Proof.
  intros target_date partition Hp. subst partition.
  unfold TokenManager.get_usage_summary. fold target_date.
  destruct Hp as [-> | [-> | (content & -> & Hb)]]; [reflexivity | reflexivity |].
  rewrite (read_log_blank _ _ Hb). reflexivity.
Qed.

Lemma get_usage_summary_no_records_witness :
  files (fs_of (NL +:+ "  " +:+ NL)) !! TokenManager.log_file tm0 "2024-05-01"
    = Some (NL +:+ "  " +:+ NL) /\
  Forall (fun l => is_blank l = true) (readlines (NL +:+ "  " +:+ NL)) /\
  TokenManager.get_usage_summary (H := sample_json) tm0 "2024-05-01" None
    (fs_of (NL +:+ "  " +:+ NL)) =
  Totals {| Summary.date := "2024-05-01";
            Summary.total_cost := Int 0;
            Summary.total_tokens := Int 0;
            Summary.models := ∅ |}.
Proof.
  assert (Hb : Forall (fun l => is_blank l = true) (readlines (NL +:+ "  " +:+ NL)))
    by (vm_compute; repeat constructor).
  split; [vm_compute; reflexivity | split; [exact Hb |]].
  apply (get_usage_summary_no_records (H := sample_json) tm0 "2024-05-01" None
           (fs_of (NL +:+ "  " +:+ NL))).
  right. right. exists (NL +:+ "  " +:+ NL).
  split; [vm_compute; reflexivity | exact Hb].
Defined.

(** ** A corrupt line *)

Lemma printable_not_space (c : Ascii.ascii) : is_printable c = true -> is_space c = false.
Proof.
  unfold is_printable, is_space. cbv zeta.
  destruct (Nat.leb_spec 33 (Ascii.nat_of_ascii c)); [| discriminate].
  intros _. apply orb_false_intro; apply andb_false_intro2; apply Nat.leb_gt; lia.
Qed.

Lemma has_printable_not_blank (line : string) :
  has_printable line = true -> is_blank line = false.
Proof.
  induction line as [| c line IH]; [discriminate |].
  cbn [has_printable is_blank]. intros Hp. apply orb_prop in Hp as [Hc | Hl].
  - now rewrite (printable_not_space c Hc).
  - rewrite (IH Hl). apply andb_false_r.
Qed.

(** C4, as stated, fails: with a valid record followed by a corrupt line
    [get_usage_summary] returns the error dictionary, not the aggregate
    of the valid record. *)
Lemma get_usage_summary_corrupt_counterexample :
  readlines corrupt_content = [text1 +:+ NL; "{corrupt" +:+ NL] /\
  json_loads (JsonLib := sample_json) (text1 +:+ NL) = Ok (record_of tm0 call1) /\
  json_loads (JsonLib := sample_json) ("{corrupt" +:+ NL) = Raise JSONDecodeError /\
  TokenManager.get_usage_summary (H := sample_json) tm0 "2024-05-01" None
    (fs_of corrupt_content) = Degraded "2024-05-01" JSONDecodeError /\
  (exists s,
     TokenManager.get_usage_summary (H := sample_json) tm0 "2024-05-01" None
       (fs_of (text1 +:+ NL)) = Totals s /\
     Summary.total_cost s = Flt (lit 4 1000) /\
     TokenManager.get_usage_summary (H := sample_json) tm0 "2024-05-01" None
       (fs_of corrupt_content) <> Totals s).
Proof.
  repeat split; try (vm_compute; reflexivity).
  eexists. split; [vm_compute; reflexivity |].
  split; [vm_compute; reflexivity | vm_compute; discriminate].
Qed.

(** C4, amended. A line that holds a printable ASCII character, so
    that it is not blank, and that [json.loads] rejects is fatal to the
    whole read, in both loggers: the summary is the error dictionary of
    the handler, with the date and no total. No exception reaches the
    caller. *)
Theorem corrupt_line_degrades_summary `{JsonLib} (today : string) (date : option string)
    (fs : filesystem) (path content line : string) (e : exn)
    (Hfile : files fs !! path = Some content)
    (Hline : line ∈ readlines content)
    (Hvisible : has_printable line = true)
    (Hloads : json_loads line = Raise e) :
  let target_date := date_or_today date today in
  (forall self : TokenManager.t,
     TokenManager.log_file self target_date = path ->
     exists e', TokenManager.get_usage_summary self today date fs
                = Degraded target_date e') /\
  (forall self : CostLogger.t,
     CostLogger.log_file self target_date = path ->
     exists e', CostLogger.get_daily_summary self today date fs
                = CostDegraded target_date e').
Proof.
  intros target_date.
  pose proof (has_printable_not_blank line Hvisible) as Hblank.
  split; intros self Hpath.
  - unfold TokenManager.get_usage_summary. fold target_date. rewrite Hpath, Hfile.
    destruct (read_log_raise _ _ _ Hline Hblank Hloads
                (TokenManager.empty_summary target_date)) as [e' ->].
    simpl. eauto.
  - unfold CostLogger.get_daily_summary. fold target_date. rewrite Hpath, Hfile.
    destruct (cost_read_log_raise _ _ _ Hline Hblank Hloads
                (CostLogger.empty_summary target_date)) as [e' ->].
    simpl. eauto.
Qed.

Lemma corrupt_line_degrades_summary_witness :
  files (fs_of corrupt_content) !! path0 = Some corrupt_content /\
  "{corrupt" +:+ NL ∈ readlines corrupt_content /\
  has_printable ("{corrupt" +:+ NL) = true /\
  json_loads (JsonLib := sample_json) ("{corrupt" +:+ NL) = Raise JSONDecodeError /\
  exists e', TokenManager.get_usage_summary (H := sample_json) tm0 "2024-05-01" None
               (fs_of corrupt_content) = Degraded "2024-05-01" e'.
Proof.
  assert (Hin : "{corrupt" +:+ NL ∈ readlines corrupt_content).
  { change (readlines corrupt_content) with [text1 +:+ NL; "{corrupt" +:+ NL].
    apply elem_of_cons. right. apply elem_of_cons. now left. }
  split; [vm_compute; reflexivity |].
  split; [exact Hin |].
  split; [vm_compute; reflexivity |].
  split; [vm_compute; reflexivity |].
  apply (corrupt_line_degrades_summary (H := sample_json) "2024-05-01" None
           (fs_of corrupt_content) path0 corrupt_content ("{corrupt" +:+ NL)
           JSONDecodeError);
    try (vm_compute; reflexivity).
  exact Hin.
Defined.

(** ** Appending and reading back *)

Section RoundTrip.

Context `{J : JsonLib}.
Variable self : TokenManager.t.
Variable today : string.

Local Abbreviation path := (TokenManager.log_file self today).

Lemma log_usages_denied (calls : list usage_call) (fs : filesystem) :
  denied (log_usages self today calls fs) = denied fs.
Proof.
  revert fs. induction calls as [| c calls IH]; intros fs; [reflexivity |].
  cbn [log_usages]. rewrite IH.
  destruct (decide (path ∈ denied fs)) as [Hd | Hw].
  - now rewrite log_usage_denied.
  - now rewrite log_usage_appended.
Qed.

Lemma log_usages_content (calls : list usage_call) (fs : filesystem) :
  path ∉ denied fs ->
  default "" (files (log_usages self today calls fs) !! path)
  = default "" (files fs !! path) +:+ unlines (line_of self <$> calls).
Proof.
  revert fs. induction calls as [| c calls IH]; intros fs Hw.
  - cbn [log_usages fmap list_fmap unlines]. now rewrite append_empty_r.
  - cbn [log_usages]. rewrite log_usage_appended by exact Hw. cbn [snd].
    rewrite IH by exact Hw. cbn [files].
    rewrite lookup_insert_eq. cbn [default fmap list_fmap unlines].
    unfold line_of, record_of, id. now rewrite !append_assoc.
Qed.

Lemma read_entries_lines (calls : list usage_call) :
  Forall (fun c => is_blank (line_of self c +:+ NL) = false /\
                   json_loads (line_of self c +:+ NL) = Ok (record_of self c)) calls ->
  read_entries ((fun l => l +:+ NL) <$> (line_of self <$> calls)) = Ok (record_of self <$> calls).
Proof.
  induction 1 as [| c calls [Hb Hl] _ IH]; [reflexivity |].
  cbn [fmap list_fmap read_entries]. rewrite Hb, Hl. simpl.
  cbn [fmap list_fmap] in IH. rewrite IH. reflexivity.
Qed.

End RoundTrip.



(** ** The aggregation *)

(** One step of the error monad in the goal: the bound computation
    raises, and both sides raise with it, or it returns. *)
Ltac bind_step :=
  match goal with
  | |- context [rbind ?r _] => destruct r; simpl; [| reflexivity]
  end.

(** One step of the error monad in a hypothesis that says the whole
    computation returned: the bound computation returned too. *)
Ltac bind_inv H :=
  match type of H with
  | context [rbind ?r _] =>
      let E := fresh "E" in destruct r eqn:E; simpl in H; [| discriminate]
  end.

Section Aggregation.

Lemma sum_from_snoc (xs : list num) (x acc : num) :
  sum_from acc (xs ++ [x]) = (a <-! sum_from acc xs; num_add a x).
Proof.
  revert acc. induction xs as [| y xs IH]; intros acc; cbn [sum_from app].
  - simpl. destruct (num_add acc x); reflexivity.
  - destruct (num_add acc y) as [acc' | e]; simpl; [apply IH | reflexivity].
Qed.

Lemma py_sum_snoc (xs : list num) (x a b : num) :
  py_sum xs = Ok a -> num_add a x = Ok b -> py_sum (xs ++ [x]) = Ok b.
Proof.
  unfold py_sum. intros Ha Hb. rewrite sum_from_snoc, Ha. exact Hb.
Qed.

Lemma aggregate_snoc (es : list Entry.t) (e : Entry.t) (s : Summary.t) :
  aggregate (es ++ [e]) s = (s' <-! aggregate es s; TokenManager.update s' e).
Proof.
  revert s. induction es as [| x es IH]; intros s; cbn [aggregate app].
  - simpl. destruct (TokenManager.update s e); reflexivity.
  - destruct (TokenManager.update s x) as [s' | err]; simpl; [apply IH | reflexivity].
Qed.

Lemma getitem_setdefault {A} (k : string) (a : A) (d : gmap string A) :
  TokenManager.getitem (TokenManager.setdefault k a d) k = Ok (default a (d !! k)).
Proof.
  unfold TokenManager.getitem, TokenManager.setdefault.
  destruct (d !! k) as [x |] eqn:E.
  - now rewrite E.
  - now rewrite lookup_insert_eq.
Qed.

Lemma insert_setdefault {A} (k : string) (a v : A) (d : gmap string A) :
  <[k := v]> (TokenManager.setdefault k a d) = <[k := v]> d.
Proof.
  unfold TokenManager.setdefault.
  destruct (d !! k); [reflexivity | apply insert_insert_eq].
Qed.

(** The loop body with its two dictionary look-ups resolved. *)
Lemma update_unfold (s : Summary.t) (e : Entry.t) :
  let m := model_of e in
  let op := operation_of e in
  let ms := default TokenManager.new_model_summary (Summary.models s !! m) in
  let os := default TokenManager.new_op_summary (ModelSummary.operations ms !! op) in
  TokenManager.update s e =
  (tc <-! num_add (Summary.total_cost s) (cost_of e);
   tt <-! num_add (Summary.total_tokens s) (total_tokens_of e);
   mc <-! num_add (ModelSummary.cost ms) (cost_of e);
   mi <-! num_add (ModelSummary.input_tokens ms) (input_tokens_of e);
   mo <-! num_add (ModelSummary.output_tokens ms) (output_tokens_of e);
   oc <-! num_add (OpSummary.cost os) (cost_of e);
   ot <-! num_add (OpSummary.tokens os) (total_tokens_of e);
   Ok {| Summary.date := Summary.date s;
         Summary.total_cost := tc;
         Summary.total_tokens := tt;
         Summary.models :=
           <[m := {| ModelSummary.cost := mc;
                     ModelSummary.input_tokens := mi;
                     ModelSummary.output_tokens := mo;
                     ModelSummary.operations :=
                       <[op := {| OpSummary.count := OpSummary.count os + 1;
                                  OpSummary.cost := oc;
                                  OpSummary.tokens := ot |}]>
                         (ModelSummary.operations ms) |}]>
             (Summary.models s) |}).
Proof.
  intros m op ms os. unfold TokenManager.update.
  fold (cost_of e) (total_tokens_of e) (input_tokens_of e) (output_tokens_of e)
       (model_of e) (operation_of e).
  fold m op.
  do 2 bind_step.
  rewrite getitem_setdefault. simpl. fold ms.
  do 3 bind_step.
  rewrite getitem_setdefault. simpl. fold os.
  do 2 bind_step.
  now rewrite !insert_setdefault.
Qed.

Lemma filter_snoc_True {A} (P : A -> Prop) `{forall x, Decision (P x)} (l : list A) (x : A) :
  P x -> filter P (l ++ [x]) = filter P l ++ [x].
Proof.
  intros Hx. rewrite filter_app. f_equal.
  rewrite filter_cons_True by exact Hx. reflexivity.
Qed.

Lemma filter_snoc_False {A} (P : A -> Prop) `{forall x, Decision (P x)} (l : list A) (x : A) :
  ~ P x -> filter P (l ++ [x]) = filter P l.
Proof.
  intros Hx. rewrite filter_app.
  rewrite (filter_cons_False P x []) by exact Hx.
  rewrite filter_nil. apply app_nil_r.
Qed.

Lemma snoc_not_nil {A} (l : list A) (x : A) : l ++ [x] <> [].
Proof. destruct l; discriminate. Qed.

Lemma op_summarises_new : op_summarises [] TokenManager.new_op_summary.
Proof. repeat split. Qed.

Lemma model_summarises_new : model_summarises [] TokenManager.new_model_summary.
Proof.
  repeat split; intros; cbn; rewrite ?lookup_empty; reflexivity.
Qed.

Lemma summarises_empty (d : string) : summarises d [] (TokenManager.empty_summary d).
Proof.
  repeat split; intros; cbn; rewrite ?lookup_empty; reflexivity.
Qed.

(** The summary of the operation of a new record, before the record is
    counted. *)
Lemma op_before (es : list Entry.t) (ms : ModelSummary.t) (op : string) :
  model_summarises es ms ->
  op_summarises (filter (fun e => operation_of e = op) es)
    (default TokenManager.new_op_summary (ModelSummary.operations ms !! op)).
Proof.
  intros (_ & _ & _ & Hops). specialize (Hops op).
  destruct (ModelSummary.operations ms !! op) as [os |]; cbn.
  - apply Hops.
  - rewrite Hops. apply op_summarises_new.
Qed.

Lemma model_before (d : string) (es : list Entry.t) (s : Summary.t) (m : string) :
  summarises d es s ->
  model_summarises (for_model m es)
    (default TokenManager.new_model_summary (Summary.models s !! m)).
Proof.
  intros (_ & _ & _ & Hms). specialize (Hms m).
  destruct (Summary.models s !! m) as [ms |]; cbn.
  - apply Hms.
  - rewrite Hms. apply model_summarises_new.
Qed.

Lemma op_summarises_snoc (es : list Entry.t) (e : Entry.t) (os : OpSummary.t)
    (oc ot : num) :
  op_summarises es os ->
  num_add (OpSummary.cost os) (cost_of e) = Ok oc ->
  num_add (OpSummary.tokens os) (total_tokens_of e) = Ok ot ->
  op_summarises (es ++ [e])
    {| OpSummary.count := OpSummary.count os + 1;
       OpSummary.cost := oc;
       OpSummary.tokens := ot |}.
Proof.
  intros (Hn & Hc & Ht) Hoc Hot. unfold op_summarises. cbn.
  rewrite !fmap_app. cbn [fmap list_fmap].
  split; [rewrite length_app; cbn; lia |].
  split; eapply py_sum_snoc; eassumption.
Qed.

Lemma model_summarises_snoc (es : list Entry.t) (e : Entry.t) (ms : ModelSummary.t)
    (mc mi mo oc ot : num) :
  let op := operation_of e in
  let os := default TokenManager.new_op_summary (ModelSummary.operations ms !! op) in
  model_summarises es ms ->
  num_add (ModelSummary.cost ms) (cost_of e) = Ok mc ->
  num_add (ModelSummary.input_tokens ms) (input_tokens_of e) = Ok mi ->
  num_add (ModelSummary.output_tokens ms) (output_tokens_of e) = Ok mo ->
  num_add (OpSummary.cost os) (cost_of e) = Ok oc ->
  num_add (OpSummary.tokens os) (total_tokens_of e) = Ok ot ->
  model_summarises (es ++ [e])
    {| ModelSummary.cost := mc;
       ModelSummary.input_tokens := mi;
       ModelSummary.output_tokens := mo;
       ModelSummary.operations :=
         <[op := {| OpSummary.count := OpSummary.count os + 1;
                    OpSummary.cost := oc;
                    OpSummary.tokens := ot |}]> (ModelSummary.operations ms) |}.
Proof.
  intros op os Hms Hmc Hmi Hmo Hoc Hot.
  pose proof (op_before es ms op Hms) as Hos. fold os in Hos.
  destruct Hms as (Hc & Hi & Ho & Hops).
  unfold model_summarises. cbn.
  rewrite !fmap_app. cbn [fmap list_fmap].
  split; [eapply py_sum_snoc; eassumption |].
  split; [eapply py_sum_snoc; eassumption |].
  split; [eapply py_sum_snoc; eassumption |].
  intros op'. destruct (decide (op = op')) as [<- | Hne].
  - rewrite lookup_insert_eq.
    rewrite filter_snoc_True by reflexivity.
    split; [apply snoc_not_nil |].
    now apply op_summarises_snoc.
  - rewrite lookup_insert_ne by exact Hne.
    rewrite filter_snoc_False by (intros Heq; apply Hne; exact Heq).
    apply Hops.
Qed.

Lemma summarises_snoc (d : string) (es : list Entry.t) (e : Entry.t)
    (s s' : Summary.t) :
  summarises d es s -> TokenManager.update s e = Ok s' -> summarises d (es ++ [e]) s'.
Proof.
  intros Hs Hu.
  pose proof (model_before d es s (model_of e) Hs) as Hms.
  rewrite update_unfold in Hu. cbv zeta in Hu.
  set (m := model_of e) in *.
  set (ms := default TokenManager.new_model_summary (Summary.models s !! m)) in *.
  do 7 (bind_inv Hu).
  injection Hu as <-.
  destruct Hs as (Hd & Hc & Ht & Hmodels).
  unfold summarises. cbn.
  rewrite !fmap_app. cbn [fmap list_fmap].
  split; [exact Hd |].
  split; [eapply py_sum_snoc; eassumption |].
  split; [eapply py_sum_snoc; eassumption |].
  intros m'. unfold for_model. destruct (decide (m = m')) as [<- | Hne].
  - rewrite lookup_insert_eq.
    rewrite filter_snoc_True by reflexivity.
    split; [apply snoc_not_nil |].
    now apply model_summarises_snoc.
  - rewrite lookup_insert_ne by exact Hne.
    rewrite filter_snoc_False by (intros Heq; apply Hne; exact Heq).
    apply Hmodels.
Qed.

(** The summary the loop builds from the empty one is the summary of
    the records it has read. *)
Lemma aggregate_summarises (d : string) (es : list Entry.t) (s : Summary.t) :
  aggregate es (TokenManager.empty_summary d) = Ok s -> summarises d es s.
Proof.
  revert s. induction es as [| e es IH] using rev_ind; intros s.
  - intros [= <-]. apply summarises_empty.
  - rewrite aggregate_snoc.
    destruct (aggregate es (TokenManager.empty_summary d)) as [s0 | err]; simpl;
      [| discriminate].
    intros Hu. eapply summarises_snoc; [apply IH; reflexivity | exact Hu].
Qed.

End Aggregation.

(** ** Well-formed records never make the loop fail *)

Section WellFormed.

Lemma num_add_cost (a b : num) :
  is_cost a = true -> is_cost b = true ->
  exists c, num_add a b = Ok c /\ is_cost c = true.
Proof.
  destruct a as [x | f], b as [y | g]; cbn; intros Ha Hb.
  - apply Z.eqb_eq in Ha, Hb. subst. exists (Int 0). now split.
  - apply Z.eqb_eq in Ha. subst. eexists. split; reflexivity.
  - apply Z.eqb_eq in Hb. subst. eexists. split; reflexivity.
  - eexists. split; reflexivity.
Qed.

Lemma num_add_int (a b : num) :
  is_int a = true -> is_int b = true ->
  num_add a b = Ok (Int (int_of a + int_of b)).
Proof.
  destruct a as [x | f], b as [y | g]; cbn; intros Ha Hb; try discriminate.
  reflexivity.
Qed.

Lemma sum_from_cost (xs : list num) (acc c : num) :
  Forall (fun x => is_cost x = true) xs -> is_cost acc = true ->
  sum_from acc xs = Ok c -> is_cost c = true.
Proof.
  intros Hxs. revert acc. induction Hxs as [| x xs Hx _ IH]; intros acc Hacc; cbn [sum_from].
  - now intros [= <-].
  - destruct (num_add_cost acc x Hacc Hx) as (a & -> & Ha). simpl. now apply IH.
Qed.

Lemma sum_from_int (xs : list num) (a : Z) :
  Forall (fun x => is_int x = true) xs ->
  sum_from (Int a) xs = Ok (Int (a + int_total xs)).
Proof.
  intros Hxs. revert a. induction Hxs as [| x xs Hx _ IH]; intros a; cbn [sum_from].
  - f_equal. f_equal. unfold int_total. cbn. lia.
  - rewrite num_add_int by (reflexivity || exact Hx). simpl rbind. rewrite IH.
    f_equal. f_equal. unfold int_total. cbn. lia.
Qed.

Lemma py_sum_cost (xs : list num) (c : num) :
  Forall (fun x => is_cost x = true) xs -> py_sum xs = Ok c -> is_cost c = true.
Proof. intros Hxs. now apply sum_from_cost. Qed.

Lemma py_sum_int (xs : list num) :
  Forall (fun x => is_int x = true) xs -> py_sum xs = Ok (Int (int_total xs)).
Proof. intros Hxs. unfold py_sum. now rewrite sum_from_int. Qed.

Lemma int_total_perm (xs ys : list num) : xs ≡ₚ ys -> int_total xs = int_total ys.
Proof.
  induction 1 as [| x xs ys _ IH | x y xs | xs ys zs _ IH1 _ IH2]; cbn; try lia.
  unfold int_total in *. lia.
Qed.

Lemma py_sum_int_perm (xs ys : list num) (a b : num) :
  Forall (fun x => is_int x = true) xs -> xs ≡ₚ ys ->
  py_sum xs = Ok a -> py_sum ys = Ok b -> a = b.
Proof.
  intros Hxs Hp. assert (Hys : Forall (fun x => is_int x = true) ys) by now rewrite <- Hp.
  rewrite (py_sum_int xs Hxs), (py_sum_int ys Hys), (int_total_perm xs ys Hp).
  congruence.
Qed.

Lemma wf_fields (e : Entry.t) :
  wf e ->
  is_cost (cost_of e) = true /\ is_int (total_tokens_of e) = true /\
  is_int (input_tokens_of e) = true /\ is_int (output_tokens_of e) = true.
Proof.
  unfold wf, well_formed. intros H.
  apply andb_prop in H as [H H4]. apply andb_prop in H as [H H3].
  apply andb_prop in H as [H1 H2]. auto.
Qed.

Lemma wf_costs (es : list Entry.t) :
  Forall wf es -> Forall (fun x => is_cost x = true) (cost_of <$> es).
Proof.
  intros H. apply Forall_fmap. eapply Forall_impl; [exact H |].
  intros e He. apply (wf_fields e He).
Qed.

Lemma wf_total_tokens (es : list Entry.t) :
  Forall wf es -> Forall (fun x => is_int x = true) (total_tokens_of <$> es).
Proof.
  intros H. apply Forall_fmap. eapply Forall_impl; [exact H |].
  intros e He. apply (wf_fields e He).
Qed.

Lemma wf_input_tokens (es : list Entry.t) :
  Forall wf es -> Forall (fun x => is_int x = true) (input_tokens_of <$> es).
Proof.
  intros H. apply Forall_fmap. eapply Forall_impl; [exact H |].
  intros e He. apply (wf_fields e He).
Qed.

Lemma wf_output_tokens (es : list Entry.t) :
  Forall wf es -> Forall (fun x => is_int x = true) (output_tokens_of <$> es).
Proof.
  intros H. apply Forall_fmap. eapply Forall_impl; [exact H |].
  intros e He. apply (wf_fields e He).
Qed.

Lemma wf_filter (P : Entry.t -> Prop) `{forall e, Decision (P e)} (es : list Entry.t) :
  Forall wf es -> Forall wf (filter P es).
Proof.
  rewrite !Forall_forall. intros Hes e He.
  apply list_elem_of_filter in He as [_ He]. now apply Hes.
Qed.

Lemma int_sum_is_int (xs : list num) (a : num) :
  Forall (fun x => is_int x = true) xs -> py_sum xs = Ok a -> is_int a = true.
Proof. intros Hxs. rewrite (py_sum_int xs Hxs). now intros [= <-]. Qed.

(** Every record [log_usage] writes is well-formed. *)
Lemma record_of_well_formed (self : TokenManager.t) (c : usage_call) :
  wf (record_of self c).
Proof.
  unfold wf, well_formed, record_of, cost_of, total_tokens_of, input_tokens_of,
    output_tokens_of, TokenManager.log_entry.
  cbn [Entry.cost Entry.total_tokens Entry.input_tokens Entry.output_tokens
       TokenManager.get0 default from_option id is_int andb].
  destruct (calculate_cost_cases (call_input_tokens c) (call_output_tokens c))
    as [(qi & qo & Ei & Eo) | Hr].
  - now rewrite (calculate_cost_ok self _ _ _ qi qo Ei Eo).
  - now destruct (calculate_cost_raise self (call_model c) _ _ Hr) as [e ->].
Qed.

(** On well-formed records the loop body cannot raise. *)
Lemma update_total (d : string) (es : list Entry.t) (e : Entry.t) (s : Summary.t) :
  summarises d es s -> Forall wf es -> wf e ->
  exists s', TokenManager.update s e = Ok s'.
Proof.
  intros Hs Hes He.
  destruct (wf_fields e He) as (Hc & Ht & Hi & Ho).
  pose proof (model_before d es s (model_of e) Hs) as Hms.
  pose proof (op_before _ _ (operation_of e) Hms) as Hos.
  pose proof (wf_filter (fun x => model_of x = model_of e) es Hes) as Hmes.
  pose proof (wf_filter (fun x => operation_of x = operation_of e) _ Hmes) as Hoes.
  fold (for_model (model_of e) es) in Hmes, Hoes.
  rewrite update_unfold. cbv zeta.
  set (ms := default TokenManager.new_model_summary (Summary.models s !! model_of e)) in *.
  set (os := default TokenManager.new_op_summary
               (ModelSummary.operations ms !! operation_of e)) in *.
  destruct Hs as (_ & Hsc & Hst & _).
  destruct Hms as (Hmc & Hmi & Hmo & _).
  destruct Hos as (_ & Hoc & Hot).
  destruct (num_add_cost (Summary.total_cost s) (cost_of e)
              (py_sum_cost _ _ (wf_costs _ Hes) Hsc) Hc) as (tc & -> & _).
  rewrite (num_add_int (Summary.total_tokens s) (total_tokens_of e)
             (int_sum_is_int _ _ (wf_total_tokens _ Hes) Hst) Ht).
  destruct (num_add_cost (ModelSummary.cost ms) (cost_of e)
              (py_sum_cost _ _ (wf_costs _ Hmes) Hmc) Hc) as (mc & -> & _).
  rewrite (num_add_int (ModelSummary.input_tokens ms) (input_tokens_of e)
             (int_sum_is_int _ _ (wf_input_tokens _ Hmes) Hmi) Hi).
  rewrite (num_add_int (ModelSummary.output_tokens ms) (output_tokens_of e)
             (int_sum_is_int _ _ (wf_output_tokens _ Hmes) Hmo) Ho).
  destruct (num_add_cost (OpSummary.cost os) (cost_of e)
              (py_sum_cost _ _ (wf_costs _ Hoes) Hoc) Hc) as (oc & -> & _).
  rewrite (num_add_int (OpSummary.tokens os) (total_tokens_of e)
             (int_sum_is_int _ _ (wf_total_tokens _ Hoes) Hot) Ht).
  simpl. eauto.
Qed.

Lemma aggregate_total (d : string) (es : list Entry.t) :
  Forall wf es ->
  exists s, aggregate es (TokenManager.empty_summary d) = Ok s /\ summarises d es s.
Proof.
  induction es as [| e es IH] using rev_ind; intros Hes.
  - eexists. split; [reflexivity | apply summarises_empty].
  - apply Forall_app in Hes as [Hes He]. rewrite Forall_singleton in He.
    destruct (IH Hes) as (s & Hs & Hsum).
    destruct (update_total d es e s Hsum Hes He) as [s' Hs'].
    exists s'. split.
    + rewrite aggregate_snoc, Hs. exact Hs'.
    + eapply summarises_snoc; eassumption.
Qed.

End WellFormed.

(** ** What does not depend on the order of arrival *)

Section Order.

Lemma op_erase_eq (l1 l2 : list Entry.t) (o1 o2 : OpSummary.t) :
  op_summarises l1 o1 -> op_summarises l2 o2 -> l1 ≡ₚ l2 -> Forall wf l1 ->
  erase_op o1 = erase_op o2.
Proof.
  intros (Hn1 & _ & Ht1) (Hn2 & _ & Ht2) Hp Hwf.
  destruct o1 as [n1 c1 t1], o2 as [n2 c2 t2]. cbn in *. unfold erase_op. cbn.
  f_equal.
  - rewrite Hn1, Hn2. now rewrite Hp.
  - eapply py_sum_int_perm; [apply (wf_total_tokens _ Hwf) | | exact Ht1 | exact Ht2].
    now rewrite Hp.
Qed.

Lemma model_erase_eq (l1 l2 : list Entry.t) (m1 m2 : ModelSummary.t) :
  model_summarises l1 m1 -> model_summarises l2 m2 -> l1 ≡ₚ l2 -> Forall wf l1 ->
  erase_model m1 = erase_model m2.
Proof.
  intros (_ & Hi1 & Ho1 & Hops1) (_ & Hi2 & Ho2 & Hops2) Hp Hwf.
  destruct m1 as [c1 i1 o1 ops1], m2 as [c2 i2 o2 ops2]. cbn in *.
  unfold erase_model. cbn. f_equal.
  - eapply py_sum_int_perm; [apply (wf_input_tokens _ Hwf) | | exact Hi1 | exact Hi2].
    now rewrite Hp.
  - eapply py_sum_int_perm; [apply (wf_output_tokens _ Hwf) | | exact Ho1 | exact Ho2].
    now rewrite Hp.
  - apply map_eq. intros op. rewrite !lookup_fmap.
    specialize (Hops1 op). specialize (Hops2 op).
    assert (Hpf : filter (fun e => operation_of e = op) l1
                  ≡ₚ filter (fun e => operation_of e = op) l2) by now rewrite Hp.
    destruct (ops1 !! op) as [os1 |], (ops2 !! op) as [os2 |]; cbn.
    + f_equal. destruct Hops1 as [_ H1], Hops2 as [_ H2].
      eapply op_erase_eq; [exact H1 | exact H2 | exact Hpf | now apply wf_filter].
    + exfalso. destruct Hops1 as [H1 _]. apply H1.
      rewrite Hops2 in Hpf. now apply Permutation_nil_r in Hpf.
    + exfalso. destruct Hops2 as [H2 _]. apply H2.
      rewrite Hops1 in Hpf. symmetry in Hpf. now apply Permutation_nil_r in Hpf.
    + reflexivity.
Qed.

Lemma summary_erase_eq (d : string) (l1 l2 : list Entry.t) (s1 s2 : Summary.t) :
  summarises d l1 s1 -> summarises d l2 s2 -> l1 ≡ₚ l2 -> Forall wf l1 ->
  erase_costs s1 = erase_costs s2.
Proof.
  intros (Hd1 & _ & Ht1 & Hm1) (Hd2 & _ & Ht2 & Hm2) Hp Hwf.
  destruct s1 as [d1 c1 t1 ms1], s2 as [d2 c2 t2 ms2]. cbn in *.
  unfold erase_costs. cbn. f_equal.
  - congruence.
  - eapply py_sum_int_perm; [apply (wf_total_tokens _ Hwf) | | exact Ht1 | exact Ht2].
    now rewrite Hp.
  - apply map_eq. intros m. rewrite !lookup_fmap.
    specialize (Hm1 m). specialize (Hm2 m).
    assert (Hpf : for_model m l1 ≡ₚ for_model m l2) by (unfold for_model; now rewrite Hp).
    destruct (ms1 !! m) as [x1 |], (ms2 !! m) as [x2 |]; cbn.
    + f_equal. destruct Hm1 as [_ H1], Hm2 as [_ H2].
      eapply model_erase_eq; [exact H1 | exact H2 | exact Hpf | now apply wf_filter].
    + exfalso. destruct Hm1 as [H1 _]. apply H1.
      rewrite Hm2 in Hpf. now apply Permutation_nil_r in Hpf.
    + exfalso. destruct Hm2 as [H2 _]. apply H2.
      rewrite Hm1 in Hpf. symmetry in Hpf. now apply Permutation_nil_r in Hpf.
    + reflexivity.
Qed.

End Order.

(** [get_usage_summary] on a partition whose lines all parse. *)
Lemma get_usage_summary_aggregate `{JsonLib} (self : TokenManager.t) (today : string)
    (date : option string) (fs : filesystem) (content : string) (es : list Entry.t) :
  let target_date := date_or_today date today in
  files fs !! TokenManager.log_file self target_date = Some content ->
  read_entries (readlines content) = Ok es ->
  TokenManager.get_usage_summary self today date fs =
  match aggregate es (TokenManager.empty_summary target_date) with
  | Ok s => Totals s
  | Raise e => Degraded target_date e
  end.
Proof.
  intros target_date Hf Hr. unfold TokenManager.get_usage_summary. fold target_date.
  rewrite Hf, (read_log_aggregate _ _ _ Hr).
  destruct (aggregate es (TokenManager.empty_summary target_date)); reflexivity.
Qed.

(** ** Additivity of the summary *)

(** C2, as stated, fails by a rounding: with costs 0.004 and 0.007 for
    one model and 0.0032 for another, [total_cost] is 0.0142 while the
    two per-model costs, 0.011 and 0.0032, add up to
    0.014199999999999999 in either order. *)
Lemma additivity_rounding_counterexample :
  files fs123 !! path0 = Some (unlines [text1; text2; text3]) /\
  exists s gpt claude,
    TokenManager.get_usage_summary (H := sample_json) tm0 "2024-05-01" None fs123
      = Totals s /\
    Summary.models s = <["GPT-4o" := gpt]> {["Claude" := claude]} /\
    Summary.total_cost s = Flt (lit 142 10000) /\
    ModelSummary.cost gpt = Flt (lit 11 1000) /\
    ModelSummary.cost claude = Flt (lit 32 10000) /\
    py_sum [ModelSummary.cost gpt; ModelSummary.cost claude]
      = Ok (Flt (lit 14199999999999999 1000000000000000000)) /\
    py_sum [ModelSummary.cost claude; ModelSummary.cost gpt]
      = Ok (Flt (lit 14199999999999999 1000000000000000000)) /\
    py_sum [ModelSummary.cost gpt; ModelSummary.cost claude]
      <> Ok (Summary.total_cost s).
Proof.
  split; [vm_compute; reflexivity |].
  do 3 eexists.
  split; [vm_compute; reflexivity |].
  split; [vm_compute; reflexivity |].
  repeat split; try (vm_compute; reflexivity).
  vm_compute. discriminate.
Qed.

(** C2, amended. For the well-formed records of a partition the summary
    exists and is hierarchical: [total_cost] is the sum, in arrival
    order, of the costs of all records; a model has an entry exactly
    when it has a record, and its cost is the sum in arrival order of
    the costs of its records; the cost of each of its operations is the
    sum in arrival order of the costs of its records with that
    operation. Adding the per-model or per-operation costs again is a
    different floating-point sum and need not equal the level above. *)
Theorem summary_costs_are_sums `{JsonLib} (self : TokenManager.t) (today : string)
    (date : option string) (fs : filesystem) (content : string) (es : list Entry.t)
    (Hfile : files fs !! TokenManager.log_file self (date_or_today date today)
             = Some content)
    (Hread : read_entries (readlines content) = Ok es)
    (Hwf : Forall (fun e => well_formed e = true) es) :
  exists s,
    TokenManager.get_usage_summary self today date fs = Totals s /\
    py_sum (cost_of <$> es) = Ok (Summary.total_cost s) /\
    (forall m, is_Some (Summary.models s !! m) <-> for_model m es <> []) /\
    forall m ms,
      Summary.models s !! m = Some ms ->
      py_sum (cost_of <$> for_model m es) = Ok (ModelSummary.cost ms) /\
      (forall op, is_Some (ModelSummary.operations ms !! op)
                  <-> for_operation m op es <> []) /\
      forall op os,
        ModelSummary.operations ms !! op = Some os ->
        py_sum (cost_of <$> for_operation m op es) = Ok (OpSummary.cost os).
Proof.
  destruct (aggregate_total (date_or_today date today) es Hwf) as (s & Hs & Hsum).
  exists s.
  rewrite (get_usage_summary_aggregate self today date fs content es Hfile Hread), Hs.
  destruct Hsum as (_ & Hc & _ & Hmodels).
  split; [reflexivity |]. split; [exact Hc |]. split.
  - intros m. specialize (Hmodels m).
    destruct (Summary.models s !! m) as [ms |].
    + split; [intros _; apply Hmodels | eauto].
    + split; [intros [x Hx]; discriminate | intros Hne; contradiction].
  - intros m ms Hm. specialize (Hmodels m). rewrite Hm in Hmodels.
    destruct Hmodels as (_ & Hmc & _ & _ & Hops).
    split; [exact Hmc |]. split.
    + intros op. specialize (Hops op). unfold for_operation.
      destruct (ModelSummary.operations ms !! op) as [os |].
      * split; [intros _; apply Hops | eauto].
      * split; [intros [x Hx]; discriminate | intros Hne; contradiction].
    + intros op os Ho. specialize (Hops op). rewrite Ho in Hops.
      apply Hops.
Qed.

Lemma summary_costs_are_sums_witness :
  exists s,
    TokenManager.get_usage_summary (H := sample_json) tm0 "2024-05-01" None fs123
      = Totals s /\
    py_sum (cost_of <$> (record_of tm0 <$> [call1; call2; call3]))
      = Ok (Summary.total_cost s).
Proof.
  destruct (summary_costs_are_sums (H := sample_json) tm0 "2024-05-01" None fs123
              (unlines [text1; text2; text3]) (record_of tm0 <$> [call1; call2; call3]))
    as (s & Hs & Hc & _).
  - vm_compute. reflexivity.
  - vm_compute. reflexivity.
  - repeat constructor.
  - exists s. split; [exact Hs | exact Hc].
Defined.

(** ** Order of arrival *)

(** C8, as stated, fails by a rounding: the same three records in two
    orders give the totals 0.0142 and 0.014199999999999999. *)
Lemma arrival_order_counterexample :
  exists es1 es2 s1 s2,
    read_entries (H := sample_json) (readlines (default "" (files fs123 !! path0)))
      = Ok es1 /\
    read_entries (H := sample_json) (readlines (default "" (files fs132 !! path0)))
      = Ok es2 /\
    es1 ≡ₚ es2 /\
    TokenManager.get_usage_summary (H := sample_json) tm0 "2024-05-01" None fs123
      = Totals s1 /\
    TokenManager.get_usage_summary (H := sample_json) tm0 "2024-05-01" None fs132
      = Totals s2 /\
    Summary.total_cost s1 = Flt (lit 142 10000) /\
    Summary.total_cost s2 = Flt (lit 14199999999999999 1000000000000000000) /\
    s1 <> s2.
Proof.
  exists (record_of tm0 <$> [call1; call2; call3]),
         (record_of tm0 <$> [call1; call3; call2]).
  do 2 eexists.
  split; [vm_compute; reflexivity |].
  split; [vm_compute; reflexivity |].
  split; [cbn [fmap list_fmap]; apply perm_skip, perm_swap |].
  split; [vm_compute; reflexivity |].
  split; [vm_compute; reflexivity |].
  split; [vm_compute; reflexivity |].
  split; [vm_compute; reflexivity |].
  vm_compute. discriminate.
Qed.

(** C8, amended. For two partitions holding the same well-formed
    records in two orders, both summaries exist and they agree on
    everything but the cost fields: date, token totals, the models and
    their token counts, the operations and their counts and token
    totals. The two totals of cost are the sums of the same costs in the
    two orders of arrival, and need not be equal. *)
Theorem summary_order_independent `{JsonLib} (self : TokenManager.t) (today : string)
    (date : option string) (fs1 fs2 : filesystem) (content1 content2 : string)
    (es1 es2 : list Entry.t)
    (Hfile1 : files fs1 !! TokenManager.log_file self (date_or_today date today)
              = Some content1)
    (Hfile2 : files fs2 !! TokenManager.log_file self (date_or_today date today)
              = Some content2)
    (Hread1 : read_entries (readlines content1) = Ok es1)
    (Hread2 : read_entries (readlines content2) = Ok es2)
    (Hperm : es1 ≡ₚ es2)
    (Hwf : Forall (fun e => well_formed e = true) es1) :
  exists s1 s2,
    TokenManager.get_usage_summary self today date fs1 = Totals s1 /\
    TokenManager.get_usage_summary self today date fs2 = Totals s2 /\
    erase_costs s1 = erase_costs s2 /\
    py_sum (cost_of <$> es1) = Ok (Summary.total_cost s1) /\
    py_sum (cost_of <$> es2) = Ok (Summary.total_cost s2).
Proof.
  assert (Hwf2 : Forall wf es2) by (rewrite <- Hperm; exact Hwf).
  destruct (aggregate_total (date_or_today date today) es1 Hwf) as (s1 & Hs1 & Hsum1).
  destruct (aggregate_total (date_or_today date today) es2 Hwf2) as (s2 & Hs2 & Hsum2).
  exists s1, s2.
  rewrite (get_usage_summary_aggregate self today date fs1 content1 es1 Hfile1 Hread1), Hs1.
  rewrite (get_usage_summary_aggregate self today date fs2 content2 es2 Hfile2 Hread2), Hs2.
  split; [reflexivity |]. split; [reflexivity |].
  split; [eapply summary_erase_eq; eassumption |].
  split; [apply Hsum1 | apply Hsum2].
Qed.

Lemma summary_order_independent_witness :
  exists s1 s2,
    TokenManager.get_usage_summary (H := sample_json) tm0 "2024-05-01" None fs123
      = Totals s1 /\
    TokenManager.get_usage_summary (H := sample_json) tm0 "2024-05-01" None fs132
      = Totals s2 /\
    erase_costs s1 = erase_costs s2.
Proof.
  destruct (summary_order_independent (H := sample_json) tm0 "2024-05-01" None
              fs123 fs132 (unlines [text1; text2; text3]) (unlines [text1; text3; text2])
              (record_of tm0 <$> [call1; call2; call3])
              (record_of tm0 <$> [call1; call3; call2]))
    as (s1 & s2 & H1 & H2 & He & _).
  - vm_compute. reflexivity.
  - vm_compute. reflexivity.
  - vm_compute. reflexivity.
  - vm_compute. reflexivity.
  - cbn [fmap list_fmap]. apply perm_skip, perm_swap.
  - repeat constructor.
  - exists s1, s2. split; [exact H1 | split; [exact H2 | exact He]].
Defined.

(** ** The cost logger and the route handlers *)


Lemma deref_insert (h : heap) (l : loc) (d : gmap string num) :
  deref (<[l := d]> h) l = d.
Proof. unfold deref. now rewrite lookup_insert_eq. Qed.



(** * Further properties *)

(** ** Token counts of the summary *)

Section TokenCounts.

Lemma int_total_sum_with {A} (f : A -> num) (l : list A) :
  int_total (f <$> l) = sum_with (fun x => int_of (f x)) l.
Proof. induction l as [| x l IH]; [reflexivity |]. cbn. unfold int_total in IH. now rewrite IH. Qed.

Lemma sum_with_app {A} (w : A -> Z) (l1 l2 : list A) :
  sum_with w (l1 ++ l2) = sum_with w l1 + sum_with w l2.
Proof. unfold sum_with. induction l1 as [| x l1 IH]; cbn; [reflexivity | rewrite IH; lia]. Qed.

Lemma sum_with_perm {A} (w : A -> Z) (l1 l2 : list A) :
  l1 ≡ₚ l2 -> sum_with w l1 = sum_with w l2.
Proof.
  unfold sum_with.
  induction 1 as [| x l1 l2 _ IH | x y l | l1 l2 l3 _ IH1 _ IH2]; cbn; lia.
Qed.

Lemma sum_with_ext {A} (w1 w2 : A -> Z) (l : list A) :
  Forall (fun x => w1 x = w2 x) l -> sum_with w1 l = sum_with w2 l.
Proof. unfold sum_with. induction 1 as [| x l Hx _ IH]; cbn; [reflexivity | lia]. Qed.

Lemma sum_with_one {A} (l : list A) : sum_with (fun _ => 1) l = Z.of_nat (length l).
Proof. unfold sum_with. induction l as [| x l IH]; cbn [foldr length]; [reflexivity | lia]. Qed.

Lemma sum_with_split {A} (w : A -> Z) (P : A -> Prop) `{forall x, Decision (P x)}
    (l : list A) :
  sum_with w l = sum_with w (filter P l) + sum_with w (filter (fun x => ~ P x) l).
Proof.
  rewrite <- sum_with_app. apply sum_with_perm. symmetry. apply filter_app_complement.
Qed.

Lemma filter_none {A} (P : A -> Prop) `{forall x, Decision (P x)} (l : list A) :
  (forall x, ~ P x) -> filter P l = [].
Proof.
  intros HP. induction l as [| x l IH]; [reflexivity |].
  rewrite filter_cons_False by apply HP. exact IH.
Qed.

Lemma map_sum_empty {A} (val : A -> Z) : map_sum val ∅ = 0.
Proof. apply map_fold_empty. Qed.

Lemma map_sum_insert {A} (val : A -> Z) (k : string) (a : A) (m : gmap string A) :
  m !! k = None -> map_sum val (<[k := a]> m) = val a + map_sum val m.
Proof.
  intros Hk. unfold map_sum. rewrite map_fold_insert_L; [reflexivity | | exact Hk].
  intros. lia.
Qed.

(** A dictionary that holds, for each key, a value for the elements of a
    list with that key: its values add up to the weight of the list. *)
Lemma map_sum_partition {A B} (key : B -> string) (w : B -> Z) (val : A -> Z)
    (m : gmap string A) (l : list B) :
  (forall k,
     match m !! k with
     | Some a => val a = sum_with w (filter (fun x => key x = k) l)
     | None => filter (fun x => key x = k) l = []
     end) ->
  map_sum val m = sum_with w l.
Proof.
  revert l. induction m as [| k a m Hk IH] using map_ind; intros l Hm.
  - rewrite map_sum_empty. destruct l as [| x l]; [reflexivity |].
    specialize (Hm (key x)). rewrite lookup_empty in Hm.
    rewrite filter_cons_True in Hm by reflexivity. discriminate.
  - rewrite map_sum_insert by exact Hk.
    rewrite (sum_with_split w (fun x => key x = k) l).
    pose proof (Hm k) as Hkk. rewrite lookup_insert_eq in Hkk. rewrite Hkk. f_equal.
    apply IH. intros k'. destruct (decide (k' = k)) as [-> | Hne].
    + rewrite Hk. rewrite list_filter_filter.
      apply filter_none. intros x [H1 H2]. contradiction.
    + specialize (Hm k'). rewrite lookup_insert_ne in Hm by congruence.
      assert (E : filter (fun x => key x = k') (filter (fun x => key x <> k) l)
                  = filter (fun x => key x = k') l).
      { rewrite list_filter_filter. apply list_filter_iff. intros x. split.
        - intros [H1 _]. exact H1.
        - intros H1. split; [exact H1 | congruence]. }
      rewrite E. exact Hm.
Qed.

End TokenCounts.

Section TokenAdditivity.

Lemma sum_with_add {A} (f g : A -> Z) (l : list A) :
  sum_with (fun x => f x + g x) l = sum_with f l + sum_with g l.
Proof. unfold sum_with. induction l as [| x l IH]; cbn; [reflexivity | lia]. Qed.

Lemma py_sum_int_inv (xs : list num) (a : num) :
  Forall (fun x => is_int x = true) xs -> py_sum xs = Ok a -> a = Int (int_total xs).
Proof. intros Hi Hs. rewrite (py_sum_int xs Hi) in Hs. congruence. Qed.

Lemma wf_int_fields (es : list Entry.t) (f : Entry.t -> num) (a : num) :
  Forall (fun x => is_int x = true) (f <$> es) ->
  py_sum (f <$> es) = Ok a ->
  a = Int (sum_with (fun e => int_of (f e)) es).
Proof.
  intros Hi Hs. rewrite <- int_total_sum_with. now apply py_sum_int_inv.
Qed.

Lemma op_summarises_tokens (es : list Entry.t) (os : OpSummary.t) :
  Forall wf es -> op_summarises es os ->
  op_tokens os = sum_with (fun e => int_of (total_tokens_of e)) es /\
  OpSummary.count os = sum_with (fun _ => 1) es.
Proof.
  intros Hwf (Hc & _ & Ht). split.
  - unfold op_tokens. now rewrite (wf_int_fields es total_tokens_of _ (wf_total_tokens es Hwf) Ht).
  - now rewrite sum_with_one.
Qed.

Lemma model_summarises_tokens (es : list Entry.t) (ms : ModelSummary.t) :
  Forall wf es -> Forall tokens_consistent es -> model_summarises es ms ->
  model_tokens ms = sum_with (fun e => int_of (total_tokens_of e)) es /\
  model_tokens ms = map_sum op_tokens (ModelSummary.operations ms) /\
  model_calls ms = sum_with (fun _ => 1) es.
Proof.
  intros Hwf Hc (_ & Hi & Ho & Hops).
  assert (Ht : model_tokens ms = sum_with (fun e => int_of (total_tokens_of e)) es).
  { unfold model_tokens.
    rewrite (wf_int_fields es input_tokens_of _ (wf_input_tokens es Hwf) Hi).
    rewrite (wf_int_fields es output_tokens_of _ (wf_output_tokens es Hwf) Ho).
    cbn [int_of]. rewrite <- sum_with_add. symmetry. apply sum_with_ext.
    eapply Forall_impl; [exact Hc |]. intros e He. exact He. }
  split; [exact Ht |]. split.
  - rewrite Ht. symmetry. apply (map_sum_partition operation_of).
    intros op. specialize (Hops op).
    destruct (ModelSummary.operations ms !! op) as [os |]; [| exact Hops].
    destruct Hops as [_ Hos]. apply op_summarises_tokens; [| exact Hos].
    now apply wf_filter.
  - unfold model_calls. apply (map_sum_partition operation_of).
    intros op. specialize (Hops op).
    destruct (ModelSummary.operations ms !! op) as [os |]; [| exact Hops].
    destruct Hops as [_ Hos]. apply op_summarises_tokens; [| exact Hos].
    now apply wf_filter.
Qed.

Lemma Forall_filter_keep {A} (P Q : A -> Prop) `{forall x, Decision (P x)} (l : list A) :
  Forall Q l -> Forall Q (filter P l).
Proof.
  intros HQ. apply Forall_forall. intros x Hx. apply list_elem_of_filter in Hx.
  rewrite Forall_forall in HQ. apply HQ, Hx.
Qed.

End TokenAdditivity.

(** X1. For a partition whose records are well formed and have
    [total_tokens = input_tokens + output_tokens], the token side of the
    daily summary is exactly hierarchical: [total_tokens] is the integer
    sum, over the models, of their input and output tokens; the input
    and output tokens of a model add up to the [tokens] of its
    operations; and the [count]s of all operations of all models add up
    to the number of records. *)
Theorem summary_tokens_additive `{JsonLib} (self : TokenManager.t) (today : string)
    (date : option string) (fs : filesystem) (content : string) (es : list Entry.t) :
  files fs !! TokenManager.log_file self (date_or_today date today) = Some content ->
  read_entries (readlines content) = Ok es ->
  Forall wf es ->
  Forall tokens_consistent es ->
  exists s,
    TokenManager.get_usage_summary self today date fs = Totals s /\
    Summary.total_tokens s = Int (map_sum model_tokens (Summary.models s)) /\
    (forall m ms, Summary.models s !! m = Some ms ->
       model_tokens ms = map_sum op_tokens (ModelSummary.operations ms)) /\
    map_sum model_calls (Summary.models s) = Z.of_nat (length es).
Proof.
  intros Hf Hr Hwf Hc.
  destruct (aggregate_total (date_or_today date today) es Hwf) as (s & Ha & Hs).
  exists s. split.
  { rewrite (get_usage_summary_aggregate self today date fs content es Hf Hr).
    now rewrite Ha. }
  destruct Hs as (_ & _ & Ht & Hm).
  assert (Hmod : forall m ms, Summary.models s !! m = Some ms ->
            model_tokens ms = sum_with (fun e => int_of (total_tokens_of e)) (for_model m es) /\
            model_tokens ms = map_sum op_tokens (ModelSummary.operations ms) /\
            model_calls ms = sum_with (fun _ => 1) (for_model m es)).
  { intros m ms Hms. specialize (Hm m). rewrite Hms in Hm. destruct Hm as [_ Hm].
    apply model_summarises_tokens; [| | exact Hm].
    - now apply wf_filter.
    - now apply Forall_filter_keep. }
  split; [| split].
  - rewrite (wf_int_fields es total_tokens_of _ (wf_total_tokens es Hwf) Ht). f_equal.
    symmetry. apply (map_sum_partition model_of).
    intros m. specialize (Hm m).
    destruct (Summary.models s !! m) as [ms |] eqn:Hms; [| exact Hm].
    apply (Hmod m ms Hms).
  - intros m ms Hms. apply (Hmod m ms Hms).
  - rewrite <- sum_with_one. apply (map_sum_partition model_of).
    intros m. specialize (Hm m).
    destruct (Summary.models s !! m) as [ms |] eqn:Hms; [| exact Hm].
    apply (Hmod m ms Hms).
Qed.

Lemma summary_tokens_additive_witness :
  exists s,
    TokenManager.get_usage_summary (H := sample_json) tm0 "2024-05-01" None fs123
      = Totals s /\
    Summary.total_tokens s = Int (map_sum model_tokens (Summary.models s)).
Proof.
  destruct (summary_tokens_additive (H := sample_json) tm0 "2024-05-01" None fs123
              (unlines [text1; text2; text3]) (record_of tm0 <$> [call1; call2; call3]))
    as (s & Hs & Ht & _).
  - vm_compute. reflexivity.
  - vm_compute. reflexivity.
  - repeat constructor.
  - repeat constructor.
  - exists s. split; [exact Hs | exact Ht].
Defined.

(** ** Recording and then summarising *)

Section RecordThenSummarise.

Context `{J : JsonLib}.
Variable self : TokenManager.t.

Lemma filter_fmap_list {A B} (f : A -> B) (P : B -> Prop) `{forall y, Decision (P y)}
    (l : list A) :
  filter P (f <$> l) = f <$> filter (fun x => P (f x)) l.
Proof.
  induction l as [| x l IH]; [reflexivity |].
  cbn [fmap list_fmap]. rewrite !filter_cons. cbn [fmap list_fmap] in IH.
  destruct (decide (P (f x))); cbn [fmap list_fmap]; now rewrite IH.
Qed.

Lemma sum_with_fmap {A B} (f : A -> B) (w : B -> Z) (l : list A) :
  sum_with w (f <$> l) = sum_with (fun x => w (f x)) l.
Proof. unfold sum_with. induction l as [| x l IH]; cbn; [reflexivity | now rewrite IH]. Qed.

Lemma record_of_fields (c : usage_call) :
  model_of (record_of self c) = call_model c /\
  operation_of (record_of self c) = call_operation c /\
  input_tokens_of (record_of self c) = Int (call_input_tokens c) /\
  output_tokens_of (record_of self c) = Int (call_output_tokens c) /\
  total_tokens_of (record_of self c) = Int (call_input_tokens c + call_output_tokens c).
Proof.
  unfold record_of, TokenManager.calculate_cost, try_except.
  destruct (int_truediv (call_input_tokens c) 1000) as [qi | e]; simpl;
    [destruct (int_truediv (call_output_tokens c) 1000) as [qo | e]; simpl |];
    repeat split; reflexivity.
Qed.

Lemma record_of_consistent (c : usage_call) : tokens_consistent (record_of self c).
Proof.
  unfold tokens_consistent.
  destruct (record_of_fields c) as (_ & _ & -> & -> & ->). reflexivity.
Qed.

Lemma for_model_records (m : string) (calls : list usage_call) :
  for_model m (record_of self <$> calls)
  = record_of self <$> filter (fun c => call_model c = m) calls.
Proof.
  unfold for_model. now rewrite filter_fmap_list.
Qed.

(** What [get_usage_summary] computes from the text of the partition,
    whether the file exists or not. *)
Lemma get_usage_summary_text (today : string) (date : option string) (fs : filesystem)
    (es : list Entry.t) :
  let target_date := date_or_today date today in
  read_entries
    (readlines (default "" (files fs !! TokenManager.log_file self target_date))) = Ok es ->
  (files fs !! TokenManager.log_file self target_date = None -> es = []) ->
  TokenManager.get_usage_summary self today date fs =
  match aggregate es (TokenManager.empty_summary target_date) with
  | Ok s => Totals s
  | Raise e => Degraded target_date e
  end.
Proof.
  intros target_date Hr Hnone.
  destruct (files fs !! TokenManager.log_file self target_date) as [content |] eqn:Hf.
  - now apply get_usage_summary_aggregate with (content := content).
  - rewrite (Hnone eq_refl). unfold TokenManager.get_usage_summary.
    fold target_date. rewrite Hf. reflexivity.
Qed.

End RecordThenSummarise.

Lemma unlines_empty (ls : list string) : unlines ls = "" -> ls = [].
Proof.
  destruct ls as [| l ls]; [reflexivity |]. cbn [unlines]. intros Hu. exfalso.
  destruct l as [| c l].
  - change ("" +:+ NL) with NL in Hu. unfold NL in Hu. rewrite append_cons in Hu.
    discriminate.
  - rewrite !append_cons in Hu. discriminate.
Qed.

(** X2. Recording and summarising compose: after N calls of
    [log_usage] on one day into a missing or empty partition that can be
    appended to, [get_usage_summary] for that day returns totals, never
    the error dictionary; [total_tokens] is the sum of the input and
    output tokens of the N calls; a model has an entry exactly when a
    call named it, and its entry holds the sums of the input and of the
    output tokens of its calls and counts, over its operations, exactly
    its calls. The JSON library is assumed to write each record on one
    line that it reads back as the same record. *)
Theorem log_usages_then_summary `{JsonLib} (self : TokenManager.t) (today : string)
    (calls : list usage_call) (fs : filesystem)
    (Hw : TokenManager.log_file self today ∉ denied fs)
    (Hempty : default "" (files fs !! TokenManager.log_file self today) = "")
    (Hjson : Forall (fun c =>
                let text := json_dumps (record_of self c) in
                no_newline text = true /\
                is_blank (text +:+ NL) = false /\
                json_loads (text +:+ NL) = Ok (record_of self c)) calls) :
  exists s,
    TokenManager.get_usage_summary self today None (log_usages self today calls fs)
      = Totals s /\
    Summary.total_tokens s
      = Int (sum_with (fun c => call_input_tokens c + call_output_tokens c) calls) /\
    forall m,
      match Summary.models s !! m with
      | Some ms =>
          calls_of m calls <> [] /\
          ModelSummary.input_tokens ms = Int (sum_with call_input_tokens (calls_of m calls)) /\
          ModelSummary.output_tokens ms = Int (sum_with call_output_tokens (calls_of m calls)) /\
          model_calls ms = Z.of_nat (length (calls_of m calls))
      | None => calls_of m calls = []
      end.
Proof.
  set (es := record_of self <$> calls).
  assert (Hwf : Forall wf es).
  { apply Forall_fmap, Forall_forall. intros c _. apply record_of_well_formed. }
  assert (Hcons : Forall tokens_consistent es).
  { apply Forall_fmap, Forall_forall. intros c _. apply record_of_consistent. }
  assert (Hcontent : default "" (files (log_usages self today calls fs)
                                   !! TokenManager.log_file self today)
                     = unlines (line_of self <$> calls)).
  { rewrite log_usages_content by exact Hw. now rewrite Hempty. }
  assert (Hread : read_entries
                    (readlines (default "" (files (log_usages self today calls fs)
                                              !! TokenManager.log_file self today)))
                  = Ok es).
  { rewrite Hcontent, readlines_unlines.
    - apply read_entries_lines. eapply Forall_impl; [exact Hjson |].
      intros c (_ & Hb & Hl). now split.
    - apply Forall_fmap. eapply Forall_impl; [exact Hjson |].
      intros c (Hn & _). exact Hn. }
  destruct (aggregate_total today es Hwf) as (s & Ha & Hs).
  exists s. split.
  { rewrite (get_usage_summary_text self today None _ es Hread).
    - cbn [date_or_today]. now rewrite Ha.
    - cbn [date_or_today]. intros Hnone. rewrite Hnone in Hcontent. cbn in Hcontent.
      symmetry in Hcontent. apply unlines_empty in Hcontent.
      unfold es. apply fmap_nil_inv in Hcontent. now rewrite Hcontent. }
  destruct Hs as (_ & _ & Ht & Hm). split.
  - rewrite (wf_int_fields es total_tokens_of _ (wf_total_tokens es Hwf) Ht). f_equal.
    unfold es. rewrite sum_with_fmap. apply sum_with_ext, Forall_forall. intros c _.
    destruct (record_of_fields self c) as (_ & _ & _ & _ & ->). reflexivity.
  - intros m. specialize (Hm m). unfold es in Hm. rewrite for_model_records in Hm.
    fold (calls_of m calls) in Hm.
    destruct (Summary.models s !! m) as [ms |].
    + destruct Hm as [Hne Hms].
      assert (Hwf' : Forall wf (record_of self <$> calls_of m calls)).
      { apply Forall_fmap, Forall_forall. intros c _. apply record_of_well_formed. }
      assert (Hcons' : Forall tokens_consistent (record_of self <$> calls_of m calls)).
      { apply Forall_fmap, Forall_forall. intros c _. apply record_of_consistent. }
      destruct (model_summarises_tokens _ ms Hwf' Hcons' Hms) as (_ & _ & Hcalls).
      destruct Hms as (_ & Hi & Ho & _).
      split; [| split; [| split]].
      * intros Hnil. apply Hne. now rewrite Hnil.
      * rewrite (wf_int_fields _ input_tokens_of _ (wf_input_tokens _ Hwf') Hi). f_equal.
        rewrite sum_with_fmap. apply sum_with_ext, Forall_forall. intros c _.
        destruct (record_of_fields self c) as (_ & _ & -> & _). reflexivity.
      * rewrite (wf_int_fields _ output_tokens_of _ (wf_output_tokens _ Hwf') Ho). f_equal.
        rewrite sum_with_fmap. apply sum_with_ext, Forall_forall. intros c _.
        destruct (record_of_fields self c) as (_ & _ & _ & -> & _). reflexivity.
      * rewrite Hcalls, sum_with_one. now rewrite length_fmap.
    + now apply fmap_nil_inv in Hm.
Qed.

Lemma log_usages_then_summary_witness :
  exists s,
    TokenManager.get_usage_summary (H := sample_json) tm0 "2024-05-01" None
      (log_usages (H := sample_json) tm0 "2024-05-01" [call1; call2; call3] (fs_of ""))
      = Totals s /\
    Summary.total_tokens s
      = Int (sum_with (fun c => call_input_tokens c + call_output_tokens c)
               [call1; call2; call3]).
Proof.
  destruct (log_usages_then_summary (H := sample_json) tm0 "2024-05-01"
              [call1; call2; call3] (fs_of "")) as (s & Hs & Ht & _).
  - apply not_elem_of_empty.
  - vm_compute. reflexivity.
  - repeat constructor; vm_compute; reflexivity.
  - exists s. split; [exact Hs | exact Ht].
Defined.

(** ** One file per day *)

Section Partitions.

Lemma append_length (s t : string) :
  String.length (s +:+ t) = (String.length s + String.length t)%nat.
Proof.
  induction s as [| c s IH]; [reflexivity |].
  rewrite append_cons. cbn [String.length]. now rewrite IH.
Qed.

Lemma append_inj_r (s s' t : string) : s +:+ t = s' +:+ t -> s = s'.
Proof.
  revert s'. induction s as [| c s IH]; intros [| c' s'] E.
  - reflexivity.
  - apply (f_equal String.length) in E. rewrite !append_length in E.
    cbn [String.length] in E. lia.
  - apply (f_equal String.length) in E. rewrite !append_length in E.
    cbn [String.length] in E. lia.
  - rewrite !append_cons in E. injection E as -> E. f_equal. now apply IH.
Qed.

Lemma path_join_relative (a : string) (c : Ascii.ascii) (b : string) :
  c <> Ascii.ascii_of_nat 47 ->
  path_join a (String c b) = dir_prefix a +:+ String c b.
Proof.
  intros Hc. unfold path_join, dir_prefix.
  assert (Hp : String.prefix "/" (String c b) = false).
  { change (String.prefix "/" (String c b))
      with (if Ascii.ascii_dec (Ascii.ascii_of_nat 47) c then String.prefix "" b else false).
    destruct (Ascii.ascii_dec (Ascii.ascii_of_nat 47) c) as [E | _]; [| reflexivity].
    now destruct Hc. }
  rewrite Hp. destruct (String.eqb a ""); [reflexivity |].
  destruct (String.eqb _ "/"); [reflexivity |]. now rewrite append_assoc.
Qed.

Lemma token_log_file_eq (self : TokenManager.t) (d : string) :
  TokenManager.log_file self d
  = dir_prefix (TokenManager.log_dir self) +:+ ("token_log_" +:+ (d +:+ ".jsonl")).
Proof.
  unfold TokenManager.log_file.
  change ("token_log_" +:+ d +:+ ".jsonl") with (String (Ascii.ascii_of_nat 116) ("oken_log_" +:+ (d +:+ ".jsonl"))).
  rewrite path_join_relative; [reflexivity |]. intros E. vm_compute in E. discriminate.
Qed.

Lemma cost_log_file_eq (self : CostLogger.t) (d : string) :
  CostLogger.log_file self d
  = dir_prefix (CostLogger.log_dir self) +:+ ("cost_log_" +:+ (d +:+ ".jsonl")).
Proof.
  unfold CostLogger.log_file.
  change ("cost_log_" +:+ d +:+ ".jsonl") with (String (Ascii.ascii_of_nat 99) ("ost_log_" +:+ (d +:+ ".jsonl"))).
  rewrite path_join_relative; [reflexivity |]. intros E. vm_compute in E. discriminate.
Qed.

Lemma token_log_file_inj (self : TokenManager.t) (d d' : string) :
  TokenManager.log_file self d = TokenManager.log_file self d' -> d = d'.
Proof.
  rewrite !token_log_file_eq. intros E.
  apply String.app_inj in E. apply String.app_inj in E. now apply append_inj_r in E.
Qed.

Lemma cost_log_file_inj (self : CostLogger.t) (d d' : string) :
  CostLogger.log_file self d = CostLogger.log_file self d' -> d = d'.
Proof.
  rewrite !cost_log_file_eq. intros E.
  apply String.app_inj in E. apply String.app_inj in E. now apply append_inj_r in E.
Qed.

Lemma append_text_frame (path text : string) (fs fs' : filesystem) (p : string) :
  append_text path text fs = Ok fs' -> p <> path -> files fs' !! p = files fs !! p.
Proof.
  unfold append_text. destruct (decide (path ∈ denied fs)); [discriminate |].
  intros [= <-] Hp. cbn [files]. now rewrite lookup_insert_ne by congruence.
Qed.

Lemma log_usage_frame `{JsonLib} (self : TokenManager.t) (timestamp day : string)
    (model operation : string) (i o : Z) (metadata : option (gmap string json))
    (fs : filesystem) (p : string) :
  p <> TokenManager.log_file self day ->
  files (snd (TokenManager.log_usage self timestamp day model operation i o metadata fs)) !! p
  = files fs !! p.
Proof.
  intros Hp. destruct (decide (TokenManager.log_file self day ∈ denied fs)) as [Hd | Hw].
  - now rewrite log_usage_denied.
  - rewrite log_usage_appended by exact Hw. cbn [snd files].
    now rewrite lookup_insert_ne by congruence.
Qed.

Lemma write_to_log_frame `{JsonLib} (self : CostLogger.t) (timestamp day model : string)
    (i o : num) (ic oc tc : float) (fs : filesystem) (p : string) :
  p <> CostLogger.log_file self day ->
  files (CostLogger._write_to_log self timestamp day model i o ic oc tc fs) !! p
  = files fs !! p.
Proof.
  intros Hp. unfold CostLogger._write_to_log, try_except.
  destruct (append_text _ _ fs) as [fs' |] eqn:E; [| reflexivity].
  now apply (append_text_frame _ _ _ _ _ E).
Qed.

Lemma log_cost_frame `{JsonLib} (self : CostLogger.t) (timestamp day model : string)
    (l : loc) (h : heap) (fs : filesystem) (p : string) :
  p <> CostLogger.log_file self day ->
  files (snd (CostLogger.log_cost self timestamp day model l h fs)) !! p = files fs !! p.
Proof.
  intros Hp. unfold CostLogger.log_cost, try_except.
  destruct (CostLogger.div_1000 (default (Int 0) (deref h l !! "input_tokens"))) as [qi |];
    [| reflexivity]. simpl.
  destruct (CostLogger.div_1000 (default (Int 0) (deref h l !! "output_tokens"))) as [qo |];
    [| reflexivity]. simpl.
  now apply write_to_log_frame.
Qed.

End Partitions.

(** X3. The logs are partitioned by day: a call of [log_usage] made
    on one day leaves [get_usage_summary] of every other date as it was,
    and a call of [log_cost] leaves [get_daily_summary] of every other
    date as it was, whatever the call records and whether or not its
    write succeeds. *)
Theorem other_days_unchanged `{JsonLib} (tm : TokenManager.t) (cl : CostLogger.t)
    (timestamp day now : string) (date : option string)
    (model operation : string) (i o : Z) (metadata : option (gmap string json))
    (l : loc) (h : heap) (fs : filesystem) :
  date_or_today date now <> day ->
  TokenManager.get_usage_summary tm now date
    (snd (TokenManager.log_usage tm timestamp day model operation i o metadata fs))
  = TokenManager.get_usage_summary tm now date fs /\
  CostLogger.get_daily_summary cl now date
    (snd (CostLogger.log_cost cl timestamp day model l h fs))
  = CostLogger.get_daily_summary cl now date fs.
Proof.
  intros Hd. split.
  - unfold TokenManager.get_usage_summary. rewrite log_usage_frame; [reflexivity |].
    intros E. now apply token_log_file_inj in E.
  - unfold CostLogger.get_daily_summary. rewrite log_cost_frame; [reflexivity |].
    intros E. now apply cost_log_file_inj in E.
Qed.

Lemma other_days_unchanged_witness :
  TokenManager.get_usage_summary (H := sample_json) tm0 "2024-05-02" (Some "2024-05-01")
    (snd (TokenManager.log_usage (H := sample_json) tm0 "2024-05-02T10:00:00" "2024-05-02"
            "GPT-4o" "summarize" 1000 500 None fs123))
  = TokenManager.get_usage_summary (H := sample_json) tm0 "2024-05-02" (Some "2024-05-01") fs123.
Proof.
  apply (other_days_unchanged (H := sample_json) tm0 cl0 "2024-05-02T10:00:00" "2024-05-02"
           "2024-05-02" (Some "2024-05-01") "GPT-4o" "summarize" 1000 500 None
           1%positive heap0 fs123).
  vm_compute. discriminate.
Defined.

(** ** The daily summary of the cost log *)

Section CostAggregation.

Lemma cost_read_log_aggregate `{JsonLib} (lines : list string) (es : list Entry.t)
    (s : CostSummary.t) :
  read_entries lines = Ok es -> CostLogger.read_log lines s = cost_aggregate es s.
Proof.
  revert es s. induction lines as [| line lines IH]; intros es s; cbn [read_entries CostLogger.read_log].
  - now intros [= <-].
  - destruct (is_blank line); [apply IH |].
    destruct (json_loads line) as [e | err]; simpl; [| discriminate].
    destruct (read_entries lines) as [es' | err]; simpl; [| discriminate].
    intros [= <-]. cbn [cost_aggregate].
    destruct (CostLogger.update s e) as [s' | err]; simpl; [| reflexivity].
    now apply IH.
Qed.

Lemma cost_aggregate_snoc (es : list Entry.t) (e : Entry.t) (s : CostSummary.t) :
  cost_aggregate (es ++ [e]) s = (s' <-! cost_aggregate es s; CostLogger.update s' e).
Proof.
  revert s. induction es as [| x es IH]; intros s; cbn [cost_aggregate app].
  - simpl. destruct (CostLogger.update s e); reflexivity.
  - destruct (CostLogger.update s x) as [s' | err]; simpl; [apply IH | reflexivity].
Qed.

Lemma complete_fields (e : Entry.t) :
  complete e = true ->
  Entry.total_cost e = Some (total_cost_of e) /\
  Entry.input_tokens e = Some (input_tokens_of e) /\
  Entry.output_tokens e = Some (output_tokens_of e) /\
  Entry.model e = Some (model_of e).
Proof.
  unfold complete, total_cost_of, input_tokens_of, output_tokens_of, model_of.
  destruct (Entry.total_cost e), (Entry.input_tokens e), (Entry.output_tokens e),
    (Entry.model e); try discriminate.
  intros _. repeat split.
Qed.

(** The loop body on a record that has its four keys. *)
Lemma cost_update_unfold (s : CostSummary.t) (e : Entry.t) :
  complete e = true ->
  let m := model_of e in
  let ms := default CostLogger.new_model_summary (CostSummary.models s !! m) in
  CostLogger.update s e =
  (tc <-! num_add (CostSummary.total_cost s) (total_cost_of e);
   ti <-! num_add (CostSummary.total_input_tokens s) (input_tokens_of e);
   to <-! num_add (CostSummary.total_output_tokens s) (output_tokens_of e);
   mc <-! num_add (CostModelSummary.cost ms) (total_cost_of e);
   mi <-! num_add (CostModelSummary.input_tokens ms) (input_tokens_of e);
   mo <-! num_add (CostModelSummary.output_tokens ms) (output_tokens_of e);
   Ok {| CostSummary.date := CostSummary.date s;
         CostSummary.total_cost := tc;
         CostSummary.total_input_tokens := ti;
         CostSummary.total_output_tokens := to;
         CostSummary.models :=
           <[m := {| CostModelSummary.cost := mc;
                     CostModelSummary.input_tokens := mi;
                     CostModelSummary.output_tokens := mo;
                     CostModelSummary.call_count := CostModelSummary.call_count ms + 1 |}]>
             (CostSummary.models s) |}).
Proof.
  intros Hc m ms. destruct (complete_fields e Hc) as (E1 & E2 & E3 & E4).
  unfold CostLogger.update. rewrite E1, E2, E3, E4. fold m.
  cbn [CostLogger.field]. simpl rbind.
  do 3 bind_step.
  rewrite getitem_setdefault. simpl. fold ms.
  do 3 bind_step.
  now rewrite !insert_setdefault.
Qed.

Lemma cost_model_summarises_new : cost_model_summarises [] CostLogger.new_model_summary.
Proof. repeat split. Qed.

Lemma cost_summarises_empty (d : string) :
  cost_summarises d [] (CostLogger.empty_summary d).
Proof.
  repeat split; intros; cbn; rewrite ?lookup_empty; reflexivity.
Qed.

Lemma cost_model_before (d : string) (es : list Entry.t) (s : CostSummary.t) (m : string) :
  cost_summarises d es s ->
  cost_model_summarises (for_model m es)
    (default CostLogger.new_model_summary (CostSummary.models s !! m)).
Proof.
  intros (_ & _ & _ & _ & Hms). specialize (Hms m).
  destruct (CostSummary.models s !! m) as [ms |]; cbn.
  - apply Hms.
  - rewrite Hms. apply cost_model_summarises_new.
Qed.

Lemma cost_summarises_snoc (d : string) (es : list Entry.t) (e : Entry.t)
    (s s' : CostSummary.t) :
  complete e = true ->
  cost_summarises d es s -> CostLogger.update s e = Ok s' ->
  cost_summarises d (es ++ [e]) s'.
Proof.
  intros Hcomp Hs Hu.
  pose proof (cost_model_before d es s (model_of e) Hs) as Hms.
  rewrite cost_update_unfold in Hu by exact Hcomp. cbv zeta in Hu.
  set (m := model_of e) in *.
  set (ms := default CostLogger.new_model_summary (CostSummary.models s !! m)) in *.
  do 6 (bind_inv Hu).
  injection Hu as <-.
  destruct Hs as (Hd & Hc & Hi & Ho & Hmodels).
  destruct Hms as (Hn & Hmc & Hmi & Hmo).
  unfold cost_summarises. cbn.
  rewrite !fmap_app. cbn [fmap list_fmap].
  split; [exact Hd |].
  split; [eapply py_sum_snoc; eassumption |].
  split; [eapply py_sum_snoc; eassumption |].
  split; [eapply py_sum_snoc; eassumption |].
  intros m'. unfold for_model. destruct (decide (m = m')) as [<- | Hne].
  - rewrite lookup_insert_eq.
    rewrite filter_snoc_True by reflexivity.
    split; [apply snoc_not_nil |].
    unfold cost_model_summarises. cbn.
    rewrite !fmap_app. cbn [fmap list_fmap].
    split; [rewrite length_app; cbn; unfold for_model in Hn; lia |].
    split; [eapply py_sum_snoc; eassumption |].
    split; eapply py_sum_snoc; eassumption.
  - rewrite lookup_insert_ne by exact Hne.
    rewrite filter_snoc_False by (intros Heq; apply Hne; exact Heq).
    apply Hmodels.
Qed.

End CostAggregation.

Section CostWellFormed.

Lemma cwf_fields (e : Entry.t) :
  cwf e ->
  complete e = true /\ is_cost (total_cost_of e) = true /\
  is_int (input_tokens_of e) = true /\ is_int (output_tokens_of e) = true.
Proof.
  unfold cwf, cost_well_formed. intros H.
  apply andb_prop in H as [H H4]. apply andb_prop in H as [H H3].
  apply andb_prop in H as [H1 H2]. auto.
Qed.

Lemma cwf_costs (es : list Entry.t) :
  Forall cwf es -> Forall (fun x => is_cost x = true) (total_cost_of <$> es).
Proof.
  intros H. apply Forall_fmap. eapply Forall_impl; [exact H |].
  intros e He. apply (cwf_fields e He).
Qed.

Lemma cwf_input_tokens (es : list Entry.t) :
  Forall cwf es -> Forall (fun x => is_int x = true) (input_tokens_of <$> es).
Proof.
  intros H. apply Forall_fmap. eapply Forall_impl; [exact H |].
  intros e He. apply (cwf_fields e He).
Qed.

Lemma cwf_output_tokens (es : list Entry.t) :
  Forall cwf es -> Forall (fun x => is_int x = true) (output_tokens_of <$> es).
Proof.
  intros H. apply Forall_fmap. eapply Forall_impl; [exact H |].
  intros e He. apply (cwf_fields e He).
Qed.

(** On records with their four keys, integer counts and a float cost the
    loop body cannot raise. *)
Lemma cost_update_total (d : string) (es : list Entry.t) (e : Entry.t) (s : CostSummary.t) :
  cost_summarises d es s -> Forall cwf es -> cwf e ->
  exists s', CostLogger.update s e = Ok s'.
Proof.
  intros Hs Hes He.
  destruct (cwf_fields e He) as (Hcomp & Hc & Hi & Ho).
  pose proof (cost_model_before d es s (model_of e) Hs) as Hms.
  pose proof (Forall_filter_keep (fun x => model_of x = model_of e) cwf es Hes) as Hmes.
  fold (for_model (model_of e) es) in Hmes.
  rewrite cost_update_unfold by exact Hcomp. cbv zeta.
  set (ms := default CostLogger.new_model_summary (CostSummary.models s !! model_of e)) in *.
  destruct Hs as (_ & Hsc & Hsi & Hso & _).
  destruct Hms as (_ & Hmc & Hmi & Hmo).
  destruct (num_add_cost (CostSummary.total_cost s) (total_cost_of e)
              (py_sum_cost _ _ (cwf_costs _ Hes) Hsc) Hc) as (tc & -> & _).
  rewrite (num_add_int (CostSummary.total_input_tokens s) (input_tokens_of e)
             (int_sum_is_int _ _ (cwf_input_tokens _ Hes) Hsi) Hi).
  rewrite (num_add_int (CostSummary.total_output_tokens s) (output_tokens_of e)
             (int_sum_is_int _ _ (cwf_output_tokens _ Hes) Hso) Ho).
  destruct (num_add_cost (CostModelSummary.cost ms) (total_cost_of e)
              (py_sum_cost _ _ (cwf_costs _ Hmes) Hmc) Hc) as (mc & -> & _).
  rewrite (num_add_int (CostModelSummary.input_tokens ms) (input_tokens_of e)
             (int_sum_is_int _ _ (cwf_input_tokens _ Hmes) Hmi) Hi).
  rewrite (num_add_int (CostModelSummary.output_tokens ms) (output_tokens_of e)
             (int_sum_is_int _ _ (cwf_output_tokens _ Hmes) Hmo) Ho).
  simpl. eauto.
Qed.

Lemma cost_aggregate_total (d : string) (es : list Entry.t) :
  Forall cwf es ->
  exists s, cost_aggregate es (CostLogger.empty_summary d) = Ok s /\ cost_summarises d es s.
Proof.
  induction es as [| e es IH] using rev_ind; intros Hes.
  - eexists. split; [reflexivity | apply cost_summarises_empty].
  - apply Forall_app in Hes as [Hes He]. rewrite Forall_singleton in He.
    destruct (IH Hes) as (s & Hs & Hsum).
    destruct (cost_update_total d es e s Hsum Hes He) as [s' Hs'].
    exists s'. split.
    + rewrite cost_aggregate_snoc, Hs. exact Hs'.
    + eapply cost_summarises_snoc; [apply (cwf_fields e He) | eassumption | eassumption].
Qed.

(** What [get_daily_summary] computes from the text of the partition,
    whether the file exists or not. *)
Lemma get_daily_summary_text `{JsonLib} (self : CostLogger.t) (today : string)
    (date : option string) (fs : filesystem) (es : list Entry.t) :
  let target_date := date_or_today date today in
  read_entries
    (readlines (default "" (files fs !! CostLogger.log_file self target_date))) = Ok es ->
  CostLogger.get_daily_summary self today date fs =
  match cost_aggregate es (CostLogger.empty_summary target_date) with
  | Ok s => CostTotals s
  | Raise e => CostDegraded target_date e
  end.
Proof.
  intros target_date Hr. unfold CostLogger.get_daily_summary. fold target_date.
  destruct (files fs !! CostLogger.log_file self target_date) as [content |] eqn:Hf.
  - cbn [default] in Hr. unfold id in Hr.
    rewrite (cost_read_log_aggregate _ es _ Hr).
    destruct (cost_aggregate es _); reflexivity.
  - cbn in Hr. injection Hr as <-. reflexivity.
Qed.

End CostWellFormed.

(** X4. The daily summary of the cost log, for a partition whose
    records have their four keys, integer token counts and a float cost:
    it is never the error dictionary; its token totals are the exact
    integer sums over the records and its [total_cost] their sum in
    arrival order; a model has an entry exactly when it has a record,
    with [call_count] the number of its records and its tokens their
    integer sums; and the per-model call counts and token counts add up
    to the number of records and to the totals of the day. *)
Theorem get_daily_summary_totals `{JsonLib} (self : CostLogger.t) (today : string)
    (date : option string) (fs : filesystem) (es : list Entry.t) :
  read_entries
    (readlines (default "" (files fs !! CostLogger.log_file self (date_or_today date today))))
    = Ok es ->
  Forall cwf es ->
  exists s,
    CostLogger.get_daily_summary self today date fs = CostTotals s /\
    CostSummary.date s = date_or_today date today /\
    py_sum (total_cost_of <$> es) = Ok (CostSummary.total_cost s) /\
    CostSummary.total_input_tokens s = Int (sum_with tokens_in es) /\
    CostSummary.total_output_tokens s = Int (sum_with tokens_out es) /\
    (forall m,
       match CostSummary.models s !! m with
       | Some ms =>
           for_model m es <> [] /\
           CostModelSummary.call_count ms = Z.of_nat (length (for_model m es)) /\
           py_sum (total_cost_of <$> for_model m es) = Ok (CostModelSummary.cost ms) /\
           CostModelSummary.input_tokens ms = Int (sum_with tokens_in (for_model m es)) /\
           CostModelSummary.output_tokens ms = Int (sum_with tokens_out (for_model m es))
       | None => for_model m es = []
       end) /\
    map_sum CostModelSummary.call_count (CostSummary.models s) = Z.of_nat (length es) /\
    map_sum (fun ms => int_of (CostModelSummary.input_tokens ms)) (CostSummary.models s)
      = sum_with tokens_in es /\
    map_sum (fun ms => int_of (CostModelSummary.output_tokens ms)) (CostSummary.models s)
      = sum_with tokens_out es.
Proof.
  intros Hr Hwf.
  destruct (cost_aggregate_total (date_or_today date today) es Hwf) as (s & Ha & Hs).
  exists s. split.
  { rewrite (get_daily_summary_text self today date fs es Hr). now rewrite Ha. }
  destruct Hs as (Hd & Hc & Hi & Ho & Hm).
  assert (Hmod : forall m,
            match CostSummary.models s !! m with
            | Some ms =>
                for_model m es <> [] /\
                CostModelSummary.call_count ms = Z.of_nat (length (for_model m es)) /\
                py_sum (total_cost_of <$> for_model m es) = Ok (CostModelSummary.cost ms) /\
                CostModelSummary.input_tokens ms = Int (sum_with tokens_in (for_model m es)) /\
                CostModelSummary.output_tokens ms = Int (sum_with tokens_out (for_model m es))
            | None => for_model m es = []
            end).
  { intros m. specialize (Hm m).
    destruct (CostSummary.models s !! m) as [ms |]; [| exact Hm].
    destruct Hm as (Hne & Hn & Hmc & Hmi & Hmo).
    pose proof (Forall_filter_keep (fun x => model_of x = m) cwf es Hwf) as Hmes.
    fold (for_model m es) in Hmes.
    split; [exact Hne |]. split; [exact Hn |]. split; [exact Hmc |]. split.
    - exact (wf_int_fields _ input_tokens_of _ (cwf_input_tokens _ Hmes) Hmi).
    - exact (wf_int_fields _ output_tokens_of _ (cwf_output_tokens _ Hmes) Hmo). }
  split; [exact Hd |]. split; [exact Hc |].
  split; [exact (wf_int_fields _ input_tokens_of _ (cwf_input_tokens _ Hwf) Hi) |].
  split; [exact (wf_int_fields _ output_tokens_of _ (cwf_output_tokens _ Hwf) Ho) |].
  split; [exact Hmod |].
  split; [| split].
  - rewrite <- sum_with_one. apply (map_sum_partition model_of).
    intros m. specialize (Hmod m).
    destruct (CostSummary.models s !! m) as [ms |]; [| exact Hmod].
    destruct Hmod as (_ & -> & _). now rewrite sum_with_one.
  - apply (map_sum_partition model_of).
    intros m. specialize (Hmod m).
    destruct (CostSummary.models s !! m) as [ms |]; [| exact Hmod].
    destruct Hmod as (_ & _ & _ & -> & _). reflexivity.
  - apply (map_sum_partition model_of).
    intros m. specialize (Hmod m).
    destruct (CostSummary.models s !! m) as [ms |]; [| exact Hmod].
    destruct Hmod as (_ & _ & _ & _ & ->). reflexivity.
Qed.

Lemma get_daily_summary_totals_witness :
  exists s,
    CostLogger.get_daily_summary (H := sample_json) cl0 "2024-05-01" None cost_fs5
      = CostTotals s /\
    CostSummary.total_input_tokens s = Int 100.
Proof.
  destruct (get_daily_summary_totals (H := sample_json) cl0 "2024-05-01" None cost_fs5
              [cost_entry5]) as (s & Hs & _ & _ & Hi & _).
  - vm_compute. reflexivity.
  - repeat constructor.
  - exists s. split; [exact Hs | exact Hi].
Defined.

Section CostIncomplete.

Context `{J : JsonLib}.

Lemma cost_update_incomplete (s : CostSummary.t) (e : Entry.t) :
  complete e = false -> exists err, CostLogger.update s e = Raise err.
Proof.
  unfold complete, CostLogger.update. intros Hc.
  destruct (Entry.total_cost e) as [c |]; cbn [CostLogger.field]; simpl rbind; [| eauto].
  destruct (num_add (CostSummary.total_cost s) c); simpl rbind; [| eauto].
  destruct (Entry.input_tokens e) as [i |]; cbn [CostLogger.field]; simpl rbind; [| eauto].
  destruct (num_add (CostSummary.total_input_tokens s) i); simpl rbind; [| eauto].
  destruct (Entry.output_tokens e) as [o |]; cbn [CostLogger.field]; simpl rbind; [| eauto].
  destruct (num_add (CostSummary.total_output_tokens s) o); simpl rbind; [| eauto].
  destruct (Entry.model e) as [m |]; [discriminate |]. cbn [CostLogger.field]. simpl rbind.
  eauto.
Qed.

Lemma cost_read_log_incomplete (lines : list string) (line : string) (e : Entry.t) :
  line ∈ lines -> is_blank line = false -> json_loads line = Ok e -> complete e = false ->
  forall s, exists err, CostLogger.read_log lines s = Raise err.
Proof.
  intros Hin Hb Hl Hc. induction lines as [| l lines IH]; intros s.
  - inversion Hin.
  - cbn [CostLogger.read_log].
    destruct (decide (l = line)) as [-> | Hne].
    + rewrite Hb, Hl. simpl rbind.
      destruct (cost_update_incomplete s e Hc) as [err ->]. simpl. eauto.
    + assert (Hin' : line ∈ lines).
      { apply elem_of_cons in Hin as [-> | Hin]; [congruence | exact Hin]. }
      destruct (is_blank l); [now apply IH |].
      destruct (json_loads l) as [e' | err]; simpl; [| eauto].
      destruct (CostLogger.update s e') as [s' | err]; simpl; [| eauto].
      now apply IH.
Qed.

End CostIncomplete.

(** X5. [get_daily_summary] indexes [total_cost], [input_tokens],
    [output_tokens] and [model] without a default: when some non-blank
    line of the partition parses to a record that lacks one of these
    keys, the result is the error dictionary {date, error}, with no
    totals, whatever the other lines hold. *)
Theorem get_daily_summary_incomplete_record `{JsonLib} (self : CostLogger.t)
    (today : string) (date : option string) (fs : filesystem)
    (content line : string) (e : Entry.t) :
  files fs !! CostLogger.log_file self (date_or_today date today) = Some content ->
  line ∈ readlines content ->
  is_blank line = false ->
  json_loads line = Ok e ->
  complete e = false ->
  exists err,
    CostLogger.get_daily_summary self today date fs
    = CostDegraded (date_or_today date today) err.
Proof.
  intros Hf Hin Hb Hl Hc. unfold CostLogger.get_daily_summary. rewrite Hf.
  destruct (cost_read_log_incomplete (readlines content) line e Hin Hb Hl Hc
              (CostLogger.empty_summary (date_or_today date today))) as [err ->].
  exists err. reflexivity.
Qed.

Lemma get_daily_summary_incomplete_record_witness :
  exists err,
    CostLogger.get_daily_summary (H := sample_json) cl0 "2024-05-01" None cost_fs1
    = CostDegraded "2024-05-01" err.
Proof.
  apply (get_daily_summary_incomplete_record (H := sample_json) cl0 "2024-05-01" None
           cost_fs1 (text5 +:+ NL +:+ text1 +:+ NL) (text1 +:+ NL) (record_of tm0 call1)).
  - vm_compute. reflexivity.
  - change (readlines (text5 +:+ NL +:+ text1 +:+ NL)) with [text5 +:+ NL; text1 +:+ NL].
    apply elem_of_cons. right. apply elem_of_cons. now left.
  - vm_compute. reflexivity.
  - vm_compute. reflexivity.
  - vm_compute. reflexivity.
Defined.

(** ** Billing a call and summarising the day *)

Section CostRoundTrip.

Context `{J : JsonLib}.

Lemma read_entries_app (l1 l2 : list string) (es1 es2 : list Entry.t) :
  read_entries l1 = Ok es1 -> read_entries l2 = Ok es2 ->
  read_entries (l1 ++ l2) = Ok (es1 ++ es2).
Proof.
  revert es1. induction l1 as [| l l1 IH]; intros es1; cbn [read_entries app].
  - now intros [= <-].
  - destruct (is_blank l); [apply IH |].
    destruct (json_loads l) as [e | err]; simpl; [| discriminate].
    destruct (read_entries l1) as [es |]; simpl; [| discriminate].
    intros [= <-] H2. now rewrite (IH es eq_refl H2).
Qed.

(** What [log_cost] writes when the two divisions succeed. *)
Lemma log_cost_appended (self : CostLogger.t) (timestamp today model : string)
    (l : loc) (h : heap) (fs : filesystem) (e : Entry.t) :
  cost_record self timestamp model (deref h l) = Ok e ->
  CostLogger.log_file self today ∉ denied fs ->
  files (snd (CostLogger.log_cost self timestamp today model l h fs))
  = <[CostLogger.log_file self today :=
        default "" (files fs !! CostLogger.log_file self today) +:+ (json_dumps e +:+ NL)]>
    (files fs).
Proof.
  unfold cost_record, CostLogger.log_cost, try_except. intros He Hw.
  destruct (CostLogger.div_1000 (default (Int 0) (deref h l !! "input_tokens"))) as [qi |];
    simpl in *; [| discriminate].
  destruct (CostLogger.div_1000 (default (Int 0) (deref h l !! "output_tokens"))) as [qo |];
    simpl in *; [| discriminate].
  injection He as <-.
  unfold CostLogger._write_to_log, try_except, append_text.
  destruct (decide (CostLogger.log_file self today ∈ denied fs)); [contradiction |].
  reflexivity.
Qed.

End CostRoundTrip.

(** X6. Billing and summarising compose: when the partition of the
    day holds complete lines that parse to well-formed cost records and
    can be appended to, one call of [log_cost] for a dictionary with
    integer token counts adds exactly one call to the day: the summary
    of that day is not the error dictionary, the totals of input and
    output tokens grow by the counts of the dictionary, and the
    [call_count] of the model is one more than the number of its earlier
    records. The JSON library is assumed to write the record on one line
    that it reads back as the same record. *)
Theorem log_cost_then_daily_summary `{JsonLib} (self : CostLogger.t)
    (timestamp today model : string) (l : loc) (h : heap) (fs : filesystem)
    (ls : list string) (es : list Entry.t) (e : Entry.t)
    (Hw : CostLogger.log_file self today ∉ denied fs)
    (Hold : default "" (files fs !! CostLogger.log_file self today) = unlines ls)
    (Hlines : Forall (fun x => no_newline x = true) ls)
    (Hread : read_entries ((fun x => x +:+ NL) <$> ls) = Ok es)
    (Hwf : Forall cwf es)
    (Hrec : cost_record self timestamp model (deref h l) = Ok e)
    (Hint : is_int (input_tokens_of e) = true /\ is_int (output_tokens_of e) = true)
    (Hjson : no_newline (json_dumps e) = true /\
             is_blank (json_dumps e +:+ NL) = false /\
             json_loads (json_dumps e +:+ NL) = Ok e) :
  exists s ms,
    CostLogger.get_daily_summary self today None
      (snd (CostLogger.log_cost self timestamp today model l h fs)) = CostTotals s /\
    CostSummary.total_input_tokens s = Int (sum_with tokens_in es + tokens_in e) /\
    CostSummary.total_output_tokens s = Int (sum_with tokens_out es + tokens_out e) /\
    CostSummary.models s !! model = Some ms /\
    CostModelSummary.call_count ms = Z.of_nat (length (for_model model es)) + 1.
Proof.
  destruct Hint as [Hi Ho]. destruct Hjson as (Hn & Hb & Hl).
  assert (Hfields : Entry.model e = Some model /\ complete e = true /\
                    is_cost (total_cost_of e) = true).
  { unfold cost_record in Hrec.
    destruct (CostLogger.div_1000 _) as [qi |]; simpl in Hrec; [| discriminate].
    destruct (CostLogger.div_1000 _) as [qo |]; simpl in Hrec; [| discriminate].
    injection Hrec as <-. repeat split. }
  destruct Hfields as (Hm & Hcomp & Hcost).
  assert (He : cwf e).
  { unfold cwf, cost_well_formed. now rewrite Hcomp, Hcost, Hi, Ho. }
  assert (Hall : Forall cwf (es ++ [e])).
  { apply Forall_app. split; [exact Hwf | now apply Forall_singleton]. }
  assert (Hr : read_entries
                 (readlines (default "" (files (snd (CostLogger.log_cost self timestamp today
                                                        model l h fs))
                                           !! CostLogger.log_file self today)))
               = Ok (es ++ [e])).
  { pose proof (log_cost_appended self timestamp today model l h fs e Hrec Hw) as Hfiles.
    rewrite Hold, <- unlines_snoc in Hfiles.
    rewrite Hfiles, lookup_insert_eq. cbn [default]. unfold id.
    rewrite readlines_unlines.
    - rewrite fmap_app. apply read_entries_app; [exact Hread |].
      cbn [fmap list_fmap read_entries]. now rewrite Hb, Hl.
    - apply Forall_app. split; [exact Hlines | now apply Forall_singleton]. }
  destruct (cost_aggregate_total today (es ++ [e]) Hall) as (s & Ha & Hs).
  destruct Hs as (_ & _ & Hsi & Hso & Hmodels).
  specialize (Hmodels model).
  assert (Hfm : for_model model (es ++ [e]) = for_model model es ++ [e]).
  { unfold for_model. apply filter_snoc_True. unfold model_of. now rewrite Hm. }
  rewrite Hfm in Hmodels.
  destruct (CostSummary.models s !! model) as [ms |] eqn:Hms;
    [| now destruct (snoc_not_nil _ _ Hmodels)].
  exists s, ms. split.
  { rewrite (get_daily_summary_text self today None _ (es ++ [e]) Hr).
    cbn [date_or_today]. now rewrite Ha. }
  split; [| split; [| split; [exact Hms |]]].
  - rewrite (wf_int_fields _ input_tokens_of _ (cwf_input_tokens _ Hall) Hsi). f_equal.
    rewrite sum_with_app. unfold tokens_in. cbn. lia.
  - rewrite (wf_int_fields _ output_tokens_of _ (cwf_output_tokens _ Hall) Hso). f_equal.
    rewrite sum_with_app. unfold tokens_out. cbn. lia.
  - destruct Hmodels as (_ & Hcount & _). rewrite Hcount, length_app. cbn. lia.
Qed.

Lemma log_cost_then_daily_summary_witness :
  exists s ms,
    CostLogger.get_daily_summary (H := sample_json) cl0 "2024-05-01" None
      (snd (CostLogger.log_cost (H := sample_json) cl0 "2024-05-01T09:20:00.000500"
              "2024-05-01" "GPT-4o" 1%positive heap5 (fs_of ""))) = CostTotals s /\
    CostSummary.models s !! "GPT-4o" = Some ms /\
    CostModelSummary.call_count ms = 1.
Proof.
  destruct (log_cost_then_daily_summary (H := sample_json) cl0 "2024-05-01T09:20:00.000500"
              "2024-05-01" "GPT-4o" 1%positive heap5 (fs_of "") [] [] cost_entry5)
    as (s & ms & Hs & _ & _ & Hm & Hn).
  - apply not_elem_of_empty.
  - vm_compute. reflexivity.
  - constructor.
  - reflexivity.
  - constructor.
  - vm_compute. reflexivity.
  - split; reflexivity.
  - split; [| split]; vm_compute; reflexivity.
  - exists s, ms. split; [exact Hs |]. split; [exact Hm | exact Hn].
Defined.

(** ** The two implementations of the cost formula *)

(** X7. [CostLogger.log_cost] and [TokenManager.calculate_cost]
    implement the same formula: for a dictionary with integer token
    counts and the same pricing table, the three cost keys [log_cost]
    writes into the dictionary are the costs [calculate_cost] returns.
    They differ when a count is too large to divide as a float:
    [calculate_cost] then returns zero costs with an error field, while
    [log_cost] writes no cost key and no log line. *)
Theorem log_cost_agrees_with_calculate_cost `{JsonLib} (cl : CostLogger.t)
    (tm : TokenManager.t) (timestamp today model : string) (l : loc) (h : heap)
    (fs : filesystem) (i o : Z) :
  CostLogger.model_pricing cl = TokenManager.model_pricing tm ->
  deref h l !! "input_tokens" = Some (Int i) ->
  deref h l !! "output_tokens" = Some (Int o) ->
  let ci := TokenManager.calculate_cost tm model i o in
  let r := CostLogger.log_cost cl timestamp today model l h fs in
  match CostInfo.error ci with
  | None =>
      deref (fst r) l !! "input_cost" = CostInfo.input_cost ci /\
      deref (fst r) l !! "output_cost" = CostInfo.output_cost ci /\
      deref (fst r) l !! "cost" = Some (CostInfo.cost ci)
  | Some _ =>
      r = (h, fs) /\ CostInfo.cost ci = Int 0
  end.
Proof.
  intros Hp Hi Ho. cbv zeta.
  unfold CostLogger.log_cost, TokenManager.calculate_cost, try_except.
  rewrite Hi, Ho, Hp. cbn [default]. unfold id. cbn [CostLogger.div_1000].
  destruct (int_truediv i 1000) as [qi | e]; simpl.
  2: { split; reflexivity. }
  destruct (int_truediv o 1000) as [qo | e]; simpl.
  2: { split; reflexivity. }
  rewrite deref_insert.
  rewrite lookup_insert_ne by discriminate. rewrite lookup_insert_ne by discriminate.
  rewrite lookup_insert_eq.
  rewrite (lookup_insert_ne _ "cost" "output_cost") by discriminate.
  rewrite !lookup_insert_eq. now repeat split.
Qed.

Lemma log_cost_agrees_with_calculate_cost_witness :
  deref (fst (CostLogger.log_cost (H := sample_json) cl0 "2024-05-01T09:20:00.000500"
                "2024-05-01" "GPT-4o" 1%positive heap5 (fs_of ""))) 1%positive !! "cost"
  = Some (CostInfo.cost (TokenManager.calculate_cost tm0 "GPT-4o" 100 100)).
Proof.
  pose proof (log_cost_agrees_with_calculate_cost (H := sample_json) cl0 tm0
                "2024-05-01T09:20:00.000500" "2024-05-01" "GPT-4o" 1%positive heap5
                (fs_of "") 100 100) as Hx.
  cbv zeta in Hx.
  replace (CostInfo.error (TokenManager.calculate_cost tm0 "GPT-4o" 100 100))
    with (@None exn) in Hx by (vm_compute; reflexivity).
  apply Hx; vm_compute; reflexivity.
Defined.

(** X8. [log_cost] computes the cost keys from the token counts
    alone: billing again the dictionary a first call has already
    annotated, for the same model, leaves the dictionary as the first
    call left it, whatever the two calls could write to the log. *)
Theorem log_cost_again_same_dictionary `{JsonLib} (self : CostLogger.t)
    (timestamp timestamp' today today' model : string) (l : loc) (h : heap)
    (fs fs' : filesystem) :
  let h1 := fst (CostLogger.log_cost self timestamp today model l h fs) in
  fst (CostLogger.log_cost self timestamp' today' model l h1 fs') = h1.
Proof.
  cbv zeta. unfold CostLogger.log_cost at 2. unfold try_except.
  destruct (CostLogger.div_1000 (default (Int 0) (deref h l !! "input_tokens")))
    as [qi | e] eqn:Ei; simpl.
  2: { unfold CostLogger.log_cost, try_except. now rewrite Ei. }
  destruct (CostLogger.div_1000 (default (Int 0) (deref h l !! "output_tokens")))
    as [qo | e] eqn:Eo; simpl.
  2: { unfold CostLogger.log_cost, try_except. rewrite Ei. simpl. now rewrite Eo. }
  unfold CostLogger.log_cost, try_except. rewrite deref_insert.
  rewrite !(lookup_insert_ne _ _ "input_tokens") by discriminate.
  rewrite !(lookup_insert_ne _ _ "output_tokens") by discriminate.
  rewrite Ei. simpl. rewrite Eo. simpl.
  rewrite insert_insert_eq. f_equal.
  apply map_eq. intros k.
  destruct (decide (k = "cost")) as [-> | Hc]; [now rewrite !lookup_insert_eq |].
  rewrite !(lookup_insert_ne _ "cost" k) by congruence.
  destruct (decide (k = "output_cost")) as [-> | Ho]; [now rewrite !lookup_insert_eq |].
  rewrite !(lookup_insert_ne _ "output_cost" k) by congruence.
  destruct (decide (k = "input_cost")) as [-> | Hi]; [now rewrite !lookup_insert_eq |].
  now rewrite !lookup_insert_ne by congruence.
Qed.

(** ** The client of the language models *)

Section Client.

Variable self : LiteLLMClient.t.
Variable post : request -> outcome http_response.

Lemma model_mapping_gpt4o :
  LiteLLMClient.model_mapping !! "GPT-4o"
  = Some {| provider := "openai"; provider_model := "gpt-4o" |}.
Proof. reflexivity. Qed.

Lemma build_request_returns (model prompt : string) (max_tokens : Z)
    (system_message : option string) :
  exists req,
    LiteLLMClient.build_request self model prompt max_tokens system_message = Returned req /\
    req_model req
    = provider_model (default {| provider := "openai"; provider_model := "gpt-4o" |}
                        (LiteLLMClient.model_mapping !! model)) /\
    req_max_tokens req = max_tokens /\
    last (messages req) = Some {| role := "user"; msg_content := prompt |}.
Proof.
  unfold LiteLLMClient.build_request.
  destruct (LiteLLMClient.model_mapping !! model) as [info |]; simpl.
  - eexists. split; [reflexivity |]. split; [reflexivity |]. split; [reflexivity |].
    cbn [messages]. now rewrite last_snoc.
  - rewrite model_mapping_gpt4o. simpl.
    eexists. split; [reflexivity |]. split; [reflexivity |]. split; [reflexivity |].
    cbn [messages]. now rewrite last_snoc.
Qed.

Lemma exchange_raised_iff (model prompt : string) (max_tokens : Z)
    (system_message : option string) (msg : string) :
  LiteLLMClient.exchange self post model prompt max_tokens system_message = Raised msg <->
  exists req,
    LiteLLMClient.build_request self model prompt max_tokens system_message = Returned req /\
    fails_with post req msg.
Proof.
  destruct (build_request_returns model prompt max_tokens system_message)
    as (req & Hreq & _).
  unfold LiteLLMClient.exchange, fails_with. rewrite Hreq. cbn [obind].
  split.
  - intros Hx. exists req. split; [reflexivity |].
    destruct (post req) as [resp | m]; cbn [obind] in Hx; [| left; congruence].
    right. exists resp. split; [reflexivity |].
    destruct (Z.eqb_spec (status resp) 200) as [E | E]; cbn [negb] in Hx.
    + right. split; [exact E |].
      destruct (json_body resp) as [body | m]; cbn [obind] in Hx; [| left; congruence].
      right. exists body. split; [reflexivity |].
      unfold LiteLLMClient.content_of in Hx.
      destruct (ApiBody.choices body) as [[| c cs] |]; cbn [obind] in Hx.
      * split; [reflexivity | congruence].
      * destruct (ApiBody.message_of c); discriminate.
      * discriminate.
    + left. split; [exact E |].
      destruct (text resp) as [t | m]; cbn [obind] in Hx; [| left; congruence].
      right. exists t. split; [reflexivity | congruence].
  - intros (req' & [= <-] & Hf).
    destruct Hf as [Hp | (resp & Hp & Hf)]; rewrite Hp; cbn [obind]; [reflexivity |].
    destruct Hf as [(Hs & Hf) | (Hs & Hf)].
    + destruct (Z.eqb_spec (status resp) 200) as [E | _]; [contradiction |]. cbn [negb].
      destruct Hf as [-> | (t & -> & ->)]; reflexivity.
    + rewrite Hs. cbn [Z.eqb Pos.eqb negb].
      destruct Hf as [-> | (body & -> & Hc & ->)]; cbn [obind]; [reflexivity |].
      unfold LiteLLMClient.content_of. now rewrite Hc.
Qed.

Lemma generate_response_raised (model prompt : string) (max_tokens : Z)
    (system_message : option string) (h : heap) (msg : string) :
  LiteLLMClient.exchange self post model prompt max_tokens system_message = Raised msg ->
  LiteLLMClient.generate_response self post model prompt max_tokens system_message h
  = ({| Routes.content := Some (LiteLLMClient.apology +:+ msg);
        Routes.token_usage := Some (fresh (dom h)) |},
     <[fresh (dom h) := failed_usage (LiteLLMClient._count_tokens self prompt)]> h).
Proof. intros Hx. unfold LiteLLMClient.generate_response. now rewrite Hx. Qed.

Lemma fresh_heap (h : heap) : h !! fresh (dom h) = None.
Proof. apply not_elem_of_dom. apply is_fresh. Qed.

End Client.

(** X9. [generate_response] always answers, and always in the same
    shape: a content string and a [token_usage] dictionary that is a new
    object, which holds exactly the keys [input_tokens], [output_tokens]
    and [total_tokens], so none of the cost keys; no dictionary that
    existed before the call is changed. This holds whether the provider
    answered or the call failed. *)
Theorem generate_response_shape (self : LiteLLMClient.t)
    (post : request -> outcome http_response) (model prompt : string) (max_tokens : Z)
    (system_message : option string) (h : heap) :
  exists content l d,
    LiteLLMClient.generate_response self post model prompt max_tokens system_message h
    = ({| Routes.content := Some content; Routes.token_usage := Some l |}, <[l := d]> h) /\
    h !! l = None /\
    dom d = {["input_tokens"; "output_tokens"; "total_tokens"]} /\
    forall l', is_Some (h !! l') -> (<[l := d]> h) !! l' = h !! l'.
Proof.
  unfold LiteLLMClient.generate_response.
  destruct (LiteLLMClient.exchange self post model prompt max_tokens system_message)
    as [[content d] | msg] eqn:Hx.
  - exists content, (fresh (dom h)), d.
    split; [reflexivity |]. split; [apply fresh_heap |]. split.
    + unfold LiteLLMClient.exchange in Hx.
      destruct (LiteLLMClient.build_request _ _ _ _ _); cbn [obind] in Hx; [| discriminate].
      destruct (post _); cbn [obind] in Hx; [| discriminate].
      destruct (if negb _ then _ else _); cbn [obind] in Hx; [| discriminate].
      destruct (LiteLLMClient.content_of _); cbn [obind] in Hx; [| discriminate].
      injection Hx as _ <-. rewrite !dom_insert_L, dom_empty_L. set_solver.
    + intros l' Hl'. rewrite lookup_insert_ne; [reflexivity |].
      intros <-. rewrite fresh_heap in Hl'. now destruct Hl'.
  - exists (LiteLLMClient.apology +:+ msg), (fresh (dom h)),
      (failed_usage (LiteLLMClient._count_tokens self prompt)).
    split; [reflexivity |]. split; [apply fresh_heap |]. split.
    + unfold failed_usage. rewrite !dom_insert_L, dom_empty_L. set_solver.
    + intros l' Hl'. rewrite lookup_insert_ne; [reflexivity |].
      intros <-. rewrite fresh_heap in Hl'. now destruct Hl'.
Qed.

(** X10. A call that fails is answered with an apology and counted
    as input only: for a prompt of ASCII characters, when the post
    raises, the status is not 200, the body cannot be read or the list
    of choices is empty, the content is the apology followed by the text
    of the exception, [output_tokens] is 0 and [input_tokens] and
    [total_tokens] are both the token count of the prompt. *)
Theorem generate_response_failure (self : LiteLLMClient.t)
    (post : request -> outcome http_response) (model prompt : string) (max_tokens : Z)
    (system_message : option string) (h : heap) (req : request) (msg : string) :
  ascii_text prompt = true ->
  LiteLLMClient.build_request self model prompt max_tokens system_message = Returned req ->
  fails_with post req msg ->
  let r := LiteLLMClient.generate_response self post model prompt max_tokens
             system_message h in
  let n := LiteLLMClient._count_tokens self prompt in
  Routes.content (fst r) = Some (LiteLLMClient.apology +:+ msg) /\
  exists l,
    Routes.token_usage (fst r) = Some l /\
    deref (snd r) l !! "input_tokens" = Some (Int n) /\
    deref (snd r) l !! "output_tokens" = Some (Int 0) /\
    deref (snd r) l !! "total_tokens" = Some (Int n) /\
    0 <= n.
Proof.
  intros _ Hreq Hf r n.
  assert (Hx : LiteLLMClient.exchange self post model prompt max_tokens system_message
               = Raised msg).
  { apply exchange_raised_iff. exists req. now split. }
  subst r. rewrite (generate_response_raised self post _ _ _ _ h msg Hx). cbn [fst snd].
  split; [reflexivity |]. exists (fresh (dom h)). split; [reflexivity |].
  rewrite deref_insert. repeat split.
  subst n. unfold LiteLLMClient._count_tokens, LiteLLMClient.word_count.
  destruct (LiteLLMClient.tokenizer self) as [encode |]; [| lia].
  destruct (encode prompt); lia.
Qed.

Lemma generate_response_failure_witness :
  Routes.content
    (fst (LiteLLMClient.generate_response llm0 post_down "GPT-4o" "Summarise this text" 1000
            None heap0))
  = Some (LiteLLMClient.apology +:+ "Cannot connect to host localhost:4000").
Proof.
  eapply (generate_response_failure llm0 post_down "GPT-4o" "Summarise this text" 1000 None
            heap0 _ "Cannot connect to host localhost:4000").
  - reflexivity.
  - vm_compute. reflexivity.
  - left. reflexivity.
Defined.

Section ClientCounts.

Lemma count_tokens_nonneg (self : LiteLLMClient.t) (text : string) :
  0 <= LiteLLMClient._count_tokens self text.
Proof.
  unfold LiteLLMClient._count_tokens, LiteLLMClient.word_count.
  destruct (LiteLLMClient.tokenizer self) as [encode |]; [| lia].
  destruct (encode text); lia.
Qed.

Lemma model_tables_agree :
  dom LiteLLMClient.model_mapping = dom default_model_pricing.
Proof.
  unfold LiteLLMClient.model_mapping, default_model_pricing.
  now rewrite !dom_insert_L, !dom_empty_L.
Qed.

Lemma default_rates_positive (m : string) :
  positive_pricing (rate_for default_model_pricing m) = true.
Proof.
  assert (Hall : map_Forall (fun _ p => positive_pricing p = true) default_model_pricing).
  { apply map_Forall_to_list. vm_compute. repeat constructor. }
  unfold rate_for. destruct (default_model_pricing !! m) as [p |] eqn:E; cbn.
  - exact (Hall m p E).
  - reflexivity.
Qed.

End ClientCounts.

(** X11. The client and the cost logger know the same models, and a
    model neither knows is served and billed as GPT-4o: the request is
    posted for the provider model [gpt-4o], and the cost logger prices
    it with the rates of its GPT-4o entry. *)
Theorem unknown_model_is_gpt4o (self : LiteLLMClient.t) (dir : string)
    (model prompt : string) (max_tokens : Z) (system_message : option string) :
  LiteLLMClient.model_mapping !! model = None ->
  dom LiteLLMClient.model_mapping = dom (CostLogger.model_pricing (CostLogger.init dir)) /\
  (exists req,
     LiteLLMClient.build_request self model prompt max_tokens system_message = Returned req /\
     req_model req = "gpt-4o") /\
  CostLogger.model_pricing (CostLogger.init dir) !! model = None /\
  Some (rate_for (CostLogger.model_pricing (CostLogger.init dir)) model)
  = CostLogger.model_pricing (CostLogger.init dir) !! "GPT-4o".
Proof.
  intros Hm. cbn [CostLogger.init CostLogger.model_pricing].
  assert (Hp : default_model_pricing !! model = None).
  { apply not_elem_of_dom. rewrite <- model_tables_agree. now apply not_elem_of_dom. }
  split; [apply model_tables_agree |]. split; [| split; [exact Hp |]].
  - destruct (build_request_returns self model prompt max_tokens system_message)
      as (req & Hreq & Hmodel & _).
    exists req. split; [exact Hreq |]. rewrite Hmodel, Hm. reflexivity.
  - unfold rate_for. rewrite Hp. reflexivity.
Qed.

Lemma unknown_model_is_gpt4o_witness :
  exists req,
    LiteLLMClient.build_request llm0 "Llama" "Summarise this text" 1000 None = Returned req /\
    req_model req = "gpt-4o".
Proof.
  apply (unknown_model_is_gpt4o llm0 "./cost_logs" "Llama" "Summarise this text" 1000 None).
  vm_compute. reflexivity.
Defined.

(** X12. Token counts the client makes itself are consistent: for a
    prompt of ASCII characters, when the provider reports no usage, and
    also when the call fails, the dictionary holds non-negative integers
    with [total_tokens = input_tokens + output_tokens], the input count
    being the token count of the prompt. *)
Theorem local_token_counts (self : LiteLLMClient.t)
    (post : request -> outcome http_response) (model prompt : string) (max_tokens : Z)
    (system_message : option string) (h : heap) :
  ascii_text prompt = true ->
  (forall req resp body,
     post req = Returned resp -> json_body resp = Returned body ->
     ApiBody.usage body = None) ->
  let r := LiteLLMClient.generate_response self post model prompt max_tokens
             system_message h in
  exists l o,
    Routes.token_usage (fst r) = Some l /\
    deref (snd r) l !! "input_tokens" = Some (Int (LiteLLMClient._count_tokens self prompt)) /\
    deref (snd r) l !! "output_tokens" = Some (Int o) /\
    deref (snd r) l !! "total_tokens"
    = Some (Int (LiteLLMClient._count_tokens self prompt + o)) /\
    0 <= LiteLLMClient._count_tokens self prompt /\ 0 <= o.
Proof.
  intros _ Hu r. subst r. unfold LiteLLMClient.generate_response.
  destruct (LiteLLMClient.exchange self post model prompt max_tokens system_message)
    as [[content d] | msg] eqn:Hx.
  - unfold LiteLLMClient.exchange in Hx.
    destruct (LiteLLMClient.build_request _ _ _ _ _) as [req |]; cbn [obind] in Hx;
      [| discriminate].
    destruct (post req) as [resp |] eqn:Hp; cbn [obind] in Hx; [| discriminate].
    destruct (negb (status resp =? 200)).
    { destruct (text resp); discriminate. }
    destruct (json_body resp) as [body |] eqn:Hb; cbn [obind] in Hx; [| discriminate].
    destruct (LiteLLMClient.content_of body) as [c |]; cbn [obind] in Hx; [| discriminate].
    rewrite (Hu req resp body Hp Hb) in Hx. cbn [default] in Hx.
    rewrite !lookup_empty in Hx. cbn [default] in Hx. injection Hx as _ <-.
    exists (fresh (dom h)), (LiteLLMClient._count_tokens self c). cbn [fst snd Routes.token_usage].
    rewrite deref_insert. split; [reflexivity |].
    split; [reflexivity |]. split; [reflexivity |]. split; [reflexivity |].
    split; apply count_tokens_nonneg.
  - exists (fresh (dom h)), 0. cbn [fst snd Routes.token_usage].
    rewrite deref_insert, Z.add_0_r. split; [reflexivity |].
    split; [reflexivity |]. split; [reflexivity |]. split; [reflexivity |].
    split; [apply count_tokens_nonneg | lia].
Qed.

Lemma local_token_counts_witness :
  exists l o,
    Routes.token_usage
      (fst (LiteLLMClient.generate_response llm0 post_ok "GPT-4o" "Summarise this text"
              1000 None heap0)) = Some l /\
    deref (snd (LiteLLMClient.generate_response llm0 post_ok "GPT-4o" "Summarise this text"
                  1000 None heap0)) l !! "output_tokens" = Some (Int o).
Proof.
  destruct (local_token_counts llm0 post_ok "GPT-4o" "Summarise this text" 1000 None heap0)
    as (l & o & Hl & _ & Ho & _).
  - reflexivity.
  - intros req resp body [= <-] [= <-]. reflexivity.
  - exists l, o. split; [exact Hl | exact Ho].
Defined.

(** ** From the request to the reply *)

Section Billing.

Lemma fmul_pzero_l (r : float) : positive_rate r = true -> fmul pzero r = pzero.
Proof. destruct r as [| | | [] m e]; try discriminate. reflexivity. Qed.

Lemma fmul_plus_signed (q r : float) :
  (q = pzero \/ exists m e, q = S754_finite false m e) ->
  positive_rate r = true ->
  plus_signed (fmul q r) = true.
Proof.
  intros Hq Hr. destruct r as [| | | [] mr er]; try discriminate.
  destruct Hq as [-> | (m & e & ->)]; [reflexivity |].
  unfold fmul, SFmul. simpl xorb.
  destruct (binary_round_aux_shape false (Z.pos (m * mr)) (e + er) loc_Exact ltac:(lia))
    as [E | [E | (m' & e' & E)]]; rewrite E; reflexivity.
Qed.

Lemma fadd_pzero_r (x : float) : plus_signed x = true -> fadd x pzero = x.
Proof. destruct x as [[] | [] | | [] m e]; try discriminate; reflexivity. Qed.

Lemma validation_passes (a b : option string) :
  truthy_str a || truthy_str b = true -> negb (truthy_str a) && negb (truthy_str b) = false.
Proof. destruct (truthy_str a), (truthy_str b); try discriminate; reflexivity. Qed.

(** [log_cost] on the dictionary of a failed call. *)
Lemma log_cost_failed_usage `{JsonLib} (dir timestamp today model : string) (l : loc)
    (h : heap) (fs : filesystem) (n : Z) (qi : float) :
  0 <= n -> int_truediv n 1000 = Ok qi ->
  let ic := fmul qi (input (rate_for default_model_pricing model)) in
  fst (CostLogger.log_cost (CostLogger.init dir) timestamp today model l
         (<[l := failed_usage n]> h) fs)
  = <[l := <["cost" := Flt ic]>
           (<["output_cost" := Flt pzero]>
           (<["input_cost" := Flt ic]> (failed_usage n)))]> h.
Proof.
  intros Hn Hq ic. unfold CostLogger.log_cost, try_except.
  rewrite deref_insert. cbn [CostLogger.init CostLogger.model_pricing].
  change (failed_usage n !! "input_tokens") with (Some (Int n)).
  change (failed_usage n !! "output_tokens") with (Some (Int 0)).
  cbn [default]. unfold id. cbn [CostLogger.div_1000]. rewrite Hq. cbn [rbind].
  change (int_truediv 0 1000) with (Ok pzero). cbn [rbind fst].
  pose proof (default_rates_positive model) as Hp.
  apply andb_prop in Hp as [Hin Hout].
  rewrite (fmul_pzero_l _ Hout).
  rewrite (fadd_pzero_r _ (fmul_plus_signed qi _ (int_truediv_nonneg n 1000 qi Hn Hq) Hin)).
  now rewrite insert_insert_eq.
Qed.

End Billing.

(** X13. A call that fails is still billed: for a request with
    ASCII texts that passes validation, when the exchange with the
    provider fails, both
    handlers reply normally, with the apology as text and a
    [token_usage] in which [output_tokens] and [output_cost] are zero
    and [input_cost] and [cost] are both the token count of the prompt
    divided by 1000 times the input rate of the model. The count is
    assumed to be below 2**64. *)
Theorem failed_call_is_billed `{JsonLib} (sv : Endpoints.services)
    (dir timestamp today : string) (p : Endpoints.payload) (h : heap) (fs : filesystem)
    (msg : string) :
  let llm := Endpoints.llm_client sv in
  let rate := input (rate_for default_model_pricing (default "GPT-4o" (Endpoints.model p))) in
  Endpoints.cost_logger sv = CostLogger.init dir ->
  ascii_payload p = true ->
  truthy_str (Endpoints.pdf_content p) || truthy_str (Endpoints.pdf_name p) = true ->
  (forall req, fails_with (Endpoints.post sv) req msg) ->
  (let n := LiteLLMClient._count_tokens llm (summary_prompt_of p) in
   n < 2 ^ 64 ->
   exists qi,
     int_truediv n 1000 = Ok qi /\
     Endpoints.result (Endpoints.summarize sv timestamp today p h fs)
     = Endpoints.Reply (failed_reply msg n (fmul qi rate))) /\
  (let n := LiteLLMClient._count_tokens llm (qa_prompt_of p) in
   n < 2 ^ 64 ->
   truthy_str (Endpoints.question p) = true ->
   exists qi,
     int_truediv n 1000 = Ok qi /\
     Endpoints.result (Endpoints.ask_question sv timestamp today p h fs)
     = Endpoints.Reply (failed_reply msg n (fmul qi rate))).
Proof.
  intros llm rate Hcl _ Hvalid Hfail.
  assert (Hx : forall model prompt,
            LiteLLMClient.exchange llm (Endpoints.post sv) model prompt 1000 None
            = Raised msg).
  { intros model prompt. apply exchange_raised_iff.
    destruct (build_request_returns llm model prompt 1000 None) as (req & Hreq & _).
    exists req. split; [exact Hreq | apply Hfail]. }
  split.
  - intros n Hn. subst n.
    pose proof (count_tokens_nonneg llm (summary_prompt_of p)) as Hn0.
    destruct (int_truediv_1000_ok _ (conj Hn0 Hn)) as (qi & Hq & _).
    exists qi. split; [exact Hq |].
    unfold Endpoints.summarize. rewrite (validation_passes _ _ Hvalid).
    fold (summary_prompt_of p). fold llm.
    rewrite (generate_response_raised llm (Endpoints.post sv) _ _ _ _ h msg (Hx _ _)).
    unfold Routes.summarize, Routes.get_token_usage. cbn [Routes.token_usage Routes.content].
    pose proof (log_cost_failed_usage dir timestamp today (default "GPT-4o" (Endpoints.model p))
                  (fresh (dom h)) h fs _ qi Hn0 Hq) as Hlog. cbv zeta in Hlog.
    rewrite <- Hcl in Hlog.
    destruct (CostLogger.log_cost (Endpoints.cost_logger sv) timestamp today _ _ _ fs)
      as [h2 fs2].
    cbn [fst] in Hlog. subst h2. cbn [Endpoints.result default]. unfold id.
    rewrite deref_insert. reflexivity.
  - intros n Hn Hquestion. subst n.
    pose proof (count_tokens_nonneg llm (qa_prompt_of p)) as Hn0.
    destruct (int_truediv_1000_ok _ (conj Hn0 Hn)) as (qi & Hq & _).
    exists qi. split; [exact Hq |].
    unfold Endpoints.ask_question. rewrite Hquestion. cbn [negb].
    rewrite (validation_passes _ _ Hvalid).
    fold (qa_prompt_of p). fold llm.
    rewrite (generate_response_raised llm (Endpoints.post sv) _ _ _ _ h msg (Hx _ _)).
    unfold Routes.ask_question, Routes.get_token_usage. cbn [Routes.token_usage Routes.content].
    pose proof (log_cost_failed_usage dir timestamp today (default "GPT-4o" (Endpoints.model p))
                  (fresh (dom h)) h fs _ qi Hn0 Hq) as Hlog. cbv zeta in Hlog.
    rewrite <- Hcl in Hlog.
    destruct (CostLogger.log_cost (Endpoints.cost_logger sv) timestamp today _ _ _ fs)
      as [h2 fs2].
    cbn [fst] in Hlog. subst h2. cbn [Endpoints.result default]. unfold id.
    rewrite deref_insert. reflexivity.
Qed.

Lemma failed_call_is_billed_witness :
  exists qi,
    int_truediv (LiteLLMClient._count_tokens llm0 (summary_prompt_of payload_text)) 1000
    = Ok qi /\
    Endpoints.result
      (Endpoints.summarize (H := sample_json) services_down "2024-05-01T09:20:00.000500"
         "2024-05-01" payload_text heap0 (fs_of ""))
    = Endpoints.Reply
        (failed_reply "Cannot connect to host localhost:4000"
           (LiteLLMClient._count_tokens llm0 (summary_prompt_of payload_text))
           (fmul qi (input (rate_for default_model_pricing
                              (default "GPT-4o" (Endpoints.model payload_text)))))).
Proof.
  pose proof (failed_call_is_billed (H := sample_json) services_down "./cost_logs"
                "2024-05-01T09:20:00.000500" "2024-05-01" payload_text heap0 (fs_of "")
                "Cannot connect to host localhost:4000") as Hx.
  cbv zeta in Hx.
  assert (Hcl : Endpoints.cost_logger services_down = CostLogger.init "./cost_logs")
    by reflexivity.
  assert (Hascii : ascii_payload payload_text = true) by reflexivity.
  assert (Hvalid : truthy_str (Endpoints.pdf_content payload_text)
                   || truthy_str (Endpoints.pdf_name payload_text) = true)
    by reflexivity.
  assert (Hfail : forall req, fails_with (Endpoints.post services_down) req
                                "Cannot connect to host localhost:4000")
    by (intros req; left; reflexivity).
  assert (Hn : LiteLLMClient._count_tokens llm0 (summary_prompt_of payload_text) < 2 ^ 64)
    by (vm_compute; reflexivity).
  exact (proj1 (Hx Hcl Hascii Hvalid Hfail) Hn).
Defined.

(** ** The prompts *)

Section Prompts.

Lemma is_blank_app (s t : string) : is_blank (s +:+ t) = is_blank s && is_blank t.
Proof.
  induction s as [| c s IH]; [reflexivity |].
  rewrite append_cons. cbn [is_blank]. rewrite IH. now rewrite andb_assoc.
Qed.

Lemma is_blank_app_l (s t : string) : is_blank s = false -> is_blank (s +:+ t) = false.
Proof. intros Hs. now rewrite is_blank_app, Hs. Qed.

Lemma is_blank_app_r (s t : string) : is_blank t = false -> is_blank (s +:+ t) = false.
Proof. intros Ht. rewrite is_blank_app, Ht. apply andb_false_r. Qed.

Lemma lstrip_app_blank (s t : string) : is_blank s = true -> lstrip (s +:+ t) = lstrip t.
Proof.
  induction s as [| c s IH]; [reflexivity |].
  cbn [is_blank]. intros Hs. apply andb_prop in Hs as [Hc Hs].
  rewrite append_cons. cbn [lstrip]. rewrite Hc. now apply IH.
Qed.

Lemma lstrip_cons (c : Ascii.ascii) (s : string) :
  is_space c = false -> lstrip (String c s) = String c s.
Proof. intros Hc. cbn [lstrip]. now rewrite Hc. Qed.

Lemma rstrip_app (s t : string) : is_blank t = false -> rstrip (s +:+ t) = s +:+ rstrip t.
Proof.
  intros Ht. induction s as [| c s IH]; [reflexivity |].
  rewrite !append_cons. cbn [rstrip].
  rewrite (is_blank_app_r s t Ht), andb_false_r. now rewrite IH.
Qed.

Lemma rstrip_blank (s : string) : is_blank s = true -> rstrip s = "".
Proof.
  destruct s as [| c s]; [reflexivity |]. cbn [is_blank rstrip]. intros Hs.
  apply andb_prop in Hs as [Hc Hs]. now rewrite Hc, Hs.
Qed.

Lemma rstrip_app_blank (s t : string) : is_blank t = true -> rstrip (s +:+ t) = rstrip s.
Proof.
  intros Ht. induction s as [| c s IH].
  - change ("" +:+ t) with t. now apply rstrip_blank.
  - rewrite append_cons. cbn [rstrip]. rewrite IH, is_blank_app, Ht. now rewrite andb_true_r.
Qed.

Lemma rstrip_not_blank (s : string) : is_blank s = false -> is_blank (rstrip s) = false.
Proof.
  induction s as [| c s IH]; [discriminate |].
  cbn [is_blank rstrip]. intros Hs.
  destruct (is_space c) eqn:Hc; cbn [andb] in *.
  - rewrite Hs. cbn [is_blank]. rewrite Hc. cbn [andb]. now apply IH.
  - cbn [is_blank]. now rewrite Hc.
Qed.

End Prompts.

Ltac not_blank H :=
  repeat first [apply is_blank_app_l; exact H | apply is_blank_app_r].

Lemma summary_prompt_eq (content document_name : option string) :
  is_blank (format_str content) = false ->
  create_summary_prompt content document_name
  = summary_instruction (doc_context document_name) +:+ rstrip (format_str content).
Proof.
  intros Hc. unfold create_summary_prompt, strip, summary_instruction.
  change (NL +:+ "    Please provide a comprehensive summary of " +:+ ?x)
    with ((NL +:+ "    ") +:+ ("Please provide a comprehensive summary of " +:+ x)).
  rewrite lstrip_app_blank by reflexivity.
  change ("Please provide a comprehensive summary of " +:+ ?x)
    with (String (Ascii.ascii_of_nat 80) ("lease provide a comprehensive summary of " +:+ x)) at 1.
  rewrite lstrip_cons by reflexivity.
  change (String (Ascii.ascii_of_nat 80) ("lease provide a comprehensive summary of " +:+ ?x))
    with ("Please provide a comprehensive summary of " +:+ x).
  rewrite !append_assoc.
  repeat (rewrite rstrip_app by not_blank Hc; f_equal).
  now rewrite rstrip_app_blank by reflexivity.
Qed.

(** X14. The prompt of [summarize] is the fixed instruction, without
    the white space around the template, followed by the text to
    summarise without its trailing white space, when that text is made
    of ASCII characters and is not blank; the text is the selection if
    there is one and the content of the document otherwise, and a text
    that is absent is written as the word None. So a request
    that names a document but carries no text is not rejected: it is
    answered, and billed, for a prompt that asks to summarise the word
    None. *)
Theorem summary_prompt_text `{JsonLib} (sv : Endpoints.services)
    (timestamp today : string) (p : Endpoints.payload) (h : heap) (fs : filesystem) :
  let content :=
    if truthy_str (Endpoints.selected_text p) then Endpoints.selected_text p
    else Endpoints.pdf_content p in
  let instruction := summary_instruction (doc_context (Endpoints.pdf_name p)) in
  (ascii_text (format_str content) = true ->
   is_blank (format_str content) = false ->
   summary_prompt_of p = instruction +:+ rstrip (format_str content)) /\
  (truthy_str (Endpoints.pdf_name p) = true ->
   Endpoints.pdf_content p = None ->
   truthy_str (Endpoints.selected_text p) = false ->
   summary_prompt_of p = instruction +:+ "None" /\
   exists r,
     Endpoints.result (Endpoints.summarize sv timestamp today p h fs) = Endpoints.Reply r).
Proof.
  intros content instruction. split.
  - intros _ Hc. now apply summary_prompt_eq.
  - intros Hname Hcontent Hsel. split.
    + unfold summary_prompt_of. rewrite Hsel, Hcontent.
      now rewrite summary_prompt_eq by reflexivity.
    + unfold Endpoints.summarize. rewrite Hname, andb_false_r.
      destruct (LiteLLMClient.generate_response _ _ _ _ _ _ _) as [response h1].
      destruct (Routes.summarize _ _ _ _ _ _ _) as [[r h2] fs2].
      exists r. reflexivity.
Qed.

Lemma summary_prompt_text_witness :
  summary_prompt_of payload_name_only
  = summary_instruction (doc_context (Some "a.pdf")) +:+ "None".
Proof.
  pose proof (summary_prompt_text (H := sample_json) services_down
                "2024-05-01T09:20:00.000500" "2024-05-01" payload_name_only heap0 (fs_of ""))
    as Hx.
  cbv zeta in Hx. destruct Hx as [_ Hx].
  apply Hx; reflexivity.
Defined.

(** ** The totals of the session *)

Section Session.

Lemma totals_of_initial : totals_of [] Frontend.initial_totals.
Proof. repeat split. Qed.

Lemma billed_fields (u : gmap string num) :
  billed u ->
  TokenManager.getitem u "input_tokens" = Ok (usage_field "input_tokens" u) /\
  TokenManager.getitem u "output_tokens" = Ok (usage_field "output_tokens" u) /\
  TokenManager.getitem u "cost" = Ok (usage_field "cost" u) /\
  is_int (usage_field "input_tokens" u) = true /\
  is_int (usage_field "output_tokens" u) = true /\
  is_cost (usage_field "cost" u) = true.
Proof.
  intros (i & o & c & Hi & Ho & Hc).
  unfold TokenManager.getitem, usage_field. rewrite Hi, Ho, Hc. repeat split.
Qed.

Lemma add_usage_totals (us : list (gmap string num)) (t : Frontend.totals)
    (u : gmap string num) :
  Forall billed us -> totals_of us t -> billed u ->
  totals_of (us ++ [u]) (Frontend.add_usage t u).
Proof.
  intros Hus (Hi & Ho & Hc) Hu.
  destruct (billed_fields u Hu) as (Gi & Go & Gc & Ii & Io & Ic).
  assert (Hcosts : Forall (fun x => is_cost x = true) (usage_field "cost" <$> us)).
  { apply Forall_fmap. eapply Forall_impl; [exact Hus |].
    intros v Hv. apply (billed_fields v Hv). }
  destruct (num_add_cost (Frontend.total_cost t) (usage_field "cost" u)
              (py_sum_cost _ _ Hcosts Hc) Ic) as (tc & Htc & _).
  unfold Frontend.add_usage. rewrite Gi. cbn [rbind].
  rewrite Hi, (num_add_int (Int _) _ eq_refl Ii). rewrite Go.
  cbn [rbind Frontend.total_output_tokens].
  rewrite Ho, (num_add_int (Int _) _ eq_refl Io). rewrite Gc. cbn [rbind Frontend.total_cost].
  rewrite Htc. unfold totals_of. cbn [Frontend.total_input_tokens
    Frontend.total_output_tokens Frontend.total_cost int_of].
  rewrite !sum_with_app, fmap_app. cbn [sum_with foldr fmap list_fmap].
  split; [f_equal; lia |]. split; [f_equal; lia |].
  eapply py_sum_snoc; eassumption.
Qed.

End Session.

(** X15. The totals of the page are exact: a session starts with
    totals that are the sums over no reply, and when it holds the sums
    over the replies received so far, a question or a summary that is
    answered with integer token counts and a float cost leaves it with
    the sums over the replies including the new one: the token totals
    are the integer sums of the counts, the cost is the sum of the costs
    in the order of arrival, and no key is skipped. *)
Theorem session_totals_exact (post_json : string -> Endpoints.payload -> outcome Frontend.api_result)
    (query : string) (st : Frontend.session) (us : list (gmap string num))
    (result : Frontend.api_result) (u : gmap string num) :
  truthy_str (Frontend.pdf_content st) || truthy_str (Frontend.pdf_name st) = true ->
  Forall billed us ->
  totals_of us (Frontend.token_usage st) ->
  (forall path p, post_json path p = Returned result) ->
  Frontend.result_usage result = Some u ->
  billed u ->
  totals_of [] Frontend.initial_totals /\
  totals_of (us ++ [u]) (Frontend.token_usage (Frontend.process_query post_json query st)) /\
  totals_of (us ++ [u]) (Frontend.token_usage (Frontend.generate_summary post_json st)).
Proof.
  intros Hdoc Hus Ht Hpost Hres Hu.
  split; [apply totals_of_initial |].
  unfold Frontend.process_query, Frontend.generate_summary.
  rewrite (validation_passes _ _ Hdoc), !Hpost.
  unfold Frontend.receive. rewrite Hres. cbn [Frontend.with_usage Frontend.with_history
    Frontend.token_usage].
  split; now apply add_usage_totals.
Qed.

Lemma session_totals_exact_witness :
  totals_of ([] ++ [billed5])
    (Frontend.token_usage (Frontend.process_query post5 "What is it about?" session1)).
Proof.
  apply (session_totals_exact post5 "What is it about?" session1 []
           {| Frontend.answer := Some "It is about five words.";
              Frontend.summary := None;
              Frontend.result_usage := Some billed5 |} billed5).
  - reflexivity.
  - constructor.
  - apply totals_of_initial.
  - reflexivity.
  - reflexivity.
  - exists 100, 100, (lit 4 1000). repeat split.
Defined.

(** X16. The three totals are not updated together: a reply whose
    [token_usage] has the token counts but no [cost], which is what the
    handlers return when [log_cost] gave up, makes [process_query] show
    the answer and add the tokens to the totals, and then fail on the
    missing key, so that the cost of the session stays as it was. A
    request that fails altogether changes no total. *)
Theorem missing_cost_partial_update
    (post_json : string -> Endpoints.payload -> outcome Frontend.api_result)
    (query : string) (st : Frontend.session) (result : Frontend.api_result)
    (u : gmap string num) (ti to i o : Z) :
  truthy_str (Frontend.pdf_content st) || truthy_str (Frontend.pdf_name st) = true ->
  Frontend.total_input_tokens (Frontend.token_usage st) = Int ti ->
  Frontend.total_output_tokens (Frontend.token_usage st) = Int to ->
  u !! "input_tokens" = Some (Int i) ->
  u !! "output_tokens" = Some (Int o) ->
  u !! "cost" = None ->
  Frontend.result_usage result = Some u ->
  ((forall path p, post_json path p = Returned result) ->
   Frontend.token_usage (Frontend.process_query post_json query st)
   = {| Frontend.total_input_tokens := Int (ti + i);
        Frontend.total_output_tokens := Int (to + o);
        Frontend.total_cost := Frontend.total_cost (Frontend.token_usage st) |} /\
   last (Frontend.chat_history (Frontend.process_query post_json query st))
   = Some {| role := "assistant";
             msg_content := default "Sorry, I couldn't process your question."
                              (Frontend.answer result) |}) /\
  ((forall path p, exists msg, post_json path p = Raised msg) ->
   Frontend.token_usage (Frontend.process_query post_json query st) = Frontend.token_usage st).
Proof.
  intros Hdoc Hti Hto Hi Ho Hc Hres. split.
  - intros Hpost. unfold Frontend.process_query.
    rewrite (validation_passes _ _ Hdoc), Hpost.
    unfold Frontend.receive. rewrite Hres.
    cbn [Frontend.with_usage Frontend.with_history Frontend.token_usage Frontend.chat_history].
    split; [| now rewrite last_snoc].
    unfold Frontend.add_usage, TokenManager.getitem. rewrite Hi, Ho, Hc, Hti, Hto.
    reflexivity.
  - intros Hpost. unfold Frontend.process_query.
    rewrite (validation_passes _ _ Hdoc).
    match goal with |- context [post_json ?a ?b] => destruct (Hpost a b) as [msg ->] end.
    reflexivity.
Qed.

Lemma missing_cost_partial_update_witness :
  Frontend.token_usage (Frontend.process_query post_unbilled "What is it about?" session1)
  = {| Frontend.total_input_tokens := Int (0 + 100);
       Frontend.total_output_tokens := Int (0 + 100);
       Frontend.total_cost := Frontend.total_cost (Frontend.token_usage session1) |}.
Proof.
  apply (missing_cost_partial_update post_unbilled "What is it about?" session1
           {| Frontend.answer := Some "It is about five words.";
              Frontend.summary := None;
              Frontend.result_usage := Some usage5 |} usage5 0 0 100 100);
    reflexivity.
Defined.

Section Answered.

Context `{J : JsonLib}.
Variable llm : LiteLLMClient.t.
Variable post : request -> outcome http_response.

Lemma exchange_answered (model prompt : string) (c : string) :
  answers_with post c ->
  LiteLLMClient.exchange llm post model prompt 1000 None
  = Returned (c, counted_usage (LiteLLMClient._count_tokens llm prompt)
                   (LiteLLMClient._count_tokens llm c)).
Proof.
  intros Ha. unfold LiteLLMClient.exchange.
  destruct (build_request_returns llm model prompt 1000 None) as (req & -> & _).
  cbn [obind].
  destruct (Ha req) as (resp & body & -> & Hs & Hb & Hc & Hu). cbn [obind].
  rewrite Hs. cbn [Z.eqb Pos.eqb negb]. rewrite Hb. cbn [obind]. rewrite Hc. cbn [obind].
  rewrite Hu. cbn [default]. now rewrite !lookup_empty.
Qed.

(** [log_cost] on the dictionary of counted tokens. *)
Lemma log_cost_counted_usage (tm : TokenManager.t) (dir timestamp today model : string)
    (l : loc) (h : heap) (fs : filesystem) (n m : Z) :
  TokenManager.model_pricing tm = default_model_pricing ->
  0 <= n < 2 ^ 64 -> 0 <= m < 2 ^ 64 ->
  let ci := TokenManager.calculate_cost tm model n m in
  CostInfo.error ci = None /\
  deref (fst (CostLogger.log_cost (CostLogger.init dir) timestamp today model l
                (<[l := counted_usage n m]> h) fs)) l
  = Routes.usage (billed_reply "" ci).
Proof.
  intros Htm Hn Hm ci.
  destruct (int_truediv_1000_ok n Hn) as (qi & Hqi & _).
  destruct (int_truediv_1000_ok m Hm) as (qo & Hqo & _).
  subst ci. rewrite (calculate_cost_ok tm model n m qi qo Hqi Hqo). cbv zeta.
  split; [reflexivity |].
  unfold CostLogger.log_cost, try_except.
  rewrite deref_insert. cbn [CostLogger.init CostLogger.model_pricing].
  change (counted_usage n m !! "input_tokens") with (Some (Int n)).
  change (counted_usage n m !! "output_tokens") with (Some (Int m)).
  cbn [default]. unfold id. cbn [CostLogger.div_1000]. rewrite Hqi. cbn [rbind].
  rewrite Hqo. cbn [rbind fst]. rewrite deref_insert, Htm. reflexivity.
Qed.

End Answered.

(** X17. A call that is answered is billed by the formula of the
    cost calculator: for a request with ASCII texts that passes
    validation and a provider that answers with an ASCII content and
    without reporting usage, both handlers reply with the
    content of the provider as text and a [token_usage] that holds the
    client's own counts of the prompt and of the content, their sum, and
    the three costs that [calculate_cost] gives for these counts with
    the default pricing table. The counts are assumed to be below
    2**64. *)
Theorem answered_call_is_billed `{JsonLib} (sv : Endpoints.services) (tm : TokenManager.t)
    (dir timestamp today : string) (p : Endpoints.payload) (h : heap) (fs : filesystem)
    (c : string) :
  let llm := Endpoints.llm_client sv in
  let model := default "GPT-4o" (Endpoints.model p) in
  let m := LiteLLMClient._count_tokens llm c in
  Endpoints.cost_logger sv = CostLogger.init dir ->
  TokenManager.model_pricing tm = default_model_pricing ->
  ascii_payload p = true ->
  ascii_text c = true ->
  truthy_str (Endpoints.pdf_content p) || truthy_str (Endpoints.pdf_name p) = true ->
  answers_with (Endpoints.post sv) c ->
  m < 2 ^ 64 ->
  (let n := LiteLLMClient._count_tokens llm (summary_prompt_of p) in
   n < 2 ^ 64 ->
   CostInfo.error (TokenManager.calculate_cost tm model n m) = None /\
   Endpoints.result (Endpoints.summarize sv timestamp today p h fs)
   = Endpoints.Reply (billed_reply c (TokenManager.calculate_cost tm model n m))) /\
  (let n := LiteLLMClient._count_tokens llm (qa_prompt_of p) in
   n < 2 ^ 64 ->
   truthy_str (Endpoints.question p) = true ->
   CostInfo.error (TokenManager.calculate_cost tm model n m) = None /\
   Endpoints.result (Endpoints.ask_question sv timestamp today p h fs)
   = Endpoints.Reply (billed_reply c (TokenManager.calculate_cost tm model n m))).
Proof.
  intros llm model m Hcl Htm _ _ Hvalid Ha Hm.
  pose proof (count_tokens_nonneg llm c) as Hm0. fold m in Hm0.
  split.
  - intros n Hn.
    pose proof (count_tokens_nonneg llm (summary_prompt_of p)) as Hn0. fold n in Hn0.
    destruct (log_cost_counted_usage tm dir timestamp today model (fresh (dom h)) h fs n m
                Htm (conj Hn0 Hn) (conj Hm0 Hm)) as [Herr Hlog].
    split; [exact Herr |].
    unfold Endpoints.summarize. rewrite (validation_passes _ _ Hvalid).
    fold (summary_prompt_of p). fold llm. unfold LiteLLMClient.generate_response.
    rewrite (exchange_answered llm (Endpoints.post sv) _ _ c Ha). fold n m.
    unfold Routes.summarize, Routes.get_token_usage. cbn [Routes.token_usage Routes.content].
    rewrite <- Hcl in Hlog. fold model.
    destruct (CostLogger.log_cost (Endpoints.cost_logger sv) timestamp today model _ _ fs)
      as [h2 fs2].
    cbn [fst] in Hlog. cbn [Endpoints.result]. rewrite Hlog.
    unfold billed_reply. cbn [default Routes.usage]. reflexivity.
  - intros n Hn Hq.
    pose proof (count_tokens_nonneg llm (qa_prompt_of p)) as Hn0. fold n in Hn0.
    destruct (log_cost_counted_usage tm dir timestamp today model (fresh (dom h)) h fs n m
                Htm (conj Hn0 Hn) (conj Hm0 Hm)) as [Herr Hlog].
    split; [exact Herr |].
    unfold Endpoints.ask_question. rewrite Hq. cbn [negb].
    rewrite (validation_passes _ _ Hvalid).
    fold (qa_prompt_of p). fold llm. unfold LiteLLMClient.generate_response.
    rewrite (exchange_answered llm (Endpoints.post sv) _ _ c Ha). fold n m.
    unfold Routes.ask_question, Routes.get_token_usage. cbn [Routes.token_usage Routes.content].
    rewrite <- Hcl in Hlog. fold model.
    destruct (CostLogger.log_cost (Endpoints.cost_logger sv) timestamp today model _ _ fs)
      as [h2 fs2].
    cbn [fst] in Hlog. cbn [Endpoints.result]. rewrite Hlog.
    unfold billed_reply. cbn [default Routes.usage]. reflexivity.
Qed.

Lemma answered_call_is_billed_witness :
  Endpoints.result
    (Endpoints.summarize (H := sample_json) services_ok "2024-05-01T09:20:00.000500"
       "2024-05-01" payload_text heap0 (fs_of ""))
  = Endpoints.Reply
      (billed_reply "A short summary."
         (TokenManager.calculate_cost tm0 (default "GPT-4o" (Endpoints.model payload_text))
            (LiteLLMClient._count_tokens llm0 (summary_prompt_of payload_text))
            (LiteLLMClient._count_tokens llm0 "A short summary."))).
Proof.
  pose proof (answered_call_is_billed (H := sample_json) services_ok tm0 "./cost_logs"
                "2024-05-01T09:20:00.000500" "2024-05-01" payload_text heap0 (fs_of "")
                "A short summary.") as Hx.
  cbv zeta in Hx.
  assert (Hcl : Endpoints.cost_logger services_ok = CostLogger.init "./cost_logs")
    by reflexivity.
  assert (Htm : TokenManager.model_pricing tm0 = default_model_pricing) by reflexivity.
  assert (Hascii : ascii_payload payload_text = true) by reflexivity.
  assert (Hc : ascii_text "A short summary." = true) by reflexivity.
  assert (Hvalid : truthy_str (Endpoints.pdf_content payload_text)
                   || truthy_str (Endpoints.pdf_name payload_text) = true)
    by reflexivity.
  assert (Ha : answers_with (Endpoints.post services_ok) "A short summary.").
  { intros req. eexists _, _. split; [reflexivity |]. repeat split. }
  assert (Hm : LiteLLMClient._count_tokens llm0 "A short summary." < 2 ^ 64)
    by (vm_compute; reflexivity).
  assert (Hn : LiteLLMClient._count_tokens llm0 (summary_prompt_of payload_text) < 2 ^ 64)
    by (vm_compute; reflexivity).
  exact (proj2 (proj1 (Hx Hcl Htm Hascii Hc Hvalid Ha Hm) Hn)).
Defined.

(** ** Blank lines *)

Section BlankLines.

Context `{J : JsonLib}.



End BlankLines.



(** ** The usage stream *)

Section Stream.

Lemma generate_response_new_dict (self : LiteLLMClient.t)
    (post : request -> outcome http_response) (model prompt : string) (max_tokens : Z)
    (system_message : option string) (h : heap) :
  exists content d,
    LiteLLMClient.generate_response self post model prompt max_tokens system_message h
    = ({| Routes.content := Some content; Routes.token_usage := Some (fresh (dom h)) |},
       <[fresh (dom h) := d]> h) /\
    dom d = {["input_tokens"; "output_tokens"; "total_tokens"]}.
Proof.
  unfold LiteLLMClient.generate_response.
  destruct (LiteLLMClient.exchange self post model prompt max_tokens system_message)
    as [[content d] | msg] eqn:Hx.
  - exists content, d. split; [reflexivity |].
    unfold LiteLLMClient.exchange in Hx.
    destruct (LiteLLMClient.build_request _ _ _ _ _); cbn [obind] in Hx; [| discriminate].
    destruct (post _); cbn [obind] in Hx; [| discriminate].
    destruct (if negb _ then _ else _); cbn [obind] in Hx; [| discriminate].
    destruct (LiteLLMClient.content_of _); cbn [obind] in Hx; [| discriminate].
    injection Hx as _ <-. rewrite !dom_insert_L, dom_empty_L. set_solver.
  - eexists _, _. split; [reflexivity |].
    rewrite !dom_insert_L, dom_empty_L. set_solver.
Qed.

(** [log_cost] writes no key of the dictionary but the three costs. *)
Lemma log_cost_keys_frame `{JsonLib} (self : CostLogger.t) (timestamp today model : string)
    (l : loc) (h : heap) (fs : filesystem) (k : string) :
  k <> "input_cost" -> k <> "output_cost" -> k <> "cost" ->
  deref (fst (CostLogger.log_cost self timestamp today model l h fs)) l !! k
  = deref h l !! k.
Proof.
  intros H1 H2 H3. unfold CostLogger.log_cost, try_except.
  destruct (CostLogger.div_1000 (default (Int 0) (deref h l !! "input_tokens"))) as [qi |];
    [| reflexivity]. simpl.
  destruct (CostLogger.div_1000 (default (Int 0) (deref h l !! "output_tokens"))) as [qo |];
    [| reflexivity]. simpl.
  rewrite deref_insert. now rewrite !lookup_insert_ne by congruence.
Qed.

Lemma three_keys_no_cost (d : gmap string num) :
  dom d = {["input_tokens"; "output_tokens"; "total_tokens"]} ->
  d !! "input_cost" = None /\ d !! "output_cost" = None /\ d !! "cost" = None.
Proof.
  intros Hd.
  assert (Hk : forall k, k <> "input_tokens" -> k <> "output_tokens" -> k <> "total_tokens" ->
                         d !! k = None).
  { intros k H1 H2 H3. apply not_elem_of_dom. rewrite Hd.
    rewrite !elem_of_union, !elem_of_singleton. intros [[E | E] | E]; congruence. }
  repeat split; apply Hk; discriminate.
Qed.

End Stream.

(** X19. The usage stream is written before the call is billed: for
    a request that passes validation, with a connected stream that takes
    the entry and a token usage that [json.dumps] writes, [summarize]
    adds exactly one entry to [llm_usage], after the entries that were
    there, whose [token_usage] is the serialised dictionary of the client
    as it is before [log_cost]: it has the three token counts and none
    of the cost keys. The reply carries the same dictionary after
    [log_cost], with the same token counts. In fallback mode, or when
    the serialisation or the server fails, nothing is added and the
    reply is the same. *)
Theorem stream_event_before_billing `{JsonLib} (sv : Endpoints.services)
    (timestamp today : string) (p : Endpoints.payload) (h : heap) (fs : filesystem) :
  truthy_str (Endpoints.pdf_content p) || truthy_str (Endpoints.pdf_name p) = true ->
  let served := Endpoints.summarize sv timestamp today p h fs in
  exists d r,
    dom d = {["input_tokens"; "output_tokens"; "total_tokens"]} /\
    Endpoints.result served = Endpoints.Reply r /\
    (forall k, k <> "input_cost" -> k <> "output_cost" -> k <> "cost" ->
               Routes.usage r !! k = d !! k) /\
    match RedisStreamClient.redis (Endpoints.redis_client sv), Endpoints.xadd_ok sv,
          Endpoints.dumps sv d with
    | Some entries, true, Returned text =>
        exists data,
          RedisStreamClient.redis (Endpoints.stream served)
          = Some (entries ++ [("llm_usage", data)]) /\
          data !! "token_usage" = Some text /\
          data !! "action" = Some "summarize" /\
          data !! "pdf_name" = Some (format_str (Endpoints.pdf_name p)) /\
          (forall m, Endpoints.model p = Some m -> data !! "model" = Some m)
    | _, _, _ => Endpoints.stream served = Endpoints.redis_client sv
    end.
Proof.
  intros Hvalid served. subst served.
  unfold Endpoints.summarize. rewrite (validation_passes _ _ Hvalid).
  destruct (generate_response_new_dict (Endpoints.llm_client sv) (Endpoints.post sv)
              (default "GPT-4o" (Endpoints.model p))
              (create_summary_prompt
                 (if truthy_str (Endpoints.selected_text p) then Endpoints.selected_text p
                  else Endpoints.pdf_content p) (Endpoints.pdf_name p)) 1000 None h)
    as (content & d & -> & Hd).
  unfold Routes.summarize, Routes.get_token_usage. cbn [Routes.token_usage Routes.content fst snd].
  pose proof (fun k => log_cost_keys_frame (Endpoints.cost_logger sv) timestamp today
                         (default "GPT-4o" (Endpoints.model p)) (fresh (dom h))
                         (<[fresh (dom h) := d]> h) fs k) as Hframe.
  destruct (CostLogger.log_cost (Endpoints.cost_logger sv) timestamp today _ _ _ fs)
    as [h2 fs2].
  cbn [fst] in Hframe. cbn [Endpoints.result Endpoints.stream].
  exists d. eexists. split; [exact Hd |]. split; [reflexivity |]. split.
  { intros k H1 H2 H3. cbn [Routes.usage]. rewrite (Hframe k H1 H2 H3).
    now rewrite deref_insert. }
  unfold RedisStreamClient.publish. rewrite deref_insert.
  destruct (RedisStreamClient.redis (Endpoints.redis_client sv)) as [entries |];
    [| reflexivity].
  destruct (Endpoints.dumps sv d) as [text | msg] eqn:Hdumps.
  - rewrite (omap_insert_Some _ _ "action" _ "summarize") by reflexivity.
    rewrite (omap_insert_Some _ _ "model" _ (default "GPT-4o" (Endpoints.model p)))
      by reflexivity.
    rewrite (omap_insert_Some _ _ "pdf_name" _ (format_str (Endpoints.pdf_name p)))
      by reflexivity.
    rewrite (omap_insert_Some _ _ "token_usage" _ text)
      by (cbn [RedisStreamClient.render]; now rewrite Hdumps).
    rewrite omap_empty.
    rewrite bool_decide_eq_true_2 by (now rewrite !dom_insert_L, !dom_empty_L).
    cbn [andb]. destruct (Endpoints.xadd_ok sv); [| reflexivity].
    eexists. split; [reflexivity |].
    rewrite lookup_insert_ne by discriminate. rewrite lookup_insert_ne by discriminate.
    rewrite lookup_insert_ne by discriminate. rewrite lookup_insert_eq.
    rewrite lookup_insert_eq.
    rewrite lookup_insert_ne by discriminate. rewrite lookup_insert_ne by discriminate.
    rewrite lookup_insert_eq.
    rewrite lookup_insert_ne by discriminate. rewrite lookup_insert_eq.
    split; [reflexivity |]. split; [reflexivity |]. split; [reflexivity |].
    intros m ->. reflexivity.
  - rewrite bool_decide_eq_false_2.
    + cbn [andb]. destruct (Endpoints.xadd_ok sv); reflexivity.
    + intros Hdom.
      assert (Hin : "token_usage" ∈ dom (<["action" := RedisStreamClient.VStr (Some "summarize")]>
                 (<["model" := RedisStreamClient.VStr (Some (default "GPT-4o" (Endpoints.model p)))]>
                 (<["pdf_name" := RedisStreamClient.VStr (Endpoints.pdf_name p)]>
                 (<["token_usage" := RedisStreamClient.VDict d]>
                    (∅ : gmap string RedisStreamClient.value)))))).
      { apply elem_of_dom. rewrite lookup_insert_ne by discriminate.
        rewrite lookup_insert_ne by discriminate. rewrite lookup_insert_ne by discriminate.
        rewrite lookup_insert_eq. eauto. }
      rewrite <- Hdom in Hin. apply elem_of_dom in Hin as [x Hx].
      rewrite lookup_omap in Hx.
      rewrite lookup_insert_ne in Hx by discriminate.
      rewrite lookup_insert_ne in Hx by discriminate.
      rewrite lookup_insert_ne in Hx by discriminate.
      rewrite lookup_insert_eq in Hx. cbn in Hx. rewrite Hdumps in Hx. discriminate.
Qed.

Lemma stream_event_before_billing_witness :
  exists (d : gmap string num) r,
    dom d = ({["input_tokens"; "output_tokens"; "total_tokens"]} : gset string) /\
    Endpoints.result
      (Endpoints.summarize (H := sample_json) services_down "2024-05-01T09:20:00.000500"
         "2024-05-01" payload_text heap0 (fs_of ""))
    = Endpoints.Reply r.
Proof.
  destruct (stream_event_before_billing (H := sample_json) services_down
              "2024-05-01T09:20:00.000500" "2024-05-01" payload_text heap0 (fs_of ""))
    as (d & r & Hd & Hr & _).
  - reflexivity.
  - exists d, r. split; [exact Hd | exact Hr].
Defined.
